(** * Lista de Mercado: record codec, list repository and totals

    A shallow embedding of the shopping-list application
    ([app.py], its backup [app_bk.py] and the earlier variant
    [app copy.py]) and the proofs of its specification's testable
    properties.

    Conventions of the embedding.
    - A Python [str] is a [string] of its UTF-8 bytes: bytewise
      lexicographic order is code-point order, which is the order Python
      uses to compare and sort strings.
    - A [float] is held as a decimal numeral that reads as it: a sign, the
      significant decimal digits and the decimal exponent of the first
      digit.  Sums and comparisons are those of the decimals.  Where a float
      is rounded to six digits, in the [g] format, it is the binary float
      nearest to the numeral that is rounded, as Python does.  The finite
      range of float64 is not modelled.
    - Where the versions of pandas differ, the embedding follows pandas 2:
      [astype(str)] writes a missing category as [nan] (pandas 3 writes the
      empty text; both are read back as a missing category).
    - A DataFrame is the list of its rows, in order; the six columns of the
      application are the fields of a record of Python objects ([Cell]).
      Row labels (the index) are not modelled.
    - The remote spreadsheet is a list of titled tabs holding grids of
      strings; a call to the remote service may fail, which the caller of a
      model function chooses through a [Faults] record. *)

From Stdlib Require Import List String Ascii ZArith NArith Arith Bool Lia.
From Stdlib Require Import Sorting.Sorted Sorting.Permutation.
Import ListNotations.

Local Open Scope string_scope.
Local Open Scope list_scope.

(* ================================================================== *)
(** * Part I. The model                                                *)
(* ================================================================== *)

(** ** Python strings *)

Module Str.

(** [s.replace(a, b)] for one-character patterns. *)
Fixpoint replace (a b : ascii) (s : string) : string :=
  match s with
  | EmptyString => EmptyString
  | String c s' => String (if Ascii.eqb c a then b else c) (replace a b s')
  end.

(** [s.lower()] on the ASCII letters. *)
Definition lower_char (c : ascii) : ascii :=
  let n := nat_of_ascii c in
  if ((65 <=? n) && (n <=? 90))%nat then ascii_of_nat (n + 32) else c.

Fixpoint lower (s : string) : string :=
  match s with
  | EmptyString => EmptyString
  | String c s' => String (lower_char c) (lower s')
  end.

(** C [isspace] on ASCII: space, and the controls 9..13. *)
Definition is_space (c : ascii) : bool :=
  let n := nat_of_ascii c in
  ((n =? 32) || ((9 <=? n) && (n <=? 13)))%nat.

Fixpoint skip_spaces (s : string) : string :=
  match s with
  | String c s' => if is_space c then skip_spaces s' else s
  | EmptyString => EmptyString
  end.

Fixpoint mem (x : string) (l : list string) : bool :=
  match l with
  | [] => false
  | y :: l' => String.eqb x y || mem x l'
  end.

(** Position of the first occurrence, [list.index] without the exception. *)
Fixpoint index_of (x : string) (l : list string) : option nat :=
  match l with
  | [] => None
  | y :: l' => if String.eqb x y then Some 0
               else option_map S (index_of x l')
  end.

Fixpoint count (x : string) (l : list string) : nat :=
  match l with
  | [] => 0
  | y :: l' => (if String.eqb x y then 1 else 0) + count x l'
  end.

End Str.

(** ** Decimal digits *)

Module Digits.

Definition digit_char (d : nat) : ascii := ascii_of_nat (48 + d).

Definition is_digit (c : ascii) : bool :=
  ((48 <=? nat_of_ascii c) && (nat_of_ascii c <=? 57))%nat.

Definition digit_of_char (c : ascii) : nat := nat_of_ascii c - 48.

Fixpoint to_string (ds : list nat) : string :=
  match ds with
  | [] => EmptyString
  | d :: ds' => String (digit_char d) (to_string ds')
  end.

(** The longest prefix of decimal digits, and what follows it. *)
Fixpoint span (s : string) : list nat * string :=
  match s with
  | String c s' =>
      if is_digit c
      then let (ds, r) := span s' in (digit_of_char c :: ds, r)
      else ([], s)
  | EmptyString => ([], EmptyString)
  end.

Definition of_digits (ds : list nat) : N :=
  fold_left (fun a d => (a * 10 + N.of_nat d)%N) ds 0%N.

Fixpoint to_digits_fuel (fuel : nat) (n : N) (acc : list nat) : list nat :=
  match fuel with
  | O => acc
  | S f =>
      if (n =? 0)%N then acc
      else to_digits_fuel f (n / 10)%N (N.to_nat (n mod 10)%N :: acc)
  end.

(** Most significant digit first, no leading zero; [0] has no digit. *)
Definition to_digits (n : N) : list nat :=
  to_digits_fuel (S (N.to_nat (N.log2 n))) n [].

Fixpoint drop_zeros (ds : list nat) : list nat :=
  match ds with
  | 0 :: ds' => drop_zeros ds'
  | _ => ds
  end.

Fixpoint count_zeros (ds : list nat) : nat :=
  match ds with
  | 0 :: ds' => S (count_zeros ds')
  | _ => 0
  end.

Definition strip_trailing (ds : list nat) : list nat :=
  rev (drop_zeros (rev ds)).

Definition zeros (n : nat) : list nat := repeat 0 n.

End Digits.

(** ** Floats as exact decimals *)

Module Float.
Import Digits.

(** [FFin neg ds x] is [(-1)^neg * d1.d2...dn * 10^x] for [ds = [d1;...;dn]];
    with no digit it is the zero of that sign.  The canonical form has no
    leading and no trailing zero digit, and exponent [0] for a zero. *)
Inductive float64 : Type :=
| FFin (neg : bool) (ds : list nat) (x : Z)
| FInf (neg : bool)
| FNaN.

Definition zero : float64 := FFin false [] 0%Z.

(** The canonical float of the decimal numeral [i.f e]. *)
Definition of_parts (neg : bool) (i f : list nat) (e : Z) : float64 :=
  let d := i ++ f in
  match strip_trailing (drop_zeros d) with
  | [] => FFin neg [] 0%Z
  | ds => FFin neg ds
            (Z.of_nat (List.length i) - 1 - Z.of_nat (count_zeros d) + e)%Z
  end.

(** [m * 10^e]. *)
Definition dec (m e : Z) : float64 :=
  of_parts (m <? 0)%Z (to_digits (Z.to_N (Z.abs m))) [] e.

Definition is_nan (v : float64) : bool :=
  match v with FNaN => true | _ => false end.

(** Mantissa and exponent of a finite value: [m * 10^e]. *)
Definition mant_exp (neg : bool) (ds : list nat) (x : Z) : Z * Z :=
  let m := Z.of_N (of_digits ds) in
  ((if neg then - m else m)%Z, (x - (Z.of_nat (List.length ds) - 1))%Z).

Definition fadd (a b : float64) : float64 :=
  match a, b with
  | FNaN, _ | _, FNaN => FNaN
  | FInf s, FInf t => if Bool.eqb s t then FInf s else FNaN
  | FInf s, FFin _ _ _ => FInf s
  | FFin _ _ _, FInf t => FInf t
  | FFin na da xa, FFin nb db xb =>
      let (ma, ea) := mant_exp na da xa in
      let (mb, eb) := mant_exp nb db xb in
      let e := Z.min ea eb in
      let m := (ma * 10 ^ (ea - e) + mb * 10 ^ (eb - e))%Z in
      if (m =? 0)%Z then FFin (na && nb) [] 0%Z else dec m e
  end.

(** [x > 0]. *)
Definition is_positive (v : float64) : bool :=
  match v with
  | FFin false (_ :: _) _ => true
  | FInf false => true
  | _ => false
  end.

(** *** Formatting: ["{:g}".format(x)] *)

(** The float that a decimal stands for is the binary float nearest to it,
    with 53 significant bits and ties to even.  [nearest_binary m e] is that
    float for the decimal [m * 10^e] ([0 < m]), as [(q, t)] standing for
    [q * 2^t]: with [m * 10^e = n / d] and [t] such that
    [2^52 <= n / d / 2^t < 2^53], [q] is [n / d / 2^t] rounded to an
    integer.  The range of the exponent of a float is left out. *)
Definition nearest_binary (m e : Z) : Z * Z :=
  let n := (if 0 <=? e then m * 10 ^ e else m)%Z in
  let d := (if 0 <=? e then 1 else 10 ^ (- e))%Z in
  let t0 := (Z.log2 n - Z.log2 d - 52)%Z in
  let quot (t : Z) :=
    (if 0 <=? t then n / (d * 2 ^ t) else (n * 2 ^ (- t)) / d)%Z in
  let t := (if quot t0 <? 2 ^ 52 then t0 - 1 else t0)%Z in
  let num := (if 0 <=? t then n else n * 2 ^ (- t))%Z in
  let den := (if 0 <=? t then d * 2 ^ t else d)%Z in
  let q := (num / den)%Z in
  let r := (num mod den)%Z in
  match (2 * r ?= den)%Z with
  | Lt => (q, t)
  | Gt => ((q + 1)%Z, t)
  | Eq => (if Z.even q then q else (q + 1)%Z, t)
  end.

(** [q * 2^t] compared with [m * 10^e]. *)
Definition compare_binary (qt : Z * Z) (m e : Z) : comparison :=
  let (q, t) := qt in
  (q * (if 0 <=? t then 2 ^ t else 1) * (if 0 <=? e then 1 else 10 ^ (- e))
   ?= m * (if 0 <=? e then 10 ^ e else 1) * (if 0 <=? t then 1 else 2 ^ (- t)))%Z.

(** Whether the float of [d1.d2...dn * 10^x] is rounded up to [p] digits,
    [p < n]: the float is compared with the decimal halfway between the two
    numerals of [p] digits around it, the first [p] digits followed by a
    five, and a float that is that decimal goes to the even digit. *)
Definition rounds_up (p : nat) (ds : list nat) (x : Z) : bool :=
  let hd := firstn p ds in
  match compare_binary
          (nearest_binary (Z.of_N (of_digits ds))
             (x - (Z.of_nat (List.length ds) - 1)))
          (Z.of_N (of_digits hd) * 10 + 5) (x - Z.of_nat p) with
  | Gt => true
  | Lt => false
  | Eq => Nat.odd (last hd 0)
  end.

(** Round to [p] significant digits and drop the trailing zeros (the [g]
    presentation removes insignificant zeros): the numeral of [p] digits
    nearest to the float. *)
Definition round_sig (p : nat) (ds : list nat) (x : Z) : list nat * Z :=
  if (List.length ds <=? p)%nat then (ds, x)
  else
    let hd := firstn p ds in
    if rounds_up p ds x then
      let ds' := to_digits (of_digits hd + 1)%N in
      (strip_trailing ds', if (p <? List.length ds')%nat then (x + 1)%Z else x)
    else (strip_trailing hd, x).

(** Integer and fractional digits of [d1.d2...dn * 10^x] in positional
    notation. *)
Definition fixed_parts (ds : list nat) (x : Z) : list nat * list nat :=
  if (x <? 0)%Z then ([0], zeros (Z.to_nat (- x - 1)) ++ ds)
  else
    let k := S (Z.to_nat x) in
    (firstn k ds ++ zeros (k - List.length ds), skipn k ds).

Definition print_mantissa (i f : list nat) : string :=
  to_string i ++ match f with [] => "" | _ :: _ => "." ++ to_string f end.

(** The exponent has a sign and at least two digits. *)
Definition print_exponent (x : Z) : string :=
  let ds := to_digits (Z.to_N (Z.abs x)) in
  "e" ++ (if (x <? 0)%Z then "-" else "+")
      ++ to_string (zeros (2 - List.length ds) ++ ds).

Definition format_g (v : float64) : string :=
  match v with
  | FNaN => "nan"
  | FInf neg => if neg then "-inf" else "inf"
  | FFin neg ds x =>
      (if neg then "-" else "") ++
      match ds with
      | [] => "0"
      | _ :: _ =>
          let (ds', x') := round_sig 6 ds x in
          if ((-4 <=? x') && (x' <? 6))%Z
          then let (i, f) := fixed_parts ds' x' in print_mantissa i f
          else print_mantissa (firstn 1 ds') (skipn 1 ds')
                 ++ print_exponent x'
      end
  end.

(** [str(x)] of a float: the shortest numeral that reads back, which for an
    exact decimal is all of its digits. *)
Definition py_str (v : float64) : string :=
  match v with
  | FNaN => "nan"
  | FInf neg => if neg then "-inf" else "inf"
  | FFin neg ds x =>
      (if neg then "-" else "") ++
      match ds with
      | [] => "0.0"
      | _ :: _ =>
          if ((-4 <=? x) && (x <? 16))%Z
          then let (i, f) := fixed_parts ds x in
               to_string i ++ "." ++
               to_string (match f with [] => [0] | _ :: _ => f end)
          else print_mantissa (firstn 1 ds) (skipn 1 ds) ++ print_exponent x
      end
  end.

(** *** Parsing: the numeral grammar of [pd.to_numeric] on a string *)

Definition lex_sign (s : string) : bool * string :=
  match s with
  | String "-" r => (true, r)
  | String "+" r => (false, r)
  | _ => (false, s)
  end.

Definition lex_fraction (s : string) : list nat * string :=
  match s with
  | String "." r => span r
  | _ => ([], s)
  end.

(** An optional exponent [e[+-]digits]; [None] when the marker has no
    digit after it. *)
Definition lex_exponent (s : string) : option (Z * string) :=
  match s with
  | String c r =>
      if Ascii.eqb c "e" || Ascii.eqb c "E" then
        let (neg, r1) := lex_sign r in
        let (ds, r2) := span r1 in
        match ds with
        | [] => None
        | _ :: _ =>
            let n := Z.of_N (of_digits ds) in
            Some ((if neg then - n else n)%Z, r2)
        end
      else Some (0%Z, s)
  | EmptyString => Some (0%Z, s)
  end.

Definition lex_decimal (s : string) : option float64 :=
  let (neg, r0) := lex_sign (Str.skip_spaces s) in
  let (i, r1) := span r0 in
  let (f, r2) := lex_fraction r1 in
  match i ++ f with
  | [] => None
  | _ :: _ =>
      match lex_exponent r2 with
      | Some (e, r3) =>
          match Str.skip_spaces r3 with
          | EmptyString => Some (of_parts neg i f e)
          | String _ _ => None
          end
      | None => None
      end
  end.

(** The spellings of infinity that are accepted besides numerals. *)
Definition lex_special (s : string) : option float64 :=
  let t := Str.lower s in
  if Str.mem t ["inf"; "+inf"; "infinity"; "+infinity"] then Some (FInf false)
  else if Str.mem t ["-inf"; "-infinity"] then Some (FInf true)
  else None.

Definition parse (s : string) : option float64 :=
  match lex_decimal s with
  | Some v => Some v
  | None => lex_special s
  end.

(** At most [p] significant digits: what [format_g] prints without
    rounding. *)
Definition fits (p : nat) (v : float64) : bool :=
  match v with
  | FFin _ ds _ => (List.length ds <=? p)%nat
  | _ => true
  end.

End Float.

(** ** Exceptions *)

Inductive Exception : Type :=
| TypeError          (* e.g. [bool(pd.NA)] *)
| ValueError         (* e.g. format code 'g' on a [str], a malformed frame *)
| WorksheetNotFound  (* [spreadsheet.worksheet(title)] on an unknown title *)
| APIError.          (* the remote service refused or could not be reached *)

Inductive result (A : Type) : Type :=
| Ok (a : A)
| Raise (e : Exception).
Arguments Ok {A} a.
Arguments Raise {A} e.

Definition bind {A B : Type} (r : result A) (k : A -> result B) : result B :=
  match r with
  | Ok a => k a
  | Raise e => Raise e
  end.

Notation "x <- r ;; k" := (bind r (fun x => k))
  (at level 61, r at next level, right associativity).

Fixpoint mapM {A B : Type} (f : A -> result B) (l : list A)
  : result (list B) :=
  match l with
  | [] => Ok []
  | x :: l' => y <- f x ;; ys <- mapM f l' ;; Ok (y :: ys)
  end.

(** ** The part of pandas that the application uses *)

Module Pandas.
Import Float.

(** A Python object held in a frame: [str], [bool], [float] (with NaN, the
    missing value of a Categorical or of a numeric column) and [pd.NA]. *)
Inductive Cell : Type :=
| CStr (s : string)
| CBool (b : bool)
| CFloat (x : float64)
| CNA.

Definition NaN : Cell := CFloat FNaN.

(** [pd.isna(x)]. *)
Definition isna (c : Cell) : bool :=
  match c with
  | CNA | CFloat FNaN => true
  | _ => false
  end.

(** [Series.astype(str)], elementwise, as pandas 2 has it: a missing
    category, NaN, becomes the text [nan]. *)
Definition astype_str (c : Cell) : string :=
  match c with
  | CStr s => s
  | CBool true => "True"
  | CBool false => "False"
  | CFloat x => py_str x
  | CNA => "<NA>"
  end.

(** [Series.astype(bool)] on an object column, elementwise: the truth value
    of the object, which [pd.NA] refuses to give. *)
Definition astype_bool (c : Cell) : result bool :=
  match c with
  | CStr s => Ok (negb (String.eqb s ""))
  | CBool b => Ok b
  | CFloat (FFin _ [] _) => Ok false
  | CFloat _ => Ok true
  | CNA => Raise TypeError
  end.

(** [Series.fillna(v)], elementwise. *)
Definition fillna (v : Cell) (c : Cell) : Cell :=
  if isna c then v else c.

(** [Series.str.replace(a, b, regex=False)], elementwise, on a column of
    strings. *)
Definition str_replace (a b : ascii) (s : string) : string :=
  Str.replace a b s.

(** [pd.to_numeric(x, errors=...)], elementwise. *)
Inductive Errors : Type := errors_raise | errors_coerce.

Definition to_numeric (errors : Errors) (c : Cell) : result float64 :=
  match c with
  | CStr s =>
      match parse s with
      | Some v => Ok v
      | None =>
          match errors with
          | errors_coerce => Ok FNaN
          | errors_raise =>
              if String.eqb s "" then Ok FNaN else Raise ValueError
          end
      end
  | CBool b => Ok (if b then dec 1 0 else zero)
  | CFloat x => Ok x
  | CNA => Ok FNaN
  end.

Definition fillna_float (d v : float64) : float64 :=
  if is_nan v then d else v.

(** *** Frames *)

(** The six columns of the application. *)
Inductive Col : Type :=
| Category | Name | Quantity | Unit | Price | IsChecked.

Definition label (c : Col) : string :=
  match c with
  | Category => "category"
  | Name => "name"
  | Quantity => "quantity"
  | Unit => "unit"
  | Price => "price"
  | IsChecked => "is_checked"
  end.

Record Row : Type := mkRow {
  category : Cell;
  name : Cell;
  quantity : Cell;
  unit : Cell;
  price : Cell;
  is_checked : Cell
}.

Definition DataFrame : Type := list Row.

Definition get (c : Col) (r : Row) : Cell :=
  match c with
  | Category => category r
  | Name => name r
  | Quantity => quantity r
  | Unit => unit r
  | Price => price r
  | IsChecked => is_checked r
  end.

Definition set (c : Col) (v : Cell) (r : Row) : Row :=
  match c with
  | Category => mkRow v (name r) (quantity r) (unit r) (price r) (is_checked r)
  | Name => mkRow (category r) v (quantity r) (unit r) (price r) (is_checked r)
  | Quantity => mkRow (category r) (name r) v (unit r) (price r) (is_checked r)
  | Unit => mkRow (category r) (name r) (quantity r) v (price r) (is_checked r)
  | Price => mkRow (category r) (name r) (quantity r) (unit r) v (is_checked r)
  | IsChecked => mkRow (category r) (name r) (quantity r) (unit r) (price r) v
  end.

(** [df[c] = df[c].map(f)] *)
Definition map_col (c : Col) (f : Cell -> Cell) (df : DataFrame) : DataFrame :=
  map (fun r => set c (f (get c r)) r) df.

(** [df[c] = v] *)
Definition assign (c : Col) (v : Cell) (df : DataFrame) : DataFrame :=
  map (set c v) df.

(** [df.dropna(how='all')] *)
Definition all_na (r : Row) : bool :=
  isna (category r) && isna (name r) && isna (quantity r) &&
  isna (unit r) && isna (price r) && isna (is_checked r).

Definition dropna_all (df : DataFrame) : DataFrame :=
  filter (fun r => negb (all_na r)) df.

(** [df.dropna(subset=['name'])] *)
Definition dropna_name (df : DataFrame) : DataFrame :=
  filter (fun r => negb (isna (name r))) df.

(** A stable sort, as [sort_values] on several keys is. *)
Section Sort.
Context {A : Type} (le : A -> A -> bool).

Fixpoint insert (x : A) (l : list A) : list A :=
  match l with
  | [] => [x]
  | y :: l' => if le x y then x :: l else y :: insert x l'
  end.

Fixpoint sort (l : list A) : list A :=
  match l with
  | [] => []
  | x :: l' => insert x (sort l')
  end.

End Sort.

(** [==] and [!=] of a column of objects against a string. *)
Definition eq_str (c : Cell) (s : string) : bool :=
  match c with
  | CStr t => String.eqb t s
  | _ => false
  end.

Definition ne_str (c : Cell) (s : string) : bool := negb (eq_str c s).

End Pandas.

(** ** The remote spreadsheet *)

Module Sheets.

(** A tab: its title and the grid of strings that [get_all_values]
    returns. *)
Record Worksheet : Type := mkWorksheet {
  title : string;
  grid : list (list string)
}.

Definition Spreadsheet : Type := list Worksheet.

(** Which remote calls fail (transport or authorisation errors). *)
Record Faults : Type := mkFaults {
  del_fails : bool;
  add_fails : bool;
  clear_fails : bool;
  update_fails : bool
}.

Definition no_faults : Faults := mkFaults false false false false.

Definition titles (sp : Spreadsheet) : list string := map title sp.

(** [spreadsheet.worksheet(t)]: the handle of a tab is its title. *)
Definition worksheet (sp : Spreadsheet) (t : string) : result string :=
  if Str.mem t (titles sp) then Ok t else Raise WorksheetNotFound.

(** [worksheet.get_all_values()] *)
Definition get_all_values (sp : Spreadsheet) (ws : string)
  : list (list string) :=
  match find (fun w => String.eqb (title w) ws) sp with
  | Some w => grid w
  | None => []
  end.

(** [spreadsheet.del_worksheet(ws)] *)
Definition del_worksheet (f : Faults) (sp : Spreadsheet) (ws : string)
  : result Spreadsheet :=
  if del_fails f then Raise APIError
  else Ok (filter (fun w => negb (String.eqb (title w) ws)) sp).

(** [spreadsheet.add_worksheet(title=t, ...)]: titles are unique. *)
Definition add_worksheet (f : Faults) (sp : Spreadsheet) (t : string)
  : result Spreadsheet :=
  if add_fails f || Str.mem t (titles sp) then Raise APIError
  else Ok (sp ++ [mkWorksheet t []]).

Definition put (sp : Spreadsheet) (ws : string) (g : list (list string))
  : Spreadsheet :=
  map (fun w => if String.eqb (title w) ws then mkWorksheet ws g else w) sp.

(** The text a cell shows once a value has been entered: a string as it
    is, a boolean as [TRUE] or [FALSE]. *)
Definition display (c : Pandas.Cell) : string :=
  match c with
  | Pandas.CStr s => s
  | Pandas.CBool true => "TRUE"
  | Pandas.CBool false => "FALSE"
  | Pandas.CFloat x => Float.py_str x
  | Pandas.CNA => ""
  end.

(** [worksheet.clear()] *)
Definition clear (f : Faults) (sp : Spreadsheet) (ws : string)
  : result Spreadsheet :=
  if clear_fails f then Raise APIError else Ok (put sp ws []).

(** [worksheet.update('A1', values, value_input_option='USER_ENTERED')] *)
Definition update (f : Faults) (sp : Spreadsheet) (ws : string)
  (values : list (list Pandas.Cell)) : result Spreadsheet :=
  if update_fails f then Raise APIError
  else Ok (put sp ws (map (map display) values)).

End Sheets.

(** ** What the user is shown *)

Inductive Message : Type :=
| st_error (text : string)
| st_toast (text : string)
| st_info (text : string)
| st_success (text : string).

(** ** The record codec, shared by the three variants *)

Module Codec.
Import Float Pandas Sheets.

Definition CATEGORIAS : list string :=
  ["🥦 Verduras"; "🍓 Frutas"; "🥩 Carnes"; "🛒 Abarrotes"; "🧼 Limpieza";
   "📦 Otros"].

Definition UNIDADES : list string :=
  ["U (Unidad)"; "kg"; "g"; "lb (Libra)"; "L (Litro)"; "ml"].

Definition expected_cols : list Col :=
  [Category; Name; Quantity; Unit; Price; IsChecked].

(** The cell of column [c] in a record of [pd.DataFrame(records,
    columns=header)]; a column absent from the header is created as
    [pd.NA]. *)
Definition column (header : list string) (c : Col) (record : list string)
  : Cell :=
  match Str.index_of (label c) header with
  | Some i =>
      match nth_error record i with
      | Some s => CStr s
      | None => CNA
      end
  | None => CNA
  end.

Definition row_of (header record : list string) : Row :=
  mkRow (column header Category record) (column header Name record)
        (column header Quantity record) (column header Unit record)
        (column header Price record) (column header IsChecked record).

(** [pd.Categorical(values, categories=CATEGORIAS, ordered=True)]: a value
    outside the categories becomes NaN. *)
Definition categorical (c : Cell) : Cell :=
  match c with
  | CStr s => if Str.mem s CATEGORIAS then c else NaN
  | _ => NaN
  end.

(** Position of a category in the enumeration; NaN sorts last. *)
Definition category_code (c : Cell) : nat :=
  match c with
  | CStr s =>
      match Str.index_of s CATEGORIAS with
      | Some i => i
      | None => List.length CATEGORIAS
      end
  | _ => List.length CATEGORIAS
  end.

(** Names in ascending order, missing names last. *)
Definition name_le (a b : Cell) : bool :=
  match b with
  | CStr t =>
      match a with
      | CStr s => String.leb s t
      | _ => false
      end
  | _ => true
  end.

(** The order of [sort_values(by=["category", "name"], ascending=True)]. *)
Definition row_le (r1 r2 : Row) : bool :=
  let c1 := category_code (category r1) in
  let c2 := category_code (category r2) in
  ((c1 <? c2) || ((c1 =? c2) && name_le (name r1) (name r2)))%nat.

(** The grid is the one that [get_all_values] returns, whose lines all have
    one width.  Two kinds of grids are outside of what the six fields of a
    [Row] can hold, and the model raises for them: records that are not as
    wide as the header (pandas raises when no record is as wide as the
    header, and fills the shorter records with [None] otherwise), and a
    header in which a label of the six columns occurs twice (pandas raises
    at [category], [name], [quantity] and [price], and keeps both columns
    of a repeated [unit] or [is_checked]). *)
Definition read_worksheet_as_df (data : list (list string))
  : result DataFrame :=
  match data with
  | [] => Ok []
  | header :: records =>
      if negb (forallb
                (fun r => (List.length r =? List.length header)%nat) records)
      then Raise ValueError
      else if existsb (fun c => (1 <? Str.count (label c) header)%nat)
                expected_cols
      then Raise ValueError
      else
        let df := map (row_of header) records in
        let df := map_col Category categorical df in
        Ok (sort row_le df)
  end.

Definition format_to_comma_string (x : Cell) : result string :=
  if isna x then Ok ""
  else
    match x with
    | CFloat v => Ok (Str.replace "." "," (format_g v))
    | CBool b => Ok (Str.replace "." "," (format_g (if b then dec 1 0 else zero)))
    | _ => Raise ValueError
    end.

Definition header_row : list Cell := map (fun c => CStr (label c)) expected_cols.

(** One line of [df_filled.values.tolist()]. *)
Definition encode_row (r : Row) : result (list Cell) :=
  q <- format_to_comma_string (quantity r) ;;
  p <- format_to_comma_string (price r) ;;
  Ok [CStr (astype_str (category r)); fillna (CStr "") (name r); CStr q;
      fillna (CStr "") (unit r); CStr p; fillna (CStr "") (is_checked r)].

(** [values = [header] + data] *)
Definition values_of (df : DataFrame) : result (list (list Cell)) :=
  data <- mapM encode_row df ;;
  Ok (header_row :: data).

(** Returns whether the write succeeded, the spreadsheet afterwards and
    the error shown. *)
Definition write_df_to_worksheet (f : Faults) (sp : Spreadsheet)
  (ws : string) (df : DataFrame)
  : result (bool * Spreadsheet * list Message) :=
  values <- values_of df ;;
  match clear f sp ws with
  | Raise _ => Ok (false, sp, [st_error "Error guardando"])
  | Ok sp1 =>
      match update f sp1 ws values with
      | Raise _ => Ok (false, sp1, [st_error "Error guardando"])
      | Ok sp2 => Ok (true, sp2, [])
      end
  end.

(** [get_all_lists] *)
Definition reserved (t : string) : bool :=
  Str.mem (Str.lower t) ["hoja1"; "sheet1"].

Definition get_all_lists (sp : Spreadsheet) : list string :=
  sort String.leb (filter (fun t => negb (reserved t)) (titles sp)).

End Codec.

(** ** The default template *)

Module Template.
Import Float Pandas.

Definition item (c n : string) (q : float64) (u : string) (p : float64)
  : Row :=
  mkRow (CStr c) (CStr n) (CFloat q) (CStr u) (CFloat p) (CBool false).

Definition get_default_template : DataFrame :=
  [
   item "🥦 Verduras" "Tomates" (dec 1 0) "kg" (dec 0 0);
   item "🥦 Verduras" "Cebollas" (dec 3 0) "lb (Libra)" (dec 0 0);
   item "🥦 Verduras" "Papa harinosa" (dec 6 0) "lb (Libra)" (dec 12 0);
   item "🥦 Verduras" "Papa holadesa" (dec 3 0) "lb (Libra)" (dec 6 0);
   item "🥦 Verduras" "Platano" (dec 6 0) "U (Unidad)" (dec 10 0);
   item "🥦 Verduras" "Zapallo" (dec 5 (-1)) "kg" (dec 5 0);
   item "🥦 Verduras" "lechuga carola" (dec 2 0) "U (Unidad)" (dec 13 0);
   item "🥦 Verduras" "Brocoli" (dec 1 0) "U (Unidad)" (dec 8 0);
   item "🥦 Verduras" "Espinaca" (dec 2 0) "U (Unidad)" (dec 8 0);
   item "🥦 Verduras" "choclo" (dec 6 0) "U (Unidad)" (dec 20 0);
   item "🍓 Frutas" "Guineo" (dec 6 0) "U (Unidad)" (dec 6 0);
   item "🍓 Frutas" "Manzana" (dec 4 0) "U (Unidad)" (dec 10 0);
   item "🍓 Frutas" "Pera" (dec 3 0) "U (Unidad)" (dec 10 0);
   item "🍓 Frutas" "Limon cambita" (dec 10 0) "U (Unidad)" (dec 10 0);
   item "🍓 Frutas" "Limon de licuar" (dec 10 0) "U (Unidad)" (dec 10 0);
   item "🍓 Frutas" "Piña" (dec 1 0) "U (Unidad)" (dec 8 0);
   item "🍓 Frutas" "Arandanos" (dec 1 0) "U (Unidad)" (dec 18 0);
   item "🍓 Frutas" "Frutillas" (dec 1 0) "U (Unidad)" (dec 15 0);
   item "🥩 Carnes" "Pollo" (dec 2 0) "U (Unidad)" (dec 90 0);
   item "🥩 Carnes" "Pollo (Pechuga)" (dec 1 0) "U (Unidad)" (dec 26 0);
   item "🥩 Carnes" "Bollo chico" (dec 1 0) "kg" (dec 70 0);
   item "🛒 Abarrotes" "Arroz" (dec 1 0) "kg" (dec 0 0);
   item "🛒 Abarrotes" "Huevo Maple" (dec 1 0) "U (Unidad)" (dec 24 0);
   item "🛒 Abarrotes" "Quezo" (dec 5 (-1)) "kg" (dec 22 0);
   item "🛒 Abarrotes" "Fideo codito" (dec 1 0) "kg" (dec 8 0);
   item "🛒 Abarrotes" "Fideo espiral" (dec 1 0) "kg" (dec 8 0);
   item "🛒 Abarrotes" "Papel higuineco 24" (dec 1 0) "U (Unidad)" (dec 26 0);
   item "🛒 Abarrotes" "Servilleta mesa" (dec 1 0) "U (Unidad)" (dec 15 0);
   item "🛒 Abarrotes" "Servilleta cocina" (dec 1 0) "U (Unidad)" (dec 15 0);
   item "🛒 Abarrotes" "Ajo cabeza" (dec 1 0) "U (Unidad)" (dec 2 0);
   item "🛒 Abarrotes" "Quinua" (dec 5 (-1)) "kg" (dec 10 0);
   item "🛒 Abarrotes" "Azucar Morena" (dec 1 0) "kg" (dec 8 0);
   item "🛒 Abarrotes" "Azucar Blanca" (dec 1 0) "kg" (dec 6 0);
   item "🛒 Abarrotes" "Té frutas Pack" (dec 1 0) "U (Unidad)" (dec 25 0);
   item "🛒 Abarrotes" "Té canela Pack" (dec 1 0) "U (Unidad)" (dec 12 0);
   item "🛒 Abarrotes" "Té manzanilla Pack" (dec 1 0) "U (Unidad)" (dec 12 0);
   item "🛒 Abarrotes" "Agua bebe" (dec 3 0) "L (Litro)" (dec 11 0);
   item "🧼 Limpieza" "Detergente ropa adultos" (dec 1 0) "U (Unidad)" (dec 36 0);
   item "🧼 Limpieza" "Detergente ropa bebe" (dec 1 0) "U (Unidad)" (dec 35 0);
   item "🧼 Limpieza" "Detergente ropa platos" (dec 1 0) "U (Unidad)" (dec 25 0);
   item "🧼 Limpieza" "Lavandina" (dec 1 0) "U (Unidad)" (dec 20 0);
   item "🧼 Limpieza" "Trapo de piso" (dec 1 0) "U (Unidad)" (dec 6 0);
   item "🧼 Limpieza" "jaboncillo adulto" (dec 1 0) "U (Unidad)" (dec 20 0);
   item "🧼 Limpieza" "jaboncillo bebe" (dec 1 0) "U (Unidad)" (dec 20 0);
   item "🧼 Limpieza" "Pañal bebe pack" (dec 1 0) "U (Unidad)" (dec 90 0);
   item "🧼 Limpieza" "Bolsa de basura Grande pack" (dec 1 0) "U (Unidad)" (dec 10 0);
   item "📦 Otros" "Agua bebe" (dec 3 0) "L (Litro)" (dec 11 0);
   item "📦 Otros" "Pan Frances" (dec 5 0) "U (Unidad)" (dec 5 0)
  ].

End Template.

(** ** [app.py] (and [app_bk.py], which has the same repository code) *)

Module App.
Import Float Pandas Sheets Codec.

(** [.replace({'TRUE': True, 'FALSE': False, '': False})] *)
Definition replace_checked (c : Cell) : Cell :=
  match c with
  | CStr s =>
      if String.eqb s "TRUE" then CBool true
      else if String.eqb s "FALSE" then CBool false
      else if String.eqb s "" then CBool false
      else c
  | _ => c
  end.

(** [.replace(...).astype(bool)] on [is_checked] *)
Definition coerce_checked (r : Row) : result Row :=
  b <- astype_bool (replace_checked (is_checked r)) ;;
  Ok (set IsChecked (CBool b) r).

(** [.astype(str).str.replace(',', '.', regex=False)], then
    [pd.to_numeric(..., errors='coerce').astype('float64').fillna(0.0)] *)
Definition coerce_decimal (c : Cell) : result Cell :=
  let s := str_replace "," "." (astype_str c) in
  v <- to_numeric errors_coerce (CStr s) ;;
  Ok (CFloat (fillna_float zero v)).

Definition coerce_numbers (r : Row) : result Row :=
  p <- coerce_decimal (price r) ;;
  q <- coerce_decimal (quantity r) ;;
  Ok (set Quantity q (set Price p r)).

Definition get_list_data (sp : Spreadsheet) (list_name : string)
  : result DataFrame :=
  current_worksheet <- worksheet sp list_name ;;
  items_df <- read_worksheet_as_df (get_all_values sp current_worksheet) ;;
  let items_df := dropna_all items_df in
  items_df <- mapM coerce_checked items_df ;;
  mapM coerce_numbers items_df.

(** The outcome of a user action: the spreadsheet afterwards and the
    messages shown. *)
Definition Outcome : Type := (Spreadsheet * list Message)%type.

Definition delete_item (f : Faults) (sp : Spreadsheet)
  (list_name item_name : string) : Outcome :=
  let body :=
    current_df <- get_list_data sp list_name ;;
    let df_to_save := filter (fun r => ne_str (name r) item_name) current_df in
    ws <- worksheet sp list_name ;;
    w <- write_df_to_worksheet f sp ws df_to_save ;;
    let '(_, sp', msgs) := w in
    Ok (sp', msgs ++ [st_toast "eliminado"]) in
  match body with
  | Ok o => o
  | Raise _ => (sp, [st_error "Error borrando"])
  end.

(** The value that a column holds once [new_val] is assigned to cells of
    it.  The [category] column is a Categorical: it takes a missing value,
    or one of its categories, and refuses any other value with a
    TypeError. *)
Definition setitem_value (col_key : Col) (new_val : Cell) : result Cell :=
  match col_key with
  | Category =>
      if isna new_val then Ok NaN
      else
        match new_val with
        | CStr s => if Str.mem s CATEGORIAS then Ok new_val
                    else Raise TypeError
        | _ => Raise TypeError
        end
  | _ => Ok new_val
  end.

(** [df.loc[df['name'] == item_name, col_key] = new_val].  The value is
    checked against the column whenever the frame has a row, also when the
    mask selects none; on a frame without rows the assignment does
    nothing. *)
Definition loc_assign (df : DataFrame) (item_name : string) (col_key : Col)
  (new_val : Cell) : result DataFrame :=
  match df with
  | [] => Ok []
  | _ :: _ =>
      v <- setitem_value col_key new_val ;;
      Ok (map (fun r => if eq_str (name r) item_name
                        then set col_key v r else r) df)
  end.

(** [col_key] is ['quantity'] or ['unit'] at the two call sites, and
    [new_val] the value of the widget that changed. *)
Definition save_instant_edit (f : Faults) (sp : Spreadsheet)
  (list_name item_name : string) (col_key : Col) (new_val : Cell) : Outcome :=
  let body :=
    current_df <- get_list_data sp list_name ;;
    current_df <- loc_assign current_df item_name col_key new_val ;;
    ws <- worksheet sp list_name ;;
    w <- write_df_to_worksheet f sp ws current_df ;;
    let '(_, sp', msgs) := w in
    Ok (sp', msgs) in
  match body with
  | Ok o => o
  | Raise _ => (sp, [st_error "Error guardando"])
  end.

(** [pd.to_numeric(df[c], errors='coerce').fillna(0.0)] before a new list
    is written. *)
Definition to_numeric_col (c : Col) (df : DataFrame) : result DataFrame :=
  mapM (fun r => v <- to_numeric errors_coerce (get c r) ;;
                 Ok (set c (CFloat (fillna_float zero v)) r)) df.

(** The seed of a new list: [tid] is [opts[templ]], that is [None] for an
    empty list, ["default"] for the template and the title of a list for a
    copy of it. *)
Definition seed (sp : Spreadsheet) (tid : option string) : result DataFrame :=
  match tid with
  | Some t =>
      if String.eqb t "default" then Ok Template.get_default_template
      else if negb (String.eqb t "") then
        ws <- worksheet sp t ;;
        df <- read_worksheet_as_df (get_all_values sp ws) ;;
        Ok (assign IsChecked (CBool false) (assign Price (CFloat zero) df))
      else Ok []
  | None => Ok []
  end.

(** The "Crear" button of [render_list_selector].  An exception that the
    source does not catch is the [Raise] of the outer result; the
    spreadsheet it leaves behind is not described. *)
Inductive Created : Type :=
| Stopped (sp : Spreadsheet) (msgs : list Message) (* [st.stop()] *)
| Done (sp : Spreadsheet) (msgs : list Message).   (* the new list is opened *)

Definition evict (f : Faults) (sp : Spreadsheet) (list_titles : list string)
  : Spreadsheet :=
  if (10 <=? List.length list_titles)%nat then
    match (ws <- worksheet sp (hd "" list_titles) ;; del_worksheet f sp ws) with
    | Ok sp' => sp'
    | Raise _ => sp
    end
  else sp.

Definition create_list (f : Faults) (sp : Spreadsheet) (name : string)
  (tid : option string) : result Created :=
  let list_titles := get_all_lists sp in
  if Str.mem name list_titles
  then Ok (Stopped sp [st_error "Nombre ya existe."])
  else
    let sp1 := evict f sp list_titles in
    df <- seed sp1 tid ;;
    df <- to_numeric_col Price df ;;
    df <- to_numeric_col Quantity df ;;
    sp2 <- add_worksheet f sp1 name ;;
    w <- write_df_to_worksheet f sp2 name df ;;
    let '(_, sp3, msgs) := w in
    Ok (Done sp3 msgs).

(** The quick-add form of the shopping view. *)
Definition quick_add (f : Faults) (sp : Spreadsheet) (list_name : string)
  (q_n q_c : string) (q_q : float64) (q_u : string) : result Outcome :=
  match get_list_data sp list_name with
  | Raise _ => Ok (sp, [st_error "Error cargando lista."])
  | Ok items_df =>
      let new := mkRow (CStr q_c) (CStr q_n) (CFloat q_q) (CStr q_u)
                       (CFloat zero) (CBool false) in
      ws <- worksheet sp list_name ;;
      w <- write_df_to_worksheet f sp ws (items_df ++ [new]) ;;
      let '(_, sp', msgs) := w in
      Ok (sp', msgs)
  end.

End App.

(** ** Totals of the shopping view *)

Module Aggregator.
Import Float Pandas Codec.

(** The price of a row as a number of a float column. *)
Definition price_of (r : Row) : float64 :=
  match price r with
  | CFloat v => v
  | CBool b => if b then dec 1 0 else zero
  | _ => FNaN
  end.

(** [Series.sum()]: missing values are skipped, the empty sum is [0.0]. *)
Definition sum_prices (df : DataFrame) : float64 :=
  fold_left fadd (filter (fun v => negb (is_nan v)) (map price_of df)) zero.

Definition sum_floats (l : list float64) : float64 :=
  fold_left fadd (filter (fun v => negb (is_nan v)) l) zero.

Definition in_category (c : string) (r : Row) : bool := eq_str (category r) c.

(** [df.groupby("category")["price"].sum().reset_index()] on a Categorical
    column: one line per category of the enumeration, in its order; rows
    whose category is NaN belong to no group.  [observed] is the value that
    the installed pandas gives to the parameter of that name: when it is
    [false] the categories without a row are listed with the sum [0.0]. *)
Definition groupby_category_sum (observed : bool) (df : DataFrame)
  : list (string * float64) :=
  flat_map
    (fun c =>
       match filter (in_category c) df with
       | [] => if observed then [] else [(c, zero)]
       | g => [(c, sum_prices g)]
       end)
    CATEGORIAS.

(** A boolean column used as a mask. *)
Definition checked (r : Row) : bool :=
  match is_checked r with
  | CBool b => b
  | _ => false
  end.

End Aggregator.

Module AppTotals.
Import Float Pandas Codec Aggregator.

(** [app.py]: the table of totals by category and the total, or nothing. *)
Definition totals (observed : bool) (items_df : DataFrame)
  : option (list (string * float64) * float64) :=
  match items_df with
  | [] => None
  | _ :: _ =>
      match filter checked items_df with
      | [] => None
      | bought =>
          let t_cat := groupby_category_sum observed bought in
          let t_cat := filter (fun ct => is_positive (snd ct)) t_cat in
          Some (t_cat, sum_prices bought)
      end
  end.

(** [app_bk.py]: only the total, shown whenever the list has a row. *)
Definition total_bk (items_df : DataFrame) : option float64 :=
  match items_df with
  | [] => None
  | _ :: _ => Some (sum_prices (filter checked items_df))
  end.

End AppTotals.

(** ** [app copy.py] *)

Module AppCopy.
Import Float Pandas Sheets Codec Aggregator.

(** [.replace({'TRUE': True, 'FALSE': False, True: True, False: False,
    '': False, None: False})]: the key [None] matches every missing
    value. *)
Definition replace_checked (c : Cell) : Cell :=
  if isna c then CBool false else App.replace_checked c.

Definition coerce_checked (r : Row) : result Row :=
  b <- astype_bool (replace_checked (is_checked r)) ;;
  Ok (set IsChecked (CBool b) r).

Definition get_list_data (sp : Spreadsheet) (list_name : string)
  : result DataFrame :=
  current_worksheet <- worksheet sp list_name ;;
  items_df <- read_worksheet_as_df (get_all_values sp current_worksheet) ;;
  let items_df := dropna_all items_df in
  items_df <- mapM coerce_checked items_df ;;
  mapM App.coerce_numbers items_df.

Definition seed (sp : Spreadsheet) (template_id : option string)
  : result DataFrame :=
  match template_id with
  | Some t =>
      if String.eqb t "default_template" then Ok Template.get_default_template
      else
        worksheet_to_copy <- worksheet sp t ;;
        df <- read_worksheet_as_df (get_all_values sp worksheet_to_copy) ;;
        Ok (assign IsChecked (CBool false) (assign Price (CFloat zero) df))
  | None => Ok []
  end.

(** [df['is_checked'].fillna(False).astype(bool)] *)
Definition fill_checked (df : DataFrame) : result DataFrame :=
  mapM (fun r => b <- astype_bool (fillna (CBool false) (is_checked r)) ;;
                 Ok (set IsChecked (CBool b) r)) df.

Definition create_list (f : Faults) (sp : Spreadsheet)
  (new_list_name : string) (template_id : option string)
  : result App.Created :=
  if String.eqb new_list_name "" then Ok (App.Stopped sp [])
  else
    let list_titles := get_all_lists sp in
    if Str.mem new_list_name list_titles
    then Ok (App.Stopped sp [st_error "Ya existe una lista con el nombre"])
    else
      let evicted :=
        if (10 <=? List.length list_titles)%nat then
          match (ws <- worksheet sp (hd "" list_titles) ;;
                 del_worksheet f sp ws) with
          | Ok sp' => Ok (sp', [st_toast "Borrando la más antigua"])
          | Raise e => Raise e
          end
        else Ok (sp, []) in
      match evicted with
      | Raise _ =>
          Ok (App.Stopped sp
                [st_error "No se pudo borrar la lista más antigua"])
      | Ok (sp1, msgs1) =>
          df <- seed sp1 template_id ;;
          let body :=
            df <- App.to_numeric_col Price df ;;
            df <- App.to_numeric_col Quantity df ;;
            df <- fill_checked df ;;
            sp2 <- add_worksheet f sp1 new_list_name ;;
            write_df_to_worksheet f sp2 new_list_name df in
          match body with
          | Raise _ =>
              Ok (App.Stopped sp1
                    (msgs1 ++ [st_error "Error al crear la nueva hoja"]))
          | Ok (_, sp3, msgs3) =>
              Ok (App.Done sp3 (msgs1 ++ msgs3 ++ [st_success "creada"]))
          end
      end.

(** The summary under the shopping form, computed from [final_df]. *)
Inductive Summary : Type :=
| NoItems                                   (* "Añade productos ..." *)
| NoneChecked                               (* "Marca productos ..." *)
| Totals (totals_by_category : list (string * float64))
         (total_general : float64).

Definition summary (observed : bool) (final_df : DataFrame)
  : result Summary :=
  match final_df with
  | [] => Ok NoItems
  | _ :: _ =>
      final_df <- App.to_numeric_col Price final_df ;;
      match filter checked final_df with
      | [] => Ok NoneChecked
      | comprados_df =>
          let totals_by_category :=
            groupby_category_sum observed comprados_df in
          Ok (Totals totals_by_category
                (sum_floats (map snd totals_by_category)))
      end
  end.

End AppCopy.

(** ** Vocabulary of the properties *)

Module Spec.
Import Float Pandas Sheets Codec.

(** The decimal coercion of [get_list_data] written as a function: replace
    the comma, parse, and take [0.0] for what does not parse. *)
Definition decimal_of (c : Cell) : float64 :=
  match parse (Str.replace "," "." (astype_str c)) with
  | Some v => if is_nan v then zero else v
  | None => zero
  end.

Definition numbers_of (r : Row) : Row :=
  set Quantity (CFloat (decimal_of (quantity r)))
    (set Price (CFloat (decimal_of (price r))) r).

(** The truth value that [.replace(...).astype(bool)] gives to a text:
    every text but [FALSE] and the empty one is true. *)
Definition truth_of_text (s : string) : bool :=
  negb (String.eqb s "FALSE") && negb (String.eqb s "").

End Spec.

Module SpecLoad.
Import Float Pandas Sheets Codec Spec.

(** Row [b] is what load makes of the decoded row [a], given the coercion
    of the [is_checked] cell. *)
Definition loaded_from (checked_of : Cell -> result bool) (a b : Row) : Prop :=
  exists t, checked_of (is_checked a) = Ok t /\
            b = numbers_of (set IsChecked (CBool t) a).

Definition app_checked (c : Cell) : result bool :=
  astype_bool (App.replace_checked c).

Definition copy_checked (c : Cell) : result bool :=
  astype_bool (AppCopy.replace_checked c).

End SpecLoad.

Module SpecRows.
Import Float Pandas Sheets Codec.

(** What a cell read from the sheet can be: a text, or missing when its
    column is absent. *)
Definition text_or_missing (c : Cell) : Prop :=
  c = CNA \/ exists s, c = CStr s.

(** The rows that [read_worksheet_as_df] returns. *)
Definition decoded_row (r : Row) : Prop :=
  (category r = NaN \/ exists s, category r = CStr s /\ In s CATEGORIAS) /\
  text_or_missing (name r) /\ text_or_missing (quantity r) /\
  text_or_missing (unit r) /\ text_or_missing (price r) /\
  text_or_missing (is_checked r).

(** The frame built from a header and its records, before it is sorted. *)
Definition frame_of (header : list string) (records : list (list string))
  : DataFrame :=
  map_col Category categorical (map (row_of header) records).

End SpecRows.

Module SpecStore.
Import Float Pandas Sheets Codec Spec SpecRows.

(** The rows of a stored grid in the order of the sheet, decoded and with
    the category made a Categorical, before the sort. *)
Definition stored_rows (data : list (list string)) : DataFrame :=
  match data with
  | [] => []
  | header :: records => frame_of header records
  end.

(** The order of the display: position of the category in the
    enumeration (a category outside it counts as the position after the
    last), then the name. *)
Definition in_order (r1 r2 : Row) : Prop :=
  (category_code (category r1) < category_code (category r2))%nat \/
  (category_code (category r1) = category_code (category r2) /\
   name_le (name r1) (name r2) = true).

(** Row [b] is the loaded form of the decoded row [a], apart from its
    [is_checked] cell. *)
Definition same_item (a b : Row) : Prop :=
  category b = category a /\ name b = name a /\ unit b = unit a /\
  quantity b = CFloat (decimal_of (quantity a)) /\
  price b = CFloat (decimal_of (price a)).

Definition in_enumeration (c : Cell) : Prop :=
  exists s, c = CStr s /\ In s CATEGORIAS.

End SpecStore.

(** ** Sample sheets *)

Module Examples.
Import Float Pandas Sheets Codec.

Definition header6 : list string :=
  ["category"; "name"; "quantity"; "unit"; "price"; "is_checked"].

(** A list with a comma decimal, an unparseable price, a category outside
    the enumeration, a blank name and an unrecognized [is_checked]. *)
Definition demo_grid : list (list string) :=
  [header6;
   ["🍓 Frutas"; "Pera"; "1,5"; "kg"; "abc"; "TRUE"];
   ["🥦 Verduras"; "Tomates"; ""; "kg"; "2"; "FALSE"];
   ["Bebidas"; "Agua"; "3"; "L (Litro)"; "11"; ""];
   ["🥦 Verduras"; ""; "1"; "kg"; "0"; "abc"]].

Definition demo : Spreadsheet :=
  [mkWorksheet "Hoja1" []; mkWorksheet "L" demo_grid].

Definition demo_loaded : DataFrame :=
  [mkRow (CStr "🥦 Verduras") (CStr "") (CFloat (FFin false [1] 0))
     (CStr "kg") (CFloat zero) (CBool true);
   mkRow (CStr "🥦 Verduras") (CStr "Tomates") (CFloat zero)
     (CStr "kg") (CFloat (FFin false [2] 0)) (CBool false);
   mkRow (CStr "🍓 Frutas") (CStr "Pera") (CFloat (FFin false [1; 5] 0))
     (CStr "kg") (CFloat zero) (CBool true);
   mkRow NaN (CStr "Agua") (CFloat (FFin false [3] 0))
     (CStr "L (Litro)") (CFloat (FFin false [1; 1] 1)) (CBool false)].

(** A sheet whose header has no [name] column. *)
Definition nameless : Spreadsheet :=
  [mkWorksheet "L"
     [["category"; "quantity"; "unit"; "price"; "is_checked"];
      ["🥦 Verduras"; "1"; "kg"; "0"; "FALSE"]]].

Definition nameless_loaded : DataFrame :=
  [mkRow (CStr "🥦 Verduras") CNA (CFloat (FFin false [1] 0))
     (CStr "kg") (CFloat zero) (CBool false)].

(** A sheet whose header has no [is_checked] column. *)
Definition uncheckable : Spreadsheet :=
  [mkWorksheet "L" [["name"]; ["Pan"]]].

End Examples.

Module SpecWrite.
Import Float Pandas Sheets Codec.

Definition is_text (c : Cell) : bool :=
  match c with CStr _ => true | _ => false end.

(** The text written for a numeric cell: empty for a missing value,
    otherwise the [g] presentation with a decimal comma. *)
Definition comma_text (c : Cell) : string :=
  match c with
  | CFloat FNaN | CNA | CStr _ => ""
  | CFloat v => Str.replace "." "," (format_g v)
  | CBool b => if b then "1" else "0"
  end.

(** The line of the sheet that holds a row once it is written. *)
Definition row_text (r : Row) : list string :=
  [astype_str (category r); display (fillna (CStr "") (name r));
   comma_text (quantity r); display (fillna (CStr "") (unit r));
   comma_text (price r); display (fillna (CStr "") (is_checked r))].

(** The grid that holds a frame once it is written. *)
Definition grid_of (df : DataFrame) : list (list string) :=
  map label expected_cols :: map row_text df.

(** A row can be written when its two numeric cells are not texts. *)
Definition writable (r : Row) : bool :=
  negb (is_text (quantity r)) && negb (is_text (price r)).

(** A value can be stored in a column when the column is not numeric or
    the value is not a text. *)
Definition storable (c : Col) (v : Cell) : bool :=
  match c with
  | Quantity | Price => negb (is_text v)
  | _ => true
  end.

(** The rows that [get_list_data] returns. *)
Definition loaded_row (r : Row) : Prop :=
  (exists q, quantity r = CFloat q /\ is_nan q = false) /\
  (exists p, price r = CFloat p /\ is_nan p = false) /\
  (exists b, is_checked r = CBool b) /\
  (category r = NaN \/ exists s, category r = CStr s /\ In s CATEGORIAS) /\
  SpecRows.text_or_missing (name r) /\ SpecRows.text_or_missing (unit r).

End SpecWrite.

Module ExamplesTotals.
Import Float Pandas Sheets Codec.

(** The three items of the specification's example, with the first two
    categories of the enumeration for A and B. *)
Definition three_items : DataFrame :=
  [mkRow (CStr "🥦 Verduras") (CStr "a1") (CFloat (dec 1 0)) (CStr "kg")
     (CFloat (dec 10 0)) (CBool true);
   mkRow (CStr "🥦 Verduras") (CStr "a2") (CFloat (dec 1 0)) (CStr "kg")
     (CFloat (dec 5 0)) (CBool false);
   mkRow (CStr "🍓 Frutas") (CStr "b1") (CFloat (dec 1 0)) (CStr "kg")
     (CFloat (dec 3 0)) (CBool true)].

(** A list whose only item is checked and has a category outside the
    enumeration. *)
Definition drinks : Spreadsheet :=
  [mkWorksheet "L"
     [Examples.header6; ["Bebidas"; "Agua"; "3"; "L (Litro)"; "11"; "TRUE"]]].

Definition drinks_loaded : DataFrame :=
  [mkRow NaN (CStr "Agua") (CFloat (FFin false [3] 0)) (CStr "L (Litro)")
     (CFloat (FFin false [1; 1] 1)) (CBool true)].

End ExamplesTotals.

Module ExamplesLists.
Import Float Pandas Sheets Codec.

Definition tabs (names : list string) : Spreadsheet :=
  mkWorksheet "Hoja1" [] ::
  map (fun t => mkWorksheet t [Examples.header6]) names.

Definition ten_names : list string :=
  ["Lista 2024-06-01"; "Lista 2024-06-08"; "Lista 2024-06-15";
   "Lista 2024-06-22"; "Lista 2024-06-29"; "Lista 2024-07-06";
   "Lista 2024-07-13"; "Lista 2024-07-20"; "Lista 2024-07-27";
   "Lista 2024-08-03"].

(** Ten lists, and eleven. *)
Definition ten : Spreadsheet := tabs ten_names.

Definition eleven : Spreadsheet := tabs (ten_names ++ ["Lista 2024-08-10"]).

Definition only_eviction_fails : Faults := mkFaults true false false false.

End ExamplesLists.

Module SpecLists.

(** No title occurs twice. *)
Fixpoint distinct (l : list string) : bool :=
  match l with
  | [] => true
  | x :: l' => negb (Str.mem x l') && distinct l'
  end.

End SpecLists.

Module SpecNumbers.
Import Float.

Definition digits_ok (ds : list nat) : Prop := Forall (fun d => (d < 10)%nat) ds.

(** The canonical form of a float: decimal digits without a leading or a
    trailing zero, and exponent [0] for a zero.  The parser returns it. *)
Definition canonical (v : float64) : Prop :=
  match v with
  | FFin _ ds x =>
      digits_ok ds /\ hd 1 ds <> 0 /\ last ds 1 <> 0 /\ (ds = [] -> x = 0%Z)
  | _ => True
  end.

Fixpoint comma_free (s : string) : bool :=
  match s with
  | EmptyString => true
  | String c s' => negb (Ascii.eqb c ",") && comma_free s'
  end.

End SpecNumbers.

Module SpecLex.
Import Float.

(** What follows the digits does not start with a digit. *)
Definition stops (r : string) : Prop :=
  match r with
  | EmptyString => True
  | String c _ => Digits.is_digit c = false
  end.

(** The exponent part of a numeral: nothing, or [e] and what follows. *)
Definition exponent_part (es : string) : Prop :=
  es = "" \/ exists r, es = String "e" r.

End SpecLex.

Module SpecRoundTrip.
Import Float Pandas Sheets Codec SpecNumbers.

(** A number that the [g] presentation prints in full: not NaN, in
    canonical form and with at most six significant digits. *)
Definition plain_number (c : Cell) : Prop :=
  exists v, c = CFloat v /\ canonical v /\ fits 6 v = true /\
            is_nan v = false.

(** A row as the editor holds it: a category of the enumeration or none, a
    name and a unit that are texts, two plain numbers and a boolean. *)
Definition plain_row (r : Row) : Prop :=
  (category r = NaN \/ exists s, category r = CStr s /\ In s CATEGORIAS) /\
  (exists s, name r = CStr s) /\ plain_number (quantity r) /\
  (exists s, unit r = CStr s) /\ plain_number (price r) /\
  (exists b, is_checked r = CBool b).

(** The row that [read_worksheet_as_df] decodes from the line written for
    a row. *)
Definition reread (r : Row) : Row :=
  mkRow (category r) (name r) (CStr (SpecWrite.comma_text (quantity r)))
        (unit r) (CStr (SpecWrite.comma_text (price r)))
        (CStr (display (is_checked r))).

End SpecRoundTrip.

Module ExamplesRoundTrip.
Import Float Pandas Sheets Codec.

(** [0.5] *)
Definition half : float64 := FFin false [5] (-1).

(** Two items, not in the order of the display. *)
Definition two_rows : DataFrame :=
  [mkRow (CStr "🍓 Frutas") (CStr "Pera") (CFloat (FFin false [1; 5] 0))
     (CStr "kg") (CFloat (FFin false [1; 2; 5] 1)) (CBool true);
   mkRow (CStr "🥦 Verduras") (CStr "Tomates") (CFloat (FFin false [2] 0))
     (CStr "kg") (CFloat zero) (CBool false)].

(** A spreadsheet with an empty list [L]. *)
Definition blank : Spreadsheet :=
  [mkWorksheet "Hoja1" []; mkWorksheet "L" []].

End ExamplesRoundTrip.

Module ExamplesEdit.
Import Float Pandas Sheets Codec.

(** A list [L] with two items, and its loaded table. *)
Definition stocked : Spreadsheet :=
  [mkWorksheet "Hoja1" [];
   mkWorksheet "L"
     [Examples.header6;
      ["🍓 Frutas"; "Pera"; "1,5"; "kg"; "12,5"; "TRUE"];
      ["🥦 Verduras"; "Tomates"; "2"; "kg"; "0"; "FALSE"]]].

Definition stocked_loaded : DataFrame :=
  [mkRow (CStr "🥦 Verduras") (CStr "Tomates") (CFloat (FFin false [2] 0))
     (CStr "kg") (CFloat zero) (CBool false);
   mkRow (CStr "🍓 Frutas") (CStr "Pera") (CFloat (FFin false [1; 5] 0))
     (CStr "kg") (CFloat (FFin false [1; 2; 5] 1)) (CBool true)].

End ExamplesEdit.

Module ExamplesFaults.
Import Sheets.

(** The service accepts [clear] and then refuses [update]. *)
Definition update_breaks : Faults := mkFaults false false false true.

End ExamplesFaults.

(** ** The planning view of [app copy.py] *)

Module AppCopyEditor.
Import Float Pandas Sheets Codec.

(** A row of [edited_df], the frame that the data editor returns for
    [items_df[column_order]]: it has the four columns of [column_order]. *)
Record Edited : Type := mkEdited {
  e_name : Cell;
  e_category : Cell;
  e_quantity : Cell;
  e_unit : Cell
}.

(** The table that the "Guardar Cambios" button hands to
    [write_df_to_worksheet].  [price] and [is_checked] are not columns of
    [edited_df], so both are created with their defaults. *)
Definition df_to_save (edited_df : list Edited) : result DataFrame :=
  let df :=
    map (fun e => mkRow (e_category e) (e_name e) (e_quantity e) (e_unit e)
                        (CFloat zero) (CBool false)) edited_df in
  let df := dropna_name df in
  df <- AppCopy.fill_checked df ;;
  df <- App.to_numeric_col Price df ;;
  App.to_numeric_col Quantity df.

Definition save_planning (f : Faults) (sp : Spreadsheet)
  (list_name : string) (edited_df : list Edited) : App.Outcome :=
  let body :=
    df <- df_to_save edited_df ;;
    worksheet_to_save <- worksheet sp list_name ;;
    w <- write_df_to_worksheet f sp worksheet_to_save df ;;
    let '(success, sp', msgs) := w in
    Ok (sp', msgs ++ if success : bool
                     then [st_success "¡Lista guardada con éxito!"]
                     else []) in
  match body with
  | Ok o => o
  | Raise _ => (sp, [st_error "Error al guardar"])
  end.

End AppCopyEditor.

Module SpecEditor.
Import Float Pandas Sheets Codec AppCopyEditor.

(** Row [r] is what the planning view saves for the edited row [e]. *)
Definition saved_as (e : Edited) (r : Row) : Prop :=
  category r = e_category e /\ name r = e_name e /\ unit r = e_unit e /\
  (exists v, to_numeric errors_coerce (e_quantity e) = Ok v /\
             quantity r = CFloat (fillna_float zero v)) /\
  price r = CFloat zero /\ is_checked r = CBool false.

Definition named (e : Edited) : bool := negb (isna (e_name e)).

(** The list [L] of [ExamplesEdit.stocked] as the editor shows it. *)
Definition stocked_edited : list Edited :=
  [mkEdited (CStr "Tomates") (CStr "🥦 Verduras") (CFloat (FFin false [2] 0))
     (CStr "kg");
   mkEdited (CStr "Pera") (CStr "🍓 Frutas") (CFloat (FFin false [1; 5] 0))
     (CStr "kg")].

End SpecEditor.

(** ** The shopping form of [app.py] and [app_bk.py] *)

Module ShopForm.
Import Float Pandas Sheets Codec.

(** [df.iterrows()]: the rows with their labels.  The labels of [items_df]
    are distinct; the model takes the position of a row as its label. *)
Fixpoint indexed_from (k : nat) (df : DataFrame) : list (nat * Row) :=
  match df with
  | [] => []
  | r :: df' => (k, r) :: indexed_from (S k) df'
  end.

Definition iterrows (df : DataFrame) : list (nat * Row) := indexed_from 0 df.

(** What the check box and the price input of the row of a label hold when
    the form is submitted. *)
Definition Widgets : Type := nat -> bool * float64.

(** [temp_updates], filled category by category with the rows of
    [cat_df = items_df[items_df['category'] == cat]]. *)
Definition temp_updates (items_df : DataFrame) (widgets : Widgets)
  : list (nat * (bool * float64)) :=
  flat_map
    (fun cat =>
       let cat_df := filter (fun ir => eq_str (category (snd ir)) cat)
                       (iterrows items_df) in
       map (fun ir => (fst ir, widgets (fst ir))) cat_df)
    CATEGORIAS.

(** [df.loc[i, c] = v] on the label of a row. *)
Definition loc_set (i : nat) (c : Col) (v : Cell) (df : DataFrame)
  : DataFrame :=
  map (fun jr => if (fst jr =? i)%nat then set c v (snd jr) else snd jr)
    (iterrows df).

Definition df_save (items_df : DataFrame) (widgets : Widgets) : DataFrame :=
  fold_left
    (fun df u =>
       loc_set (fst u) Price (CFloat (snd (snd u)))
         (loc_set (fst u) IsChecked (CBool (fst (snd u))) df))
    (temp_updates items_df widgets) items_df.

(** The "Guardar Todo" button. *)
Definition save_all (f : Faults) (sp : Spreadsheet) (list_name : string)
  (items_df : DataFrame) (widgets : Widgets) : result App.Outcome :=
  ws <- worksheet sp list_name ;;
  w <- write_df_to_worksheet f sp ws (df_save items_df widgets) ;;
  let '(_, sp', msgs) := w in
  Ok (sp', msgs).

End ShopForm.

Module SpecShopForm.
Import Float Pandas Sheets Codec ShopForm.

(** A row is shown in the form when its category is one of the
    enumeration. *)
Definition shown (r : Row) : bool :=
  existsb (fun cat => eq_str (category r) cat) CATEGORIAS.

(** The row of label [i] once the form is saved. *)
Definition submitted (widgets : Widgets) (i : nat) (r : Row) : Row :=
  if shown r
  then set Price (CFloat (snd (widgets i)))
         (set IsChecked (CBool (fst (widgets i))) r)
  else r.

(** The row of a label, after the updates of a list have been applied. *)
Definition after (ups : list (nat * (bool * float64))) (j : nat) (r : Row)
  : Row :=
  fold_left
    (fun r u =>
       if (j =? fst u)%nat
       then set Price (CFloat (snd (snd u)))
              (set IsChecked (CBool (fst (snd u))) r)
       else r)
    ups r.

(** Every item checked, at the price 7. *)
Definition all_checked : Widgets := fun _ => (true, FFin false [7] 0).

End SpecShopForm.

Module SpecCopy.
Import Float Pandas Sheets Codec.

(** [pd.to_numeric(x, errors='coerce')] followed by [fillna(0.0)], as a
    function of the cell. *)
Definition number_or_zero (c : Cell) : float64 :=
  match to_numeric errors_coerce c with
  | Ok v => fillna_float zero v
  | Raise _ => zero
  end.

(** The row that a copy holds for a decoded row of the list copied. *)
Definition copied (r : Row) : Row :=
  mkRow (category r) (name r) (CFloat (number_or_zero (quantity r)))
        (unit r) (CFloat zero) (CBool false).

(** The rows decoded from the list [L] of [ExamplesEdit.stocked]. *)
Definition stocked_decoded : DataFrame :=
  [mkRow (CStr "🥦 Verduras") (CStr "Tomates") (CStr "2") (CStr "kg")
     (CStr "0") (CStr "FALSE");
   mkRow (CStr "🍓 Frutas") (CStr "Pera") (CStr "1,5") (CStr "kg")
     (CStr "12,5") (CStr "TRUE")].

End SpecCopy.

Module SpecRounding.
Import Float.

(** A float rounded to six significant digits, as the [g] presentation
    rounds it. *)
Definition rounded (v : float64) : float64 :=
  match v with
  | FFin neg (d :: ds) x =>
      let (ds', x') := round_sig 6 (d :: ds) x in FFin neg ds' x'
  | _ => v
  end.

(** [1234567.0] and [1234570.0] *)
Definition seven_digits : float64 := FFin false [1; 2; 3; 4; 5; 6; 7] 6.

Definition six_digits : float64 := FFin false [1; 2; 3; 4; 5; 7] 6.

End SpecRounding.

(** ** The shopping form of [app copy.py] *)

Module AppCopyShop.
Import Float Pandas Sheets Codec.

(** The table that the "Guardar Cambios" button of the shopping form hands
    to [write_df_to_worksheet]: the updates of the form, which is filled as
    in [app.py], and then the cleaning. *)
Definition df_to_save (items_df : DataFrame) (widgets : ShopForm.Widgets)
  : result DataFrame :=
  let df := ShopForm.df_save items_df widgets in
  let df := dropna_name df in
  df <- AppCopy.fill_checked df ;;
  df <- App.to_numeric_col Price df ;;
  App.to_numeric_col Quantity df.

Definition save_shopping (f : Faults) (sp : Spreadsheet)
  (list_name : string) (items_df : DataFrame) (widgets : ShopForm.Widgets)
  : App.Outcome :=
  let body :=
    df <- df_to_save items_df widgets ;;
    worksheet_to_save <- worksheet sp list_name ;;
    w <- write_df_to_worksheet f sp worksheet_to_save df ;;
    let '(success, sp', msgs) := w in
    Ok (sp', msgs ++ if success : bool
                     then [st_success "¡Lista guardada con éxito!"]
                     else []) in
  match body with
  | Ok o => o
  | Raise _ => (sp, [st_error "Error al guardar"])
  end.

End AppCopyShop.

Module SpecCopyShop.
Import Float Pandas Sheets Codec.

(** A price that is not a number is saved as [0.0]. *)
Definition cleaned (r : Row) : Row :=
  set Price (CFloat (SpecCopy.number_or_zero (price r))) r.

End SpecCopyShop.

Module ExamplesPrecision.
Import Float Pandas Sheets Codec.

(** [36745.95], halfway between two numerals of six digits; its binary
    float is below it. *)
Definition halfway : float64 := FFin false [3; 6; 7; 4; 5; 9; 5] 4.

(** [36745.9] *)
Definition halfway_rounded : float64 := FFin false [3; 6; 7; 4; 5; 9] 4.






End ExamplesPrecision.

Module SpecCycle.
Import Float Pandas Sheets Codec SpecNumbers.



(** A numeric cell rounded to six significant digits. *)
Definition round_cell (c : Cell) : Cell :=
  match c with
  | CFloat v => CFloat (SpecRounding.rounded v)
  | _ => c
  end.

(** A row with its two numbers rounded to six significant digits. *)
Definition rounded_row (r : Row) : Row :=
  mkRow (category r) (name r) (round_cell (quantity r)) (unit r)
        (round_cell (price r)) (is_checked r).



End SpecCycle.

Module ExamplesCopy.
Import Float Pandas Sheets Codec.

(** The grid of a copy of the list [L] of [ExamplesEdit.stocked], and the
    table loaded from it. *)
Definition copy_grid : list (list string) :=
  [Examples.header6;
   ["🥦 Verduras"; "Tomates"; "2"; "kg"; "0"; "FALSE"];
   ["🍓 Frutas"; "Pera"; "0"; "kg"; "0"; "FALSE"]].

Definition copy_loaded : DataFrame :=
  [mkRow (CStr "🥦 Verduras") (CStr "Tomates") (CFloat (FFin false [2] 0))
     (CStr "kg") (CFloat zero) (CBool false);
   mkRow (CStr "🍓 Frutas") (CStr "Pera") (CFloat zero)
     (CStr "kg") (CFloat zero) (CBool false)].

End ExamplesCopy.

(* ================================================================== *)
(** * Part II. Properties                                              *)
(* ================================================================== *)

(** ** The error monad *)

Section MapM.
Context {A B : Type} (f : A -> result B).

Lemma mapM_Forall2 (l : list A) (l' : list B) :
  mapM f l = Ok l' <-> Forall2 (fun x y => f x = Ok y) l l'.
Proof.
  revert l'; induction l as [|x l IH]; intros l'; simpl.
  - split; intros H.
    + injection H as <-. constructor.
    + inversion H. reflexivity.
  - destruct (f x) as [y|e] eqn:Hx; simpl.
    + destruct (mapM f l) as [ys|e] eqn:Hl; simpl.
      * split; intros H.
        -- injection H as <-. constructor; [assumption | now apply IH].
        -- inversion H as [|? y' ? ys' Hy Hys]; subst.
           rewrite Hx in Hy. injection Hy as <-.
           apply IH in Hys. now injection Hys as <-.
      * split; intros H; [discriminate|].
        inversion H as [|? y' ? ys' Hy Hys]; subst.
        apply IH in Hys. discriminate.
    + split; intros H; [discriminate|].
      inversion H as [|? y' ? ys' Hy Hys]; subst. congruence.
Qed.

Lemma mapM_map (g : A -> B) (l : list A) :
  (forall x, In x l -> f x = Ok (g x)) -> mapM f l = Ok (map g l).
Proof.
  induction l as [|x l IH]; intros H; simpl; [reflexivity|].
  rewrite (H x (or_introl eq_refl)); simpl.
  rewrite IH; [reflexivity|]. intros y Hy. apply H. now right.
Qed.

Lemma mapM_length (l : list A) (l' : list B) :
  mapM f l = Ok l' -> List.length l' = List.length l.
Proof.
  intros H. apply mapM_Forall2 in H.
  induction H; simpl; congruence.
Qed.

End MapM.

Lemma Forall2_trans_rel {A B C : Type} (P : A -> B -> Prop)
  (Q : B -> C -> Prop) (R : A -> C -> Prop) l1 l2 l3 :
  (forall a b c, P a b -> Q b c -> R a c) ->
  Forall2 P l1 l2 -> Forall2 Q l2 l3 -> Forall2 R l1 l3.
Proof.
  intros HR H12; revert l3; induction H12; intros l3 H23;
    inversion H23; subst; constructor; eauto.
Qed.

(** ** Loading a list, step by step *)

Module LoadFacts.
Import Float Pandas Sheets Codec Spec.

Lemma to_numeric_coerce_ok (c : Cell) :
  exists v, to_numeric errors_coerce c = Ok v.
Proof.
  destruct c as [s|b|x|]; simpl; eauto.
  destruct (parse s); eauto.
Qed.

Lemma fillna_float_not_nan (v : float64) :
  is_nan (fillna_float zero v) = false.
Proof. unfold fillna_float. destruct v; reflexivity. Qed.

Lemma coerce_decimal_eq (c : Cell) :
  App.coerce_decimal c = Ok (CFloat (decimal_of c)).
Proof.
  unfold App.coerce_decimal, decimal_of, str_replace; simpl.
  destruct (parse _) as [v|]; simpl; [|reflexivity].
  unfold fillna_float. now destruct (is_nan v).
Qed.

Lemma of_parts_not_nan neg i f e : is_nan (of_parts neg i f e) = false.
Proof. unfold of_parts. now destruct (Digits.strip_trailing _). Qed.

Lemma lex_decimal_not_nan (s : string) (v : float64) :
  lex_decimal s = Some v -> is_nan v = false.
Proof.
  unfold lex_decimal.
  destruct (lex_sign _) as [neg r0], (Digits.span r0) as [i r1],
    (lex_fraction r1) as [f r2].
  destruct (i ++ f); [discriminate|].
  destruct (lex_exponent r2) as [[e r3]|]; [|discriminate].
  destruct (Str.skip_spaces r3); [|discriminate].
  intros [= <-]. apply of_parts_not_nan.
Qed.

Lemma lex_special_not_nan (s : string) (v : float64) :
  lex_special s = Some v -> is_nan v = false.
Proof.
  unfold lex_special.
  destruct (Str.mem _ _); [intros [= <-]; reflexivity|].
  destruct (Str.mem _ _); [intros [= <-]; reflexivity | discriminate].
Qed.

Lemma parse_not_nan (s : string) (v : float64) :
  parse s = Some v -> is_nan v = false.
Proof.
  unfold parse. destruct (lex_decimal s) as [w|] eqn:H.
  - intros [= <-]. now apply lex_decimal_not_nan in H.
  - apply lex_special_not_nan.
Qed.

Lemma decimal_of_parse (c : Cell) :
  decimal_of c =
  match parse (Str.replace "," "." (astype_str c)) with
  | Some v => v
  | None => zero
  end.
Proof.
  unfold decimal_of. destruct (parse _) as [v|] eqn:H; [|reflexivity].
  now rewrite (parse_not_nan _ _ H).
Qed.

Lemma coerce_numbers_eq (r : Row) :
  App.coerce_numbers r = Ok (numbers_of r).
Proof.
  unfold App.coerce_numbers. rewrite !coerce_decimal_eq. reflexivity.
Qed.

Lemma mapM_coerce_numbers (df : DataFrame) :
  mapM App.coerce_numbers df = Ok (map numbers_of df).
Proof. apply mapM_map. intros; apply coerce_numbers_eq. Qed.

Lemma app_checked_text (s : string) :
  astype_bool (App.replace_checked (CStr s)) = Ok (truth_of_text s).
Proof.
  unfold App.replace_checked, truth_of_text.
  destruct (String.eqb s "TRUE") eqn:E1.
  - apply String.eqb_eq in E1; subst; reflexivity.
  - destruct (String.eqb s "FALSE") eqn:E2; [reflexivity|].
    destruct (String.eqb s "") eqn:E3; [reflexivity|].
    simpl. now rewrite E3.
Qed.

Lemma copy_checked_text (s : string) :
  astype_bool (AppCopy.replace_checked (CStr s)) = Ok (truth_of_text s).
Proof. apply app_checked_text. Qed.

(** [get_list_data] unfolded into its steps. *)
Lemma app_get_list_data_inv sp list_name df :
  App.get_list_data sp list_name = Ok df ->
  exists raw checked,
    read_worksheet_as_df (get_all_values sp list_name) = Ok raw /\
    mapM App.coerce_checked (dropna_all raw) = Ok checked /\
    df = map numbers_of checked.
Proof.
  unfold App.get_list_data, worksheet.
  destruct (Str.mem list_name (titles sp)); [simpl|discriminate].
  destruct (read_worksheet_as_df _) as [raw|]; [simpl|discriminate].
  destruct (mapM App.coerce_checked _) as [ck|] eqn:Hck; [simpl|discriminate].
  rewrite mapM_coerce_numbers. intros [= <-]. eauto.
Qed.

Lemma copy_get_list_data_inv sp list_name df :
  AppCopy.get_list_data sp list_name = Ok df ->
  exists raw checked,
    read_worksheet_as_df (get_all_values sp list_name) = Ok raw /\
    mapM AppCopy.coerce_checked (dropna_all raw) = Ok checked /\
    df = map numbers_of checked.
Proof.
  unfold AppCopy.get_list_data, worksheet.
  destruct (Str.mem list_name (titles sp)); [simpl|discriminate].
  destruct (read_worksheet_as_df _) as [raw|]; [simpl|discriminate].
  destruct (mapM AppCopy.coerce_checked _) as [ck|] eqn:Hck;
    [simpl|discriminate].
  rewrite mapM_coerce_numbers. intros [= <-]. eauto.
Qed.

End LoadFacts.

Module LoadRows.
Import Float Pandas Sheets Codec Spec SpecLoad LoadFacts.

Lemma Forall2_map_r {A B C : Type} (P : A -> C -> Prop) (g : B -> C) l l' :
  Forall2 (fun a b => P a (g b)) l l' -> Forall2 P l (map g l').
Proof. induction 1; simpl; constructor; auto. Qed.

Lemma app_load_rows sp list_name df :
  App.get_list_data sp list_name = Ok df ->
  exists raw,
    read_worksheet_as_df (get_all_values sp list_name) = Ok raw /\
    Forall2 (loaded_from app_checked) (dropna_all raw) df.
Proof.
  intros H. apply app_get_list_data_inv in H as (raw & ck & Hr & Hc & ->).
  exists raw; split; [assumption|].
  apply Forall2_map_r. apply mapM_Forall2 in Hc.
  eapply Forall2_impl; [|exact Hc].
  intros a b Hab. unfold App.coerce_checked in Hab.
  unfold loaded_from, app_checked.
  destruct (astype_bool _) as [t|]; [|discriminate].
  simpl in Hab. injection Hab as <-. eauto.
Qed.

Lemma copy_load_rows sp list_name df :
  AppCopy.get_list_data sp list_name = Ok df ->
  exists raw,
    read_worksheet_as_df (get_all_values sp list_name) = Ok raw /\
    Forall2 (loaded_from copy_checked) (dropna_all raw) df.
Proof.
  intros H. apply copy_get_list_data_inv in H as (raw & ck & Hr & Hc & ->).
  exists raw; split; [assumption|].
  apply Forall2_map_r. apply mapM_Forall2 in Hc.
  eapply Forall2_impl; [|exact Hc].
  intros a b Hab. unfold AppCopy.coerce_checked in Hab.
  unfold loaded_from, copy_checked.
  destruct (astype_bool _) as [t|]; [|discriminate].
  simpl in Hab. injection Hab as <-. eauto.
Qed.

Lemma loaded_from_fields checked_of a b :
  loaded_from checked_of a b ->
  category b = category a /\ name b = name a /\ unit b = unit a /\
  quantity b = CFloat (decimal_of (quantity a)) /\
  price b = CFloat (decimal_of (price a)) /\
  exists t, checked_of (is_checked a) = Ok t /\ is_checked b = CBool t.
Proof.
  intros (t & Ht & ->). repeat split; eauto.
Qed.

End LoadRows.

(** ** The stable sort *)

Module SortFacts.
Import Pandas.

Section SortFacts.
Context {A : Type} (le : A -> A -> bool).

Lemma insert_perm (x : A) (l : list A) : Permutation (insert le x l) (x :: l).
Proof.
  induction l as [|y l IH]; simpl; [reflexivity|].
  destruct (le x y); [reflexivity|].
  rewrite IH. apply perm_swap.
Qed.

Lemma sort_perm (l : list A) : Permutation (sort le l) l.
Proof.
  induction l as [|x l IH]; simpl; [reflexivity|].
  rewrite insert_perm. now constructor.
Qed.

Lemma sort_in (x : A) (l : list A) : In x (sort le l) <-> In x l.
Proof.
  split; apply Permutation_in;
    [apply sort_perm | apply Permutation_sym, sort_perm].
Qed.


Lemma sort_Forall (P : A -> Prop) (l : list A) :
  Forall P l -> Forall P (sort le l).
Proof.
  rewrite !Forall_forall. intros H x Hx. apply H. now apply sort_in.
Qed.

Hypothesis le_total : forall x y, le x y = true \/ le y x = true.

Lemma insert_sorted (x : A) (l : list A) :
  Sorted (fun a b => le a b = true) l ->
  Sorted (fun a b => le a b = true) (insert le x l).
Proof.
  induction 1 as [|y l Hs IH Hhd]; simpl.
  - repeat constructor.
  - destruct (le x y) eqn:Hxy.
    + constructor; [now constructor | now constructor].
    + constructor; [assumption|].
      destruct l as [|z l]; simpl in *.
      * constructor. destruct (le_total x y); congruence.
      * destruct (le x z).
        -- constructor. destruct (le_total x y); congruence.
        -- inversion Hhd; subst. now constructor.
Qed.

Lemma sort_sorted (l : list A) : Sorted (fun a b => le a b = true) (sort le l).
Proof.
  induction l; simpl; [constructor | now apply insert_sorted].
Qed.

(** Sorting what is sorted changes nothing. *)
Lemma sort_of_sorted (l : list A) :
  Sorted (fun a b => le a b = true) l -> sort le l = l.
Proof.
  induction 1 as [|x l Hs IH Hhd]; simpl; [reflexivity|].
  rewrite IH. destruct Hhd as [|y l Hxy]; simpl; [reflexivity|].
  now rewrite Hxy.
Qed.

End SortFacts.

(** A map that respects the order commutes with the sort. *)
Lemma sort_map {A B : Type} (leA : A -> A -> bool) (leB : B -> B -> bool)
  (g : A -> B) (l : list A) :
  (forall x y, leB (g x) (g y) = leA x y) ->
  sort leB (map g l) = map g (sort leA l).
Proof.
  intros Hg. induction l as [|x l IH]; simpl; [reflexivity|].
  rewrite IH. generalize (sort leA l) as s. clear IH.
  induction s as [|y s IHs]; simpl; [reflexivity|].
  rewrite Hg. destruct (leA x y); simpl; [reflexivity|]. now rewrite IHs.
Qed.

Lemma Sorted_filter {A : Type} (R : A -> A -> Prop) (p : A -> bool) l :
  (forall x y z, R x y -> R y z -> R x z) ->
  Sorted R l -> Sorted R (filter p l).
Proof.
  intros Htr Hs. apply Sorted_StronglySorted in Hs; [|exact Htr].
  apply StronglySorted_Sorted.
  induction Hs as [|x l Hs IH Hall]; simpl; [constructor|].
  destruct (p x); [|assumption].
  constructor; [assumption|].
  rewrite Forall_forall in *. intros y Hy.
  apply filter_In in Hy. now apply Hall.
Qed.

End SortFacts.

(** ** The order of the rows *)

Module OrderFacts.
Import Float Pandas Sheets Codec SpecRows SortFacts.

Lemma ascii_compare_trans_le (a b c : ascii) :
  Ascii.compare a b <> Gt -> Ascii.compare b c <> Gt ->
  Ascii.compare a c <> Gt.
Proof.
  unfold Ascii.compare. rewrite !N.compare_gt_iff. lia.
Qed.

Lemma string_leb_trans (s t u : string) :
  String.leb s t = true -> String.leb t u = true -> String.leb s u = true.
Proof.
  unfold String.leb. revert t u.
  induction s as [|a s IH]; intros [|b t] [|c u]; simpl; try congruence.
  destruct (Ascii.compare a b) eqn:Hab; try discriminate.
  - apply Ascii.compare_eq_iff in Hab; subst b.
    destruct (Ascii.compare a c) eqn:Hac; try congruence.
    apply IH.
  - intros _. destruct (Ascii.compare b c) eqn:Hbc; try discriminate.
    + apply Ascii.compare_eq_iff in Hbc; subst c. now rewrite Hab.
    + intros _.
      assert (H : Ascii.compare a c = Lt).
      { unfold Ascii.compare in *. rewrite N.compare_lt_iff in *. lia. }
      now rewrite H.
Qed.

Lemma name_le_total (a b : Cell) : name_le a b = true \/ name_le b a = true.
Proof.
  destruct a, b; simpl; auto. apply String.leb_total.
Qed.

Lemma name_le_trans (a b c : Cell) :
  name_le a b = true -> name_le b c = true -> name_le a c = true.
Proof.
  destruct a, b, c; simpl; try congruence. apply string_leb_trans.
Qed.

Lemma row_le_total (r1 r2 : Row) : row_le r1 r2 = true \/ row_le r2 r1 = true.
Proof.
  unfold row_le.
  destruct (Nat.lt_trichotomy (category_code (category r1))
              (category_code (category r2))) as [H|[H|H]].
  - left. apply Nat.ltb_lt in H. now rewrite H.
  - rewrite H, Nat.eqb_refl. simpl.
    destruct (name_le_total (name r1) (name r2)) as [E|E]; rewrite E;
      [left|right]; apply orb_true_r.
  - right. apply Nat.ltb_lt in H. now rewrite H.
Qed.

Lemma row_le_iff (r1 r2 : Row) :
  row_le r1 r2 = true <->
  (category_code (category r1) < category_code (category r2) \/
   (category_code (category r1) = category_code (category r2) /\
    name_le (name r1) (name r2) = true))%nat.
Proof.
  unfold row_le.
  rewrite orb_true_iff, andb_true_iff, Nat.ltb_lt, Nat.eqb_eq. tauto.
Qed.

Lemma row_le_trans (r1 r2 r3 : Row) :
  row_le r1 r2 = true -> row_le r2 r3 = true -> row_le r1 r3 = true.
Proof.
  rewrite !row_le_iff. intros [H1|[H1 N1]] [H2|[H2 N2]]; try (left; lia).
  right. split; [lia|]. eapply name_le_trans; eassumption.
Qed.

Lemma string_leb_refl (s : string) : String.leb s s = true.
Proof. destruct (String.leb_total s s); assumption. Qed.

End OrderFacts.

(** ** Decoding a grid *)

Module DecodeFacts.
Import Float Pandas Sheets Codec Spec SpecRows SpecStore SpecLoad.
Import SortFacts OrderFacts LoadFacts LoadRows.

Lemma mem_In (x : string) (l : list string) : Str.mem x l = true <-> In x l.
Proof.
  induction l as [|y l IH]; simpl; [split; [discriminate | tauto]|].
  rewrite orb_true_iff, IH, String.eqb_eq. split; intros [H|H]; auto.
Qed.

Lemma read_worksheet_as_df_sorted data df :
  read_worksheet_as_df data = Ok df -> df = sort row_le (stored_rows data).
Proof.
  destruct data as [|header records]; [now intros [= <-]|].
  unfold read_worksheet_as_df, stored_rows, frame_of.
  repeat match goal with
         | |- (if ?c then _ else _) = _ -> _ => destruct c; [discriminate|]
         end.
  now intros [= <-].
Qed.

Lemma column_text_or_missing header c record :
  text_or_missing (column header c record).
Proof.
  unfold column, text_or_missing.
  destruct (Str.index_of _ _) as [i|]; [|now left].
  destruct (nth_error record i); [right; eauto | now left].
Qed.

Lemma categorical_shape c :
  categorical c = NaN \/ exists s, categorical c = CStr s /\ In s CATEGORIAS.
Proof.
  destruct c as [s| | |]; unfold categorical; auto.
  destruct (Str.mem s CATEGORIAS) eqn:H; [|now left].
  right. exists s. split; [reflexivity | now apply mem_In].
Qed.

Lemma stored_rows_decoded data : Forall decoded_row (stored_rows data).
Proof.
  destruct data as [|header records]; simpl; [constructor|].
  unfold frame_of, map_col. rewrite map_map. apply Forall_forall.
  intros r Hr. apply in_map_iff in Hr as (rec & <- & _).
  unfold decoded_row; simpl.
  repeat split; try apply column_text_or_missing. apply categorical_shape.
Qed.

Lemma read_worksheet_as_df_decoded data df :
  read_worksheet_as_df data = Ok df -> Forall decoded_row df.
Proof.
  intros H. rewrite (read_worksheet_as_df_sorted _ _ H).
  apply sort_Forall, stored_rows_decoded.
Qed.

Lemma Permutation_filter {A : Type} (p : A -> bool) (l l' : list A) :
  Permutation l l' -> Permutation (filter p l) (filter p l').
Proof.
  induction 1; simpl.
  - constructor.
  - destruct (p x); [now constructor | assumption].
  - destruct (p x), (p y); try reflexivity. apply perm_swap.
  - etransitivity; eassumption.
Qed.

Lemma StronglySorted_Forall2 {A B : Type} (R : A -> A -> Prop)
  (R' : B -> B -> Prop) (Q : A -> B -> Prop) l l' :
  (forall a b a' b', Q a a' -> Q b b' -> R a b -> R' a' b') ->
  Forall2 Q l l' -> StronglySorted R l -> StronglySorted R' l'.
Proof.
  intros HQ HF. induction HF as [|a a' l l' Ha HF IH]; intros HS.
  - constructor.
  - inversion HS as [|? ? HS' Hall]; subst.
    constructor; [now apply IH|].
    clear IH HS HS'. induction HF as [|b b' l l' Hb HF IH]; [constructor|].
    inversion Hall; subst. constructor; [eapply HQ; eauto | now apply IH].
Qed.

Lemma in_order_iff r1 r2 : in_order r1 r2 <-> row_le r1 r2 = true.
Proof. symmetry. apply row_le_iff. Qed.

Lemma in_order_trans r1 r2 r3 :
  in_order r1 r2 -> in_order r2 r3 -> in_order r1 r3.
Proof. rewrite !in_order_iff. apply row_le_trans. Qed.

Lemma sorted_rows_in_order data :
  StronglySorted in_order (dropna_all (sort row_le (stored_rows data))).
Proof.
  apply Sorted_StronglySorted; [exact in_order_trans|].
  apply Sorted_filter; [exact in_order_trans|].
  eapply Sorted_ind with (P := Sorted in_order);
    [constructor | | apply (sort_sorted row_le row_le_total)].
  intros a l _ IH Hhd. constructor; [assumption|].
  destruct Hhd; constructor. now apply in_order_iff.
Qed.

Lemma loaded_from_same_item checked_of a b :
  loaded_from checked_of a b -> same_item a b.
Proof. intros (t & _ & ->). repeat split. Qed.

(** Both variants: the loaded rows are the sorted stored rows that are not
    entirely missing, each coerced. *)
Lemma load_rows sp list_name df :
  App.get_list_data sp list_name = Ok df \/
  AppCopy.get_list_data sp list_name = Ok df ->
  exists checked_of,
    (checked_of = app_checked \/ checked_of = copy_checked) /\
    (checked_of = app_checked -> App.get_list_data sp list_name = Ok df) /\
    Forall2 (loaded_from checked_of)
      (dropna_all (sort row_le (stored_rows (get_all_values sp list_name))))
      df.
Proof.
  intros [H|H].
  - exists app_checked. split; [now left|]. split; [auto|].
    apply app_load_rows in H as (raw & Hr & HF).
    now rewrite <- (read_worksheet_as_df_sorted _ _ Hr).
  - exists copy_checked. split; [now right|]. split.
    + intros E. exfalso.
      assert (E' : app_checked CNA = copy_checked CNA) by now rewrite E.
      discriminate E'.
    + apply copy_load_rows in H as (raw & Hr & HF).
      now rewrite <- (read_worksheet_as_df_sorted _ _ Hr).
Qed.

End DecodeFacts.

(* ================================================================== *)
(** * Part III. The properties of the specification                    *)
(* ================================================================== *)

Import Float Pandas Sheets Codec.
Import Spec SpecRows SpecStore SpecLoad Examples.

(** ** Loading a list *)

(** C5.  For every decoded row, [quantity] and [price] are decoded by
    replacing [','] with ['.'] and parsing a decimal numeral: ["1,5"]
    yields 1.5, and an empty cell, a missing cell and an unparseable text
    such as ["abc"] yield 0.0.  The coercion never raises: it is a total
    function of the cell, its result is never NaN, and it is the last step
    of [get_list_data] in both variants. *)
Theorem C5_decimal_coercion :
  App.coerce_decimal (CStr "1,5") = Ok (CFloat (FFin false [1; 5] 0)) /\
  App.coerce_decimal (CStr "") = Ok (CFloat zero) /\
  App.coerce_decimal CNA = Ok (CFloat zero) /\
  App.coerce_decimal (CStr "abc") = Ok (CFloat zero) /\
  (forall c : Cell,
     App.coerce_decimal c =
     Ok (CFloat match parse (Str.replace "," "." (astype_str c)) with
                | Some v => v
                | None => zero
                end)) /\
  (forall c : Cell,
     exists v, App.coerce_decimal c = Ok (CFloat v) /\ is_nan v = false) /\
  (forall r : Row,
     App.coerce_numbers r =
     Ok (set Quantity (CFloat (decimal_of (quantity r)))
           (set Price (CFloat (decimal_of (price r))) r))) /\
  (forall sp list_name,
     App.get_list_data sp list_name =
     (ws <- worksheet sp list_name ;;
      raw <- read_worksheet_as_df (get_all_values sp ws) ;;
      checked <- mapM App.coerce_checked (dropna_all raw) ;;
      Ok (map numbers_of checked))) /\
  (forall sp list_name,
     AppCopy.get_list_data sp list_name =
     (ws <- worksheet sp list_name ;;
      raw <- read_worksheet_as_df (get_all_values sp ws) ;;
      checked <- mapM AppCopy.coerce_checked (dropna_all raw) ;;
      Ok (map numbers_of checked))).
Proof.
  do 4 (split; [vm_compute; reflexivity|]).
  repeat match goal with |- _ /\ _ => split end.
  - intros c. rewrite LoadFacts.coerce_decimal_eq.
    now rewrite LoadFacts.decimal_of_parse.
  - intros c. exists (decimal_of c). split.
    + apply LoadFacts.coerce_decimal_eq.
    + rewrite LoadFacts.decimal_of_parse.
      destruct (parse _) eqn:H; [|reflexivity].
      eapply LoadFacts.parse_not_nan; eassumption.
  - apply LoadFacts.coerce_numbers_eq.
  - intros sp list_name. unfold App.get_list_data.
    destruct (worksheet sp list_name); [simpl|reflexivity].
    destruct (read_worksheet_as_df _); [simpl|reflexivity].
    destruct (mapM App.coerce_checked _); [simpl|reflexivity].
    apply LoadFacts.mapM_coerce_numbers.
  - intros sp list_name. unfold AppCopy.get_list_data.
    destruct (worksheet sp list_name); [simpl|reflexivity].
    destruct (read_worksheet_as_df _); [simpl|reflexivity].
    destruct (mapM AppCopy.coerce_checked _); [simpl|reflexivity].
    apply LoadFacts.mapM_coerce_numbers.
Qed.

Lemma Forall2_Forall_l {A B : Type} (P : A -> Prop) (Q R : A -> B -> Prop)
  l l' :
  (forall a b, P a -> Q a b -> R a b) ->
  Forall P l -> Forall2 Q l l' -> Forall2 R l l'.
Proof.
  intros H HP HQ. induction HQ; inversion HP; subst; constructor; auto.
Qed.

Lemma decoded_rows_kept data :
  Forall decoded_row (dropna_all (sort row_le (stored_rows data))).
Proof.
  apply Forall_forall. intros r Hr. apply filter_In in Hr as [Hr _].
  apply SortFacts.sort_in in Hr.
  pose proof (DecodeFacts.stored_rows_decoded data) as H.
  rewrite Forall_forall in H. auto.
Qed.

Lemma checked_of_decoded checked_of a b :
  checked_of = app_checked \/ checked_of = copy_checked ->
  decoded_row a -> loaded_from checked_of a b ->
  is_checked b =
  CBool match is_checked a with
        | CStr s => negb (String.eqb s "FALSE") && negb (String.eqb s "")
        | _ => false
        end.
Proof.
  intros Hc (_ & _ & _ & _ & _ & Ha) (t & Ht & ->); simpl.
  destruct Ha as [Ha|[s Ha]]; rewrite Ha in *.
  - destruct Hc; subst checked_of; [discriminate|].
    now injection Ht as <-.
  - assert (E : checked_of (CStr s) = Ok (truth_of_text s))
      by (destruct Hc; subst; apply LoadFacts.app_checked_text).
    rewrite E in Ht. now injection Ht as <-.
Qed.

(** C4, as the code has it.  For every decoded row, load coerces the
    [is_checked] cell as follows: the text ["FALSE"] and the empty text
    yield false, every other text yields true (["TRUE"], and also an
    unrecognized text such as ["abc"]), and a missing cell yields false
    whenever the load goes through. *)
Theorem C4_checked_coercion sp list_name df :
  App.get_list_data sp list_name = Ok df \/
  AppCopy.get_list_data sp list_name = Ok df ->
  Forall2
    (fun a b =>
       is_checked b =
       CBool match is_checked a with
             | CStr s => negb (String.eqb s "FALSE") && negb (String.eqb s "")
             | _ => false
             end)
    (dropna_all (sort row_le (stored_rows (get_all_values sp list_name))))
    df.
Proof.
  intros H. apply DecodeFacts.load_rows in H as (ck & Hck & _ & HF).
  eapply Forall2_Forall_l; [|apply decoded_rows_kept|exact HF].
  intros a b Ha Hab. eapply checked_of_decoded; eassumption.
Qed.

Lemma C4_checked_coercion_witness :
  (App.get_list_data demo "L" = Ok demo_loaded \/
   AppCopy.get_list_data demo "L" = Ok demo_loaded) /\
  Forall2
    (fun a b =>
       is_checked b =
       CBool match is_checked a with
             | CStr s => negb (String.eqb s "FALSE") && negb (String.eqb s "")
             | _ => false
             end)
    (dropna_all (sort row_le (stored_rows (get_all_values demo "L"))))
    demo_loaded.
Proof.
  assert (H : App.get_list_data demo "L" = Ok demo_loaded \/
              AppCopy.get_list_data demo "L" = Ok demo_loaded)
    by (left; vm_compute; reflexivity).
  split; [exact H | exact (C4_checked_coercion demo "L" demo_loaded H)].
Defined.

(** C4 as stated fails: the unrecognized text ["abc"] is loaded as true,
    in both variants. *)
Lemma C4_unrecognized_text_is_true :
  map is_checked (sort row_le (stored_rows demo_grid)) =
    [CStr "abc"; CStr "FALSE"; CStr "TRUE"; CStr ""] /\
  App.get_list_data demo "L" = Ok demo_loaded /\
  AppCopy.get_list_data demo "L" = Ok demo_loaded /\
  map is_checked demo_loaded =
    [CBool true; CBool false; CBool true; CBool false].
Proof. repeat split; vm_compute; reflexivity. Qed.

(** In [app.py] a missing [is_checked] column stops the load with the
    [TypeError] of [bool(pd.NA)]; [app copy.py] maps the missing value to
    false first. *)
Lemma missing_checked_column :
  App.get_list_data uncheckable "L" = Raise TypeError /\
  option_map (map is_checked)
    match AppCopy.get_list_data uncheckable "L" with
    | Ok df => Some df
    | Raise _ => None
    end = Some [CBool false].
Proof. split; vm_compute; reflexivity. Qed.

(** C8, as the code has it.  Load drops exactly the decoded rows in which
    all six cells are missing; every other row is returned, with the name
    it was decoded with, blank or missing included. *)
Theorem C8_rows_kept sp list_name df :
  App.get_list_data sp list_name = Ok df \/
  AppCopy.get_list_data sp list_name = Ok df ->
  Forall2 (fun a b => name b = name a)
    (filter (fun r => negb (all_na r))
       (sort row_le (stored_rows (get_all_values sp list_name))))
    df.
Proof.
  intros H. apply DecodeFacts.load_rows in H as (ck & _ & _ & HF).
  eapply Forall2_impl; [|exact HF].
  intros a b (t & _ & ->). reflexivity.
Qed.

Lemma C8_rows_kept_witness :
  (App.get_list_data nameless "L" = Ok nameless_loaded \/
   AppCopy.get_list_data nameless "L" = Ok nameless_loaded) /\
  Forall2 (fun a b => name b = name a)
    (filter (fun r => negb (all_na r))
       (sort row_le (stored_rows (get_all_values nameless "L"))))
    nameless_loaded.
Proof.
  assert (H : App.get_list_data nameless "L" = Ok nameless_loaded \/
              AppCopy.get_list_data nameless "L" = Ok nameless_loaded)
    by (left; vm_compute; reflexivity).
  split; [exact H | exact (C8_rows_kept nameless "L" nameless_loaded H)].
Defined.

(** C8 as stated fails: a row whose name is missing (no [name] column) is
    returned, and so is a row whose name cell is blank. *)
Lemma C8_nameless_row_is_returned :
  App.get_list_data nameless "L" = Ok nameless_loaded /\
  AppCopy.get_list_data nameless "L" = Ok nameless_loaded /\
  map name nameless_loaded = [CNA] /\
  App.get_list_data demo "L" = Ok demo_loaded /\
  map name demo_loaded = [CStr ""; CStr "Tomates"; CStr "Pera"; CStr "Agua"].
Proof. repeat split; vm_compute; reflexivity. Qed.

(** ** The order of the items *)

Lemma index_of_Some x l i :
  Str.index_of x l = Some i -> (i < List.length l)%nat /\ In x l.
Proof.
  revert i; induction l as [|y l IH]; simpl; intros i; [discriminate|].
  destruct (String.eqb x y) eqn:E.
  - intros [= <-]. apply String.eqb_eq in E. split; [lia | auto].
  - destruct (Str.index_of x l) as [j|]; simpl; [|discriminate].
    intros [= <-]. destruct (IH j eq_refl). split; [lia | auto].
Qed.

Lemma index_of_None x l : Str.index_of x l = None -> ~ In x l.
Proof.
  induction l as [|y l IH]; simpl; [tauto|].
  destruct (String.eqb x y) eqn:E; [discriminate|].
  apply String.eqb_neq in E.
  destruct (Str.index_of x l); simpl; [discriminate|].
  intros _ [H|H]; [congruence | now apply IH].
Qed.

Lemma category_code_enumeration (c : Cell) :
  (category_code c < List.length CATEGORIAS)%nat <-> in_enumeration c.
Proof.
  unfold in_enumeration, category_code.
  destruct c as [s| | |]; try (split; [lia | intros (s' & [=] & _)]).
  destruct (Str.index_of s CATEGORIAS) as [i|] eqn:E.
  - apply index_of_Some in E as [Hi Hs]. split; [eauto | auto].
  - apply index_of_None in E. split; [lia|].
    intros (s' & [= <-] & Hs). contradiction.
Qed.

Lemma StronglySorted_before {A : Type} (R : A -> A -> Prop) l1 x l2 y l3 :
  StronglySorted R (l1 ++ x :: l2 ++ y :: l3) -> R x y.
Proof.
  induction l1 as [|z l1 IH]; simpl; intros H.
  - inversion H as [|? ? _ Hall]; subst.
    rewrite Forall_forall in Hall. apply Hall.
    apply in_or_app. right. now left.
  - inversion H; subst. auto.
Qed.

(** C3.  Load returns the stored rows (those that are not entirely
    missing) sorted by the position of the category in the enumeration of
    six values and then by name ascending; the rows whose category is not
    in the enumeration come after all the rows whose category is. *)
Theorem C3_load_order sp list_name df :
  App.get_list_data sp list_name = Ok df \/
  AppCopy.get_list_data sp list_name = Ok df ->
  StronglySorted in_order df /\
  (exists raw,
     Permutation raw (dropna_all (stored_rows (get_all_values sp list_name)))
     /\ Forall2 same_item raw df) /\
  (forall l1 r1 l2 r2 l3,
     df = l1 ++ r1 :: l2 ++ r2 :: l3 ->
     in_enumeration (category r2) -> in_enumeration (category r1)).
Proof.
  intros H. apply DecodeFacts.load_rows in H as (ck & _ & _ & HF).
  assert (HS : StronglySorted in_order df).
  { eapply DecodeFacts.StronglySorted_Forall2;
      [|exact HF|apply DecodeFacts.sorted_rows_in_order].
    intros a b a' b' (ta & _ & ->) (tb & _ & ->) Hab. exact Hab. }
  split; [exact HS|]. split.
  - eexists. split.
    + apply DecodeFacts.Permutation_filter, SortFacts.sort_perm.
    + eapply Forall2_impl; [|exact HF].
      intros a b. apply DecodeFacts.loaded_from_same_item.
  - intros l1 r1 l2 r2 l3 -> H2.
    apply StronglySorted_before in HS.
    apply category_code_enumeration in H2.
    apply category_code_enumeration.
    destruct HS as [Hlt|[Heq _]]; lia.
Qed.

Lemma C3_load_order_witness :
  (App.get_list_data demo "L" = Ok demo_loaded \/
   AppCopy.get_list_data demo "L" = Ok demo_loaded) /\
  StronglySorted in_order demo_loaded /\
  (exists raw,
     Permutation raw (dropna_all (stored_rows (get_all_values demo "L")))
     /\ Forall2 same_item raw demo_loaded) /\
  (forall l1 r1 l2 r2 l3,
     demo_loaded = l1 ++ r1 :: l2 ++ r2 :: l3 ->
     in_enumeration (category r2) -> in_enumeration (category r1)).
Proof.
  assert (H : App.get_list_data demo "L" = Ok demo_loaded \/
              AppCopy.get_list_data demo "L" = Ok demo_loaded)
    by (left; vm_compute; reflexivity).
  split; [exact H | exact (C3_load_order demo "L" demo_loaded H)].
Defined.

(** ** Writing a frame *)

Module WriteFacts.
Import SpecWrite.

Lemma format_to_comma_string_text (c : Cell) :
  is_text c = false -> format_to_comma_string c = Ok (comma_text c).
Proof.
  destruct c as [s|b|v|]; simpl; try discriminate; intros _;
    try reflexivity.
  - destruct b; reflexivity.
  - destruct v; reflexivity.
Qed.

Lemma encode_row_writable (r : Row) :
  writable r = true ->
  exists cells, encode_row r = Ok cells /\ map display cells = row_text r.
Proof.
  unfold writable. rewrite andb_true_iff, !negb_true_iff. intros [Hq Hp].
  unfold encode_row.
  rewrite (format_to_comma_string_text _ Hq),
    (format_to_comma_string_text _ Hp); simpl.
  eexists; split; reflexivity.
Qed.

Lemma values_of_writable (df : DataFrame) :
  forallb writable df = true ->
  exists values, values_of df = Ok values /\
                 map (map display) values = grid_of df.
Proof.
  intros H. unfold values_of.
  assert (E : exists data, mapM encode_row df = Ok data /\
                           map (map display) data = map row_text df).
  { induction df as [|r df IH]; simpl in *; [eexists; split; reflexivity|].
    apply andb_true_iff in H as [Hr Hdf].
    destruct (encode_row_writable r Hr) as (cells & -> & Hc).
    destruct (IH Hdf) as (data & -> & Hd). simpl.
    eexists; split; [reflexivity|]. simpl. now rewrite Hc, Hd. }
  destruct E as (data & -> & Hd). simpl.
  eexists; split; [reflexivity|]. unfold grid_of. simpl. now rewrite Hd.
Qed.

Lemma write_df_to_worksheet_ok f sp ws df :
  clear_fails f = false -> update_fails f = false ->
  forallb writable df = true ->
  write_df_to_worksheet f sp ws df = Ok (true, put sp ws (grid_of df), []).
Proof.
  intros Hc Hu Hw. unfold write_df_to_worksheet.
  destruct (values_of_writable df Hw) as (values & -> & Hv). simpl.
  unfold clear, update. rewrite Hc, Hu, Hv.
  f_equal. f_equal. f_equal.
  unfold put. rewrite map_map. apply map_ext. intros w.
  destruct (String.eqb (title w) ws) eqn:E; simpl.
  - now rewrite String.eqb_refl.
  - now rewrite E.
Qed.

Lemma get_all_values_put sp ws g :
  Str.mem ws (titles sp) = true -> get_all_values (put sp ws g) ws = g.
Proof.
  unfold get_all_values, put, titles.
  induction sp as [|w sp IH]; simpl; [discriminate|].
  rewrite String.eqb_sym.
  destruct (String.eqb (title w) ws) eqn:E; simpl.
  - intros _. now rewrite String.eqb_refl.
  - rewrite E. exact IH.
Qed.

Lemma titles_put sp ws g : titles (put sp ws g) = titles sp.
Proof.
  unfold titles, put. rewrite map_map. apply map_ext_in. intros w _.
  destruct (String.eqb (title w) ws) eqn:E; [|reflexivity].
  apply String.eqb_eq in E. now subst.
Qed.

Lemma loaded_from_loaded_row checked_of a b :
  decoded_row a -> loaded_from checked_of a b -> loaded_row b.
Proof.
  intros (Hc & Hn & _ & Hu & _ & _) (t & _ & ->). unfold loaded_row; simpl.
  repeat split; eauto.
  - exists (decimal_of (quantity a)). split; [reflexivity|].
    rewrite LoadFacts.decimal_of_parse.
    destruct (parse _) eqn:E; [|reflexivity].
    eapply LoadFacts.parse_not_nan; eassumption.
  - exists (decimal_of (price a)). split; [reflexivity|].
    rewrite LoadFacts.decimal_of_parse.
    destruct (parse _) eqn:E; [|reflexivity].
    eapply LoadFacts.parse_not_nan; eassumption.
Qed.

Lemma Forall2_Forall_r {A B : Type} (P : A -> Prop) (Q : A -> B -> Prop)
  (R : B -> Prop) l l' :
  (forall a b, P a -> Q a b -> R b) ->
  Forall P l -> Forall2 Q l l' -> Forall R l'.
Proof.
  intros H HP HQ. induction HQ; inversion HP; subst; constructor; eauto.
Qed.

Lemma load_loaded_rows sp list_name df :
  App.get_list_data sp list_name = Ok df \/
  AppCopy.get_list_data sp list_name = Ok df ->
  Forall loaded_row df.
Proof.
  intros H. apply DecodeFacts.load_rows in H as (ck & _ & _ & HF).
  eapply Forall2_Forall_r; [|apply decoded_rows_kept|exact HF].
  intros a b. apply loaded_from_loaded_row.
Qed.

Lemma loaded_row_writable r : loaded_row r -> writable r = true.
Proof.
  intros ((q & Hq & _) & (p & Hp & _) & _). unfold writable.
  now rewrite Hq, Hp.
Qed.

Lemma loaded_rows_writable df :
  Forall loaded_row df -> forallb writable df = true.
Proof.
  intros H. apply forallb_forall. rewrite Forall_forall in H.
  intros r Hr. apply loaded_row_writable; auto.
Qed.

Lemma worksheet_of_load sp list_name df :
  App.get_list_data sp list_name = Ok df ->
  worksheet sp list_name = Ok list_name /\
  Str.mem list_name (titles sp) = true.
Proof.
  unfold App.get_list_data, worksheet.
  destruct (Str.mem list_name (titles sp)); [auto | discriminate].
Qed.

End WriteFacts.

(** ** Update by name *)

Import SpecWrite.





Lemma set_writable (col : Col) (v : Cell) (r : Row) :
  storable col v = true -> writable r = true ->
  writable (set col v r) = true.
Proof.
  unfold writable. intros Hs Hw. apply andb_true_iff in Hw as [H1 H2].
  destruct col; simpl in *; rewrite ?Hs, ?H1, ?H2; reflexivity.
Qed.

(** ** Quick add *)

(** C10.  Submitting the quick-add form of the shopping view with an empty
    product name appends a row whose name is the empty string, with the
    selected category, quantity and unit, price 0.0 and [is_checked]
    false, and persists it with the rows of the list: nothing rejects the
    empty name. *)
Theorem C10_quick_add_empty_name f sp list_name q_c q_q q_u items_df :
  clear_fails f = false -> update_fails f = false ->
  App.get_list_data sp list_name = Ok items_df ->
  let new_line := [q_c; ""; comma_text (CFloat q_q); q_u; "0"; "FALSE"] in
  let sp' := put sp list_name (grid_of items_df ++ [new_line]) in
  App.quick_add f sp list_name "" q_c q_q q_u = Ok (sp', []) /\
  get_all_values sp' list_name = grid_of items_df ++ [new_line].
Proof.
  intros Hc Hu Hload new_line sp'.
  pose proof (WriteFacts.load_loaded_rows sp list_name items_df
                (or_introl Hload)) as Hrows.
  destruct (WriteFacts.worksheet_of_load _ _ _ Hload) as [Hws Hmem].
  split; [|now apply WriteFacts.get_all_values_put].
  unfold App.quick_add. rewrite Hload, Hws. simpl.
  rewrite WriteFacts.write_df_to_worksheet_ok; auto.
  - simpl. unfold sp', grid_of. rewrite map_app. reflexivity.
  - rewrite forallb_app, (WriteFacts.loaded_rows_writable _ Hrows).
    reflexivity.
Qed.

Lemma C10_quick_add_empty_name_witness :
  clear_fails no_faults = false /\ update_fails no_faults = false /\
  App.get_list_data demo "L" = Ok demo_loaded /\
  let new_line :=
    ["🍓 Frutas"; ""; comma_text (CFloat (FFin false [2] 0)); "kg"; "0";
     "FALSE"] in
  let sp' := put demo "L" (grid_of demo_loaded ++ [new_line]) in
  App.quick_add no_faults demo "L" "" "🍓 Frutas" (FFin false [2] 0) "kg"
    = Ok (sp', []) /\
  get_all_values sp' "L" = grid_of demo_loaded ++ [new_line].
Proof.
  assert (H : App.get_list_data demo "L" = Ok demo_loaded)
    by (vm_compute; reflexivity).
  split; [reflexivity|]. split; [reflexivity|]. split; [exact H|].
  exact (C10_quick_add_empty_name no_faults demo "L" "🍓 Frutas"
           (FFin false [2] 0) "kg" demo_loaded eq_refl eq_refl H).
Defined.

(** ** Totals *)

Import Aggregator ExamplesTotals.

Lemma filter_flat_map {A B : Type} (p : B -> bool) (f : A -> list B) l :
  filter p (flat_map f l) = flat_map (fun a => filter p (f a)) l.
Proof.
  induction l as [|a l IH]; simpl; [reflexivity|].
  now rewrite filter_app, IH.
Qed.

Lemma positive_groups (observed : bool) (bought : DataFrame)
  (cs : list string) :
  filter (fun ct => is_positive (snd ct))
    (flat_map
       (fun c =>
          match filter (in_category c) bought with
          | [] => if observed then [] else [(c, zero)]
          | g => [(c, sum_prices g)]
          end) cs) =
  flat_map
    (fun c =>
       if is_positive (sum_prices (filter (in_category c) bought))
       then [(c, sum_prices (filter (in_category c) bought))] else []) cs.
Proof.
  rewrite filter_flat_map. apply flat_map_ext. intros c.
  destruct (filter (in_category c) bought) as [|r g] eqn:E.
  - destruct observed; reflexivity.
  - simpl filter.
    destruct (is_positive (sum_prices (r :: g))); reflexivity.
Qed.

Lemma to_numeric_col_price_loaded (df : DataFrame) :
  Forall loaded_row df -> App.to_numeric_col Price df = Ok df.
Proof.
  intros H. unfold App.to_numeric_col.
  rewrite <- (map_id df) at 2. apply mapM_map.
  rewrite Forall_forall in H. intros r Hr.
  destruct (H r Hr) as (_ & (p & Hp & Hnan) & _).
  destruct r as [c n q u pr ck]. simpl in *. subst pr. simpl.
  unfold fillna_float. now rewrite Hnan.
Qed.

Lemma groups_listed (observed : bool) (bought : DataFrame)
  (cs : list string) (c : string) (t : float64) :
  In (c, t)
    (flat_map
       (fun c =>
          match filter (in_category c) bought with
          | [] => if observed then [] else [(c, zero)]
          | g => [(c, sum_prices g)]
          end) cs) ->
  In c cs /\ t = sum_prices (filter (in_category c) bought).
Proof.
  intros H. apply in_flat_map in H as (c' & Hc' & H).
  destruct (filter (in_category c') bought) as [|r g] eqn:E.
  - destruct observed; [contradiction|].
    destruct H as [[= <- <-]|[]]. rewrite E. auto.
  - destruct H as [[= <- <-]|[]]. rewrite E. auto.
Qed.

Lemma groups_complete (observed : bool) (bought : DataFrame)
  (cs : list string) (c : string) :
  In c cs -> filter (in_category c) bought <> [] ->
  In (c, sum_prices (filter (in_category c) bought))
    (flat_map
       (fun c =>
          match filter (in_category c) bought with
          | [] => if observed then [] else [(c, zero)]
          | g => [(c, sum_prices g)]
          end) cs).
Proof.
  intros Hc Hg. apply in_flat_map. exists c. split; [assumption|].
  destruct (filter (in_category c) bought); [congruence | now left].
Qed.

(** The totals as the code has them.  They are computed from the items with
    [is_checked] true, grouped by the categories of the enumeration, with
    the sum of [price] per group; an item whose category is outside the
    enumeration belongs to no group.  [app.py] lists the categories whose
    sum is positive and gives as grand total the sum of [price] over all
    checked items; [app copy.py] lists the groups and gives as grand total
    the sum of the listed totals.  For the three items of the example the
    totals are A = 10 and B = 3 and the grand total is 13.  With no checked
    item no totals are reported. *)
Lemma totals_of_loaded_table (observed : bool) (df : DataFrame) :
  Forall loaded_row df ->
  let bought := filter checked df in
  let group c := filter (in_category c) bought in
  AppTotals.totals observed df =
    match bought with
    | [] => None
    | _ :: _ =>
        Some (flat_map
                (fun c => if is_positive (sum_prices (group c))
                          then [(c, sum_prices (group c))] else [])
                CATEGORIAS,
              sum_prices bought)
    end /\
  match AppCopy.summary observed df with
  | Ok AppCopy.NoItems => df = []
  | Ok AppCopy.NoneChecked => df <> [] /\ bought = []
  | Ok (AppCopy.Totals by_cat total) =>
      bought <> [] /\
      total = sum_floats (map snd by_cat) /\
      (forall c t, In (c, t) by_cat ->
                   In c CATEGORIAS /\ t = sum_prices (group c)) /\
      (forall c, In c CATEGORIAS -> group c <> [] ->
                 In (c, sum_prices (group c)) by_cat)
  | Raise _ => False
  end /\
  AppTotals.totals observed three_items =
    Some ([("🥦 Verduras", dec 10 0); ("🍓 Frutas", dec 3 0)], dec 13 0) /\
  AppCopy.summary true three_items =
    Ok (AppCopy.Totals [("🥦 Verduras", dec 10 0); ("🍓 Frutas", dec 3 0)]
          (dec 13 0)) /\
  AppCopy.summary false three_items =
    Ok (AppCopy.Totals
          [("🥦 Verduras", dec 10 0); ("🍓 Frutas", dec 3 0);
           ("🥩 Carnes", zero); ("🛒 Abarrotes", zero);
           ("🧼 Limpieza", zero); ("📦 Otros", zero)]
          (dec 13 0)).
Proof.
  intros Hdf. cbv zeta.
  split; [|split; [|repeat split; destruct observed; vm_compute; reflexivity]].
  - unfold AppTotals.totals. destruct df as [|r df]; [reflexivity|].
    destruct (filter checked (r :: df)) as [|b bs] eqn:E; [reflexivity|].
    unfold groupby_category_sum. rewrite positive_groups. reflexivity.
  - unfold AppCopy.summary. destruct df as [|r df]; [reflexivity|].
    rewrite (to_numeric_col_price_loaded _ Hdf). unfold bind.
    destruct (filter checked (r :: df)) as [|b bs] eqn:E.
    + split; [discriminate | reflexivity].
    + split; [discriminate|]. split; [reflexivity|].
      unfold groupby_category_sum. split.
      * intros c t. apply groups_listed.
      * intros c. apply groups_complete.
Qed.

Lemma drinks_loaded_rows : Forall loaded_row drinks_loaded.
Proof.
  constructor; [|constructor]. unfold loaded_row; simpl.
  split; [eexists; split; reflexivity|].
  split; [eexists; split; reflexivity|].
  split; [eexists; reflexivity|].
  split; [left; reflexivity|].
  split; right; eexists; reflexivity.
Defined.

Lemma totals_of_drinks :
  Forall loaded_row drinks_loaded /\
  let bought := filter checked drinks_loaded in
  let group c := filter (in_category c) bought in
  AppTotals.totals true drinks_loaded =
    match bought with
    | [] => None
    | _ :: _ =>
        Some (flat_map
                (fun c => if is_positive (sum_prices (group c))
                          then [(c, sum_prices (group c))] else [])
                CATEGORIAS,
              sum_prices bought)
    end /\
  match AppCopy.summary true drinks_loaded with
  | Ok AppCopy.NoItems => drinks_loaded = []
  | Ok AppCopy.NoneChecked => drinks_loaded <> [] /\ bought = []
  | Ok (AppCopy.Totals by_cat total) =>
      bought <> [] /\
      total = sum_floats (map snd by_cat) /\
      (forall c t, In (c, t) by_cat ->
                   In c CATEGORIAS /\ t = sum_prices (group c)) /\
      (forall c, In c CATEGORIAS -> group c <> [] ->
                 In (c, sum_prices (group c)) by_cat)
  | Raise _ => False
  end /\
  AppTotals.totals true three_items =
    Some ([("🥦 Verduras", dec 10 0); ("🍓 Frutas", dec 3 0)], dec 13 0) /\
  AppCopy.summary true three_items =
    Ok (AppCopy.Totals [("🥦 Verduras", dec 10 0); ("🍓 Frutas", dec 3 0)]
          (dec 13 0)) /\
  AppCopy.summary false three_items =
    Ok (AppCopy.Totals
          [("🥦 Verduras", dec 10 0); ("🍓 Frutas", dec 3 0);
           ("🥩 Carnes", zero); ("🛒 Abarrotes", zero);
           ("🧼 Limpieza", zero); ("📦 Otros", zero)]
          (dec 13 0)).
Proof.
  split; [exact drinks_loaded_rows|].
  exact (totals_of_loaded_table true drinks_loaded drinks_loaded_rows).
Defined.

(** C7.  The grand total of [app.py] and of [app_bk.py] is the sum of
    [price] over the checked items, and that of [app copy.py] is not: for the list whose only item is checked, costs 11
    and has a category outside the enumeration, [app.py] and [app_bk.py]
    report the total 11, and [app copy.py] reports 0, the sum of the totals
    of the groups, none of which holds the item. *)
Theorem C7_copy_total_misses_item :
  App.get_list_data drinks "L" = Ok drinks_loaded /\
  AppCopy.get_list_data drinks "L" = Ok drinks_loaded /\
  sum_prices (filter checked drinks_loaded) = FFin false [1; 1] 1 /\
  AppTotals.totals true drinks_loaded = Some ([], FFin false [1; 1] 1) /\
  AppTotals.totals false drinks_loaded = Some ([], FFin false [1; 1] 1) /\
  AppTotals.total_bk drinks_loaded = Some (FFin false [1; 1] 1) /\
  AppCopy.summary true drinks_loaded = Ok (AppCopy.Totals [] zero) /\
  AppCopy.summary false drinks_loaded =
    Ok (AppCopy.Totals
          [("🥦 Verduras", zero); ("🍓 Frutas", zero); ("🥩 Carnes", zero);
           ("🛒 Abarrotes", zero); ("🧼 Limpieza", zero); ("📦 Otros", zero)]
          zero).
Proof. repeat split; vm_compute; reflexivity. Qed.

(** [app_bk.py] shows a total of 0.0 when no item is checked. *)
Lemma backup_total_of_unchecked_list :
  AppTotals.total_bk
    [mkRow (CStr "🥦 Verduras") (CStr "a") (CFloat zero) (CStr "kg")
       (CFloat (dec 5 0)) (CBool false)] = Some zero.
Proof. reflexivity. Qed.

(** ** The list repository *)

Module RepoFacts.

Lemma titles_write f sp ws df b sp' msgs :
  write_df_to_worksheet f sp ws df = Ok (b, sp', msgs) ->
  titles sp' = titles sp.
Proof.
  unfold write_df_to_worksheet, clear, update.
  destruct (values_of df); simpl; [|discriminate].
  destruct (clear_fails f); [now intros [= _ <- _]|].
  destruct (update_fails f); intros [= _ <- _];
    now rewrite ?WriteFacts.titles_put.
Qed.

Lemma titles_add f sp t sp' :
  add_worksheet f sp t = Ok sp' -> titles sp' = titles sp ++ [t].
Proof.
  unfold add_worksheet. destruct (_ || _); [discriminate|].
  intros [= <-]. unfold titles. now rewrite map_app.
Qed.

Lemma titles_del f sp ws sp' :
  del_worksheet f sp ws = Ok sp' ->
  titles sp' = filter (fun t => negb (String.eqb t ws)) (titles sp).
Proof.
  unfold del_worksheet. destruct (del_fails f); [discriminate|].
  intros [= <-]. unfold titles.
  induction sp as [|w sp IH]; simpl; [reflexivity|].
  destruct (String.eqb (title w) ws); simpl; now rewrite IH.
Qed.

Lemma lists_perm sp :
  Permutation (get_all_lists sp)
    (filter (fun t => negb (reserved t)) (titles sp)).
Proof. apply SortFacts.sort_perm. Qed.

Lemma lists_in sp t :
  In t (get_all_lists sp) <-> In t (titles sp) /\ reserved t = false.
Proof.
  unfold get_all_lists. rewrite SortFacts.sort_in, filter_In.
  now rewrite negb_true_iff.
Qed.

Lemma lists_NoDup sp : NoDup (titles sp) -> NoDup (get_all_lists sp).
Proof.
  intros H. eapply Permutation_NoDup.
  - apply Permutation_sym, lists_perm.
  - now apply NoDup_filter.
Qed.

Lemma lists_smallest sp t :
  In t (get_all_lists sp) ->
  String.leb (hd "" (get_all_lists sp)) t = true.
Proof.
  unfold get_all_lists.
  pose proof (SortFacts.sort_sorted String.leb String.leb_total
                (filter (fun t => negb (reserved t)) (titles sp))) as HS.
  apply Sorted_StronglySorted in HS.
  2:{ intros x y z. apply OrderFacts.string_leb_trans. }
  destruct (sort String.leb _) as [|o l]; [contradiction|].
  inversion HS as [|? ? _ Hall]; subst. simpl.
  intros [<-|Ht]; [apply OrderFacts.string_leb_refl|].
  rewrite Forall_forall in Hall. auto.
Qed.

Lemma filter_head_NoDup (o : string) (l : list string) :
  NoDup (o :: l) ->
  filter (fun t => negb (String.eqb t o)) (o :: l) = l.
Proof.
  intros H. inversion H as [|? ? Hnot _]; subst. simpl.
  rewrite String.eqb_refl. simpl.
  apply forallb_filter_id. apply forallb_forall. intros t Ht.
  apply negb_true_iff, String.eqb_neq. congruence.
Qed.

Lemma filter_comm {A : Type} (p q : A -> bool) (l : list A) :
  filter p (filter q l) = filter q (filter p l).
Proof.
  induction l as [|a l IH]; simpl; [reflexivity|].
  destruct (q a) eqn:Q, (p a) eqn:P; simpl; rewrite ?Q, ?P, ?IH; reflexivity.
Qed.

(** The enumeration after the tab [name] has been appended to the tabs
    [ts], where [ts] is all the tabs or all but the oldest list. *)
Lemma lists_after sp sp' name (evicted : bool) :
  NoDup (titles sp) -> get_all_lists sp <> [] -> reserved name = false ->
  titles sp' =
    (if evicted
     then filter (fun t => negb (String.eqb t (hd "" (get_all_lists sp))))
            (titles sp)
     else titles sp) ++ [name] ->
  Permutation (get_all_lists sp')
    (name :: if evicted then tl (get_all_lists sp) else get_all_lists sp).
Proof.
  intros Hnd Hne Hres Ht.
  etransitivity; [apply lists_perm|].
  rewrite Ht, filter_app. simpl. rewrite Hres. simpl.
  etransitivity; [apply Permutation_app_comm|]. simpl. constructor.
  destruct evicted.
  - set (o := hd "" (get_all_lists sp)).
    pose proof (filter_comm (fun t => negb (reserved t))
                  (fun t => negb (String.eqb t o)) (titles sp)) as E.
    rewrite E.
    etransitivity.
    { apply DecodeFacts.Permutation_filter, Permutation_sym, lists_perm. }
    pose proof (lists_NoDup sp Hnd) as HL. subst o.
    destruct (get_all_lists sp) as [|o l]; [congruence|]. simpl hd. simpl tl.
    now rewrite filter_head_NoDup.
  - apply Permutation_sym, lists_perm.
Qed.

End RepoFacts.

Module CreateFacts.
Import RepoFacts.

Lemma mem_filter_false (x : string) (p : string -> bool) (l : list string) :
  Str.mem x l = false -> Str.mem x (filter p l) = false.
Proof.
  induction l as [|y l IH]; simpl; [reflexivity|].
  intros H. apply orb_false_iff in H as [H1 H2].
  destruct (p y); simpl; rewrite ?H1; auto.
Qed.

Lemma oldest_is_tab sp :
  get_all_lists sp <> [] ->
  Str.mem (hd "" (get_all_lists sp)) (titles sp) = true.
Proof.
  intros H. apply DecodeFacts.mem_In.
  apply (lists_in sp). destruct (get_all_lists sp); [congruence | now left].
Qed.

(** The tabs after the eviction step of [app.py]. *)
Lemma app_evict_titles f sp :
  (10 <= List.length (get_all_lists sp))%nat ->
  titles (App.evict f sp (get_all_lists sp)) =
  if del_fails f then titles sp
  else filter (fun t => negb (String.eqb t (hd "" (get_all_lists sp))))
         (titles sp).
Proof.
  intros H10. unfold App.evict.
  apply Nat.leb_le in H10. rewrite H10.
  unfold worksheet. rewrite oldest_is_tab.
  2:{ apply Nat.leb_le in H10. destruct (get_all_lists sp); simpl in *;
      [lia | discriminate]. }
  simpl. destruct (del_worksheet f sp _) as [sp1|] eqn:E.
  - rewrite (titles_del _ _ _ _ E). unfold del_worksheet in E.
    destruct (del_fails f); [discriminate | reflexivity].
  - unfold del_worksheet in E. destruct (del_fails f); [reflexivity|].
    discriminate.
Qed.

Lemma app_create_titles f sp name tid sp' msgs :
  App.create_list f sp name tid = Ok (App.Done sp' msgs) ->
  titles sp' = titles (App.evict f sp (get_all_lists sp)) ++ [name].
Proof.
  unfold App.create_list.
  destruct (Str.mem name (get_all_lists sp)); [discriminate|].
  destruct (App.seed _ tid) as [df0|]; simpl; [|discriminate].
  destruct (App.to_numeric_col Price df0) as [df1|]; simpl; [|discriminate].
  destruct (App.to_numeric_col Quantity df1) as [df2|]; simpl;
    [|discriminate].
  destruct (add_worksheet f _ name) as [sp2|] eqn:Ea; simpl; [|discriminate].
  destruct (write_df_to_worksheet f sp2 name df2) as [[[b sp3] m]|] eqn:Ew;
    simpl; [|discriminate].
  intros [= <- <-].
  rewrite (titles_write _ _ _ _ _ _ _ Ew). now apply titles_add in Ea.
Qed.

Lemma app_create_empty f sp name :
  (10 <= List.length (get_all_lists sp))%nat ->
  Str.mem name (titles sp) = false ->
  add_fails f = false -> clear_fails f = false -> update_fails f = false ->
  exists sp', App.create_list f sp name None = Ok (App.Done sp' []).
Proof.
  intros H10 Hname Ha Hc Hu. unfold App.create_list.
  assert (Hl : Str.mem name (get_all_lists sp) = false).
  { destruct (Str.mem name (get_all_lists sp)) eqn:E; [|reflexivity].
    apply DecodeFacts.mem_In, lists_in in E as [E _].
    apply DecodeFacts.mem_In in E. congruence. }
  rewrite Hl. simpl.
  unfold add_worksheet. rewrite Ha. simpl.
  assert (Hm : Str.mem name
                 (titles (App.evict f sp (get_all_lists sp))) = false).
  { rewrite app_evict_titles by assumption.
    destruct (del_fails f); [assumption | now apply mem_filter_false]. }
  rewrite Hm. simpl.
  rewrite WriteFacts.write_df_to_worksheet_ok by auto.
  simpl. eauto.
Qed.

(** The same for [app copy.py], when the eviction goes through. *)
Lemma copy_create_titles f sp name tid sp' msgs :
  (10 <= List.length (get_all_lists sp))%nat ->
  del_fails f = false ->
  AppCopy.create_list f sp name tid = Ok (App.Done sp' msgs) ->
  titles sp' =
  filter (fun t => negb (String.eqb t (hd "" (get_all_lists sp))))
    (titles sp) ++ [name].
Proof.
  intros H10 Hd. unfold AppCopy.create_list.
  destruct (String.eqb name ""); [discriminate|].
  destruct (Str.mem name (get_all_lists sp)); [discriminate|].
  assert (Hne : get_all_lists sp <> []).
  { destruct (get_all_lists sp); simpl in *; [lia | discriminate]. }
  apply Nat.leb_le in H10. rewrite H10.
  unfold worksheet. rewrite (oldest_is_tab sp Hne). simpl.
  destruct (del_worksheet f sp _) as [sp1|] eqn:Ed; [|discriminate].
  destruct (AppCopy.seed sp1 tid) as [df0|]; simpl; [|discriminate].
  destruct (App.to_numeric_col Price df0) as [df1|]; simpl.
  2:{ discriminate. }
  destruct (App.to_numeric_col Quantity df1) as [df2|]; simpl.
  2:{ discriminate. }
  destruct (AppCopy.fill_checked df2) as [df3|]; simpl.
  2:{ discriminate. }
  destruct (add_worksheet f sp1 name) as [sp2|] eqn:Ea; simpl.
  2:{ discriminate. }
  destruct (write_df_to_worksheet f sp2 name df3) as [[[b sp3] m]|] eqn:Ew;
    [|discriminate].
  intros [= <- <-].
  rewrite (titles_write _ _ _ _ _ _ _ Ew), (titles_add _ _ _ _ Ea).
  now rewrite (titles_del _ _ _ _ Ed).
Qed.

Lemma copy_create_empty f sp name :
  (10 <= List.length (get_all_lists sp))%nat ->
  Str.mem name (titles sp) = false -> name <> "" ->
  del_fails f = false ->
  add_fails f = false -> clear_fails f = false -> update_fails f = false ->
  exists sp' msgs,
    AppCopy.create_list f sp name None = Ok (App.Done sp' msgs).
Proof.
  intros H10 Hname Hne Hd Ha Hc Hu. unfold AppCopy.create_list.
  apply String.eqb_neq in Hne. rewrite Hne.
  assert (Hl : Str.mem name (get_all_lists sp) = false).
  { destruct (Str.mem name (get_all_lists sp)) eqn:E; [|reflexivity].
    apply DecodeFacts.mem_In, lists_in in E as [E _].
    apply DecodeFacts.mem_In in E. congruence. }
  rewrite Hl.
  assert (Hnil : get_all_lists sp <> []).
  { destruct (get_all_lists sp); simpl in *; [lia | discriminate]. }
  apply Nat.leb_le in H10. rewrite H10.
  unfold worksheet. rewrite (oldest_is_tab sp Hnil). simpl.
  unfold del_worksheet. rewrite Hd. simpl.
  unfold add_worksheet. rewrite Ha. simpl.
  assert (Hm : Str.mem name
                 (titles (filter
                            (fun w => negb (String.eqb (title w)
                                              (hd "" (get_all_lists sp))))
                            sp)) = false).
  { clear -Hname. generalize (hd "" (get_all_lists sp)) as o. intros o.
    unfold titles in *.
    induction sp as [|w sp IH]; simpl in *; [reflexivity|].
    apply orb_false_iff in Hname as [H1 H2].
    destruct (negb _); simpl; rewrite ?H1; simpl; auto. }
  rewrite Hm. unfold bind.
  rewrite WriteFacts.write_df_to_worksheet_ok by auto.
  eauto.
Qed.

Lemma copy_create_blocked f sp name tid :
  (10 <= List.length (get_all_lists sp))%nat ->
  Str.mem name (titles sp) = false -> name <> "" ->
  del_fails f = true ->
  AppCopy.create_list f sp name tid =
  Ok (App.Stopped sp [st_error "No se pudo borrar la lista más antigua"]).
Proof.
  intros H10 Hname Hne Hd. unfold AppCopy.create_list.
  apply String.eqb_neq in Hne. rewrite Hne.
  assert (Hl : Str.mem name (get_all_lists sp) = false).
  { destruct (Str.mem name (get_all_lists sp)) eqn:E; [|reflexivity].
    apply DecodeFacts.mem_In, lists_in in E as [E _].
    apply DecodeFacts.mem_In in E. congruence. }
  rewrite Hl.
  assert (Hnil : get_all_lists sp <> []).
  { destruct (get_all_lists sp); simpl in *; [lia | discriminate]. }
  apply Nat.leb_le in H10. rewrite H10.
  unfold worksheet. rewrite (oldest_is_tab sp Hnil). simpl.
  unfold del_worksheet. now rewrite Hd.
Qed.

End CreateFacts.

(** ** Retention *)

Import SpecLists ExamplesLists.

Lemma distinct_NoDup (l : list string) : distinct l = true -> NoDup l.
Proof.
  induction l as [|x l IH]; simpl; [constructor|].
  rewrite andb_true_iff, negb_true_iff. intros [Hx Hl].
  constructor; [|auto].
  intros Hin. apply DecodeFacts.mem_In in Hin. congruence.
Qed.

Lemma lists_after_length sp sp' name (evicted : bool) :
  get_all_lists sp <> [] ->
  Permutation (get_all_lists sp')
    (name :: if evicted then tl (get_all_lists sp) else get_all_lists sp) ->
  List.length (get_all_lists sp') =
  if evicted then List.length (get_all_lists sp)
  else S (List.length (get_all_lists sp)).
Proof.
  intros Hne H. apply Permutation_length in H. rewrite H.
  destruct evicted; [|reflexivity].
  destruct (get_all_lists sp); [congruence | reflexivity].
Qed.

(** C2, as the code has it.  In a state in which at least 10 lists are
    enumerated, creating a new list under a name that no tab has and that
    is not reserved deletes exactly the lexicographically smallest
    enumerated list before the new one is added, so that the enumerated
    total after the creation is the total before it (10 when 10 lists were
    enumerated).  When the deletion fails, [app.py] goes on and creates the
    list without reporting anything, and the total grows by one;
    [app copy.py] reports the failure and stops without creating the
    list. *)
Theorem C2_retention f sp name :
  NoDup (titles sp) ->
  (10 <= List.length (get_all_lists sp))%nat ->
  Str.mem name (titles sp) = false -> reserved name = false -> name <> "" ->
  add_fails f = false -> clear_fails f = false -> update_fails f = false ->
  let lists := get_all_lists sp in
  let oldest := hd "" lists in
  let after := name :: if del_fails f then lists else tl lists in
  let total := if del_fails f then S (List.length lists)
               else List.length lists in
  (In oldest lists /\ forall t, In t lists -> String.leb oldest t = true) /\
  (exists sp', App.create_list f sp name None = Ok (App.Done sp' [])) /\
  (forall tid sp' msgs,
     App.create_list f sp name tid = Ok (App.Done sp' msgs) ->
     Permutation (get_all_lists sp') after /\
     List.length (get_all_lists sp') = total) /\
  (if del_fails f
   then forall tid,
       AppCopy.create_list f sp name tid =
       Ok (App.Stopped sp
             [st_error "No se pudo borrar la lista más antigua"])
   else
     (exists sp' msgs,
        AppCopy.create_list f sp name None = Ok (App.Done sp' msgs)) /\
     (forall tid sp' msgs,
        AppCopy.create_list f sp name tid = Ok (App.Done sp' msgs) ->
        Permutation (get_all_lists sp') after /\
        List.length (get_all_lists sp') = total)).
Proof.
  intros Hnd H10 Hname Hres Hne Ha Hc Hu. cbv zeta.
  assert (Hnil : get_all_lists sp <> []).
  { destruct (get_all_lists sp); simpl in *; [lia | discriminate]. }
  split.
  { split; [|apply RepoFacts.lists_smallest].
    destruct (get_all_lists sp); [congruence | now left]. }
  split; [now apply CreateFacts.app_create_empty|].
  split.
  { intros tid sp' msgs H. apply CreateFacts.app_create_titles in H.
    rewrite CreateFacts.app_evict_titles in H by assumption.
    assert (P : Permutation (get_all_lists sp')
                  (name :: if negb (del_fails f)
                           then tl (get_all_lists sp)
                           else get_all_lists sp)).
    { apply (RepoFacts.lists_after sp sp' name (negb (del_fails f))); auto.
      rewrite H. now destruct (del_fails f). }
    pose proof (lists_after_length _ _ _ _ Hnil P) as Hlen.
    destruct (del_fails f); simpl in *; auto. }
  destruct (del_fails f) eqn:Hd.
  - intros tid. apply CreateFacts.copy_create_blocked; assumption.
  - split; [apply CreateFacts.copy_create_empty; assumption|].
    intros tid sp' msgs H.
    apply CreateFacts.copy_create_titles in H; try assumption.
    assert (P : Permutation (get_all_lists sp')
                  (name :: if true then tl (get_all_lists sp)
                           else get_all_lists sp)).
    { apply (RepoFacts.lists_after sp sp' name true); auto. }
    split; [exact P|].
    exact (lists_after_length _ _ _ true Hnil P).
Qed.

Lemma C2_retention_witness :
  NoDup (titles ten) /\
  (10 <= List.length (get_all_lists ten))%nat /\
  Str.mem "Lista 2024-08-10" (titles ten) = false /\
  reserved "Lista 2024-08-10" = false /\ "Lista 2024-08-10" <> "" /\
  add_fails no_faults = false /\ clear_fails no_faults = false /\
  update_fails no_faults = false /\
  let name := "Lista 2024-08-10" in
  let lists := get_all_lists ten in
  let oldest := hd "" lists in
  let after := name :: if del_fails no_faults then lists else tl lists in
  let total := if del_fails no_faults then S (List.length lists)
               else List.length lists in
  (In oldest lists /\ forall t, In t lists -> String.leb oldest t = true) /\
  (exists sp', App.create_list no_faults ten name None
               = Ok (App.Done sp' [])) /\
  (forall tid sp' msgs,
     App.create_list no_faults ten name tid = Ok (App.Done sp' msgs) ->
     Permutation (get_all_lists sp') after /\
     List.length (get_all_lists sp') = total) /\
  (if del_fails no_faults
   then forall tid,
       AppCopy.create_list no_faults ten name tid =
       Ok (App.Stopped ten
             [st_error "No se pudo borrar la lista más antigua"])
   else
     (exists sp' msgs,
        AppCopy.create_list no_faults ten name None
        = Ok (App.Done sp' msgs)) /\
     (forall tid sp' msgs,
        AppCopy.create_list no_faults ten name tid
        = Ok (App.Done sp' msgs) ->
        Permutation (get_all_lists sp') after /\
        List.length (get_all_lists sp') = total)).
Proof.
  assert (Hnd : NoDup (titles ten)) by (apply distinct_NoDup; reflexivity).
  assert (H10 : (10 <= List.length (get_all_lists ten))%nat)
    by (vm_compute; apply le_n).
  assert (Hne : "Lista 2024-08-10" <> "") by discriminate.
  split; [exact Hnd|]. split; [exact H10|].
  split; [reflexivity|]. split; [reflexivity|]. split; [exact Hne|].
  split; [reflexivity|]. split; [reflexivity|]. split; [reflexivity|].
  exact (C2_retention no_faults ten "Lista 2024-08-10" Hnd H10
           eq_refl eq_refl Hne eq_refl eq_refl eq_refl).
Defined.

(** C2 as stated fails.  With eleven lists enumerated, a creation leaves
    eleven, not ten.  And with ten lists and a deletion that fails,
    [app.py] creates the list and reports nothing, while [app copy.py]
    reports the failure and creates nothing. *)
Lemma C2_eleven_lists_stay_eleven :
  List.length (get_all_lists eleven) = 11 /\
  Str.mem "Lista 2024-08-17" (titles eleven) = false /\
  match App.create_list no_faults eleven "Lista 2024-08-17" None with
  | Ok (App.Done sp' msgs) =>
      msgs = [] /\ List.length (get_all_lists sp') = 11
  | _ => False
  end /\
  match AppCopy.create_list no_faults eleven "Lista 2024-08-17" None with
  | Ok (App.Done sp' msgs) => List.length (get_all_lists sp') = 11
  | _ => False
  end /\
  match App.create_list only_eviction_fails ten "Lista 2024-08-17" None with
  | Ok (App.Done sp' msgs) =>
      msgs = [] /\ List.length (get_all_lists sp') = 11
  | _ => False
  end /\
  AppCopy.create_list only_eviction_fails ten "Lista 2024-08-17" None =
  Ok (App.Stopped ten [st_error "No se pudo borrar la lista más antigua"]).
Proof. repeat split; vm_compute; reflexivity. Qed.

(** ** Numerals *)

Module DigitFacts.
Import Digits SpecNumbers SpecLex.

Lemma is_digit_char (d : nat) : (d < 10)%nat -> is_digit (digit_char d) = true.
Proof.
  intros H. do 10 (destruct d as [|d]; [reflexivity|]). lia.
Qed.

Lemma digit_of_digit_char (d : nat) :
  (d < 10)%nat -> digit_of_char (digit_char d) = d.
Proof.
  intros H. do 10 (destruct d as [|d]; [reflexivity|]). lia.
Qed.

Lemma digit_char_not_comma (d : nat) :
  (d < 10)%nat -> Ascii.eqb (digit_char d) "," = false.
Proof.
  intros H. do 10 (destruct d as [|d]; [reflexivity|]). lia.
Qed.

Lemma digit_char_not_space (d : nat) :
  (d < 10)%nat -> Str.is_space (digit_char d) = false.
Proof.
  intros H. do 10 (destruct d as [|d]; [reflexivity|]). lia.
Qed.

Lemma to_string_app (a b : list nat) :
  to_string (a ++ b) = (to_string a ++ to_string b)%string.
Proof. induction a; cbn [to_string app append]; congruence. Qed.

Lemma span_stops (r : string) : stops r -> span r = ([], r).
Proof. destruct r as [|c r]; simpl; [reflexivity|]. now intros ->. Qed.

Lemma span_to_string (ds : list nat) (r : string) :
  digits_ok ds -> stops r -> span (to_string ds ++ r) = (ds, r).
Proof.
  intros Hd Hr. induction Hd as [|d ds Hlt _ IH].
  - now apply span_stops.
  - cbn [to_string append span].
    rewrite (is_digit_char d Hlt), IH, (digit_of_digit_char d Hlt).
    reflexivity.
Qed.

Lemma comma_free_app (a b : string) :
  comma_free (a ++ b) = comma_free a && comma_free b.
Proof.
  induction a as [|c a IH]; simpl; [reflexivity|].
  now rewrite IH, andb_assoc.
Qed.

Lemma comma_free_to_string (ds : list nat) :
  digits_ok ds -> comma_free (to_string ds) = true.
Proof.
  induction 1 as [|d ds Hlt _ IH]; [reflexivity|].
  cbn [to_string comma_free].
  now rewrite (digit_char_not_comma d Hlt), IH.
Qed.

Lemma replace_comma_free (s : string) :
  comma_free s = true ->
  Str.replace "," "." (Str.replace "." "," s) = s.
Proof.
  induction s as [|c s IH]; simpl; [reflexivity|].
  rewrite andb_true_iff, negb_true_iff. intros [Hc Hs].
  rewrite (IH Hs). f_equal.
  destruct (Ascii.eqb c ".") eqn:E.
  - apply Ascii.eqb_eq in E. now subst.
  - now rewrite Hc.
Qed.

Lemma replace_no_comma (s : string) :
  comma_free s = true -> Str.replace "," "." s = s.
Proof.
  induction s as [|c s IH]; simpl; [reflexivity|].
  rewrite andb_true_iff, negb_true_iff. intros [Hc Hs].
  now rewrite Hc, (IH Hs).
Qed.

(** [of_digits] and [to_digits]. *)
Lemma to_digits_fuel_value (fuel : nat) (n : N) (acc : list nat) :
  (n < 2 ^ N.of_nat fuel)%N ->
  fold_left (fun a d => (a * 10 + N.of_nat d)%N)
    (to_digits_fuel fuel n acc) 0%N =
  fold_left (fun a d => (a * 10 + N.of_nat d)%N) acc n.
Proof.
  revert n acc. induction fuel as [|fuel IH]; intros n acc Hn.
  - simpl in *. assert (n = 0%N) by lia. now subst.
  - cbn [to_digits_fuel]. destruct (N.eqb_spec n 0) as [->|Hnz];
      [reflexivity|].
    rewrite IH.
    + cbn [fold_left]. f_equal. rewrite N2Nat.id.
      pose proof (N.div_mod n 10). lia.
    + rewrite Nat2N.inj_succ, N.pow_succ_r' in Hn.
      apply N.Div0.div_lt_upper_bound. lia.
Qed.

Lemma of_to_digits (n : N) : of_digits (to_digits n) = n.
Proof.
  unfold of_digits, to_digits. rewrite to_digits_fuel_value; [reflexivity|].
  rewrite Nat2N.inj_succ, N2Nat.id.
  destruct n as [|p]; [reflexivity|]. apply N.log2_spec. lia.
Qed.

Lemma to_digits_fuel_ok (fuel : nat) (n : N) (acc : list nat) :
  digits_ok acc -> digits_ok (to_digits_fuel fuel n acc).
Proof.
  revert n acc. induction fuel as [|fuel IH]; intros n acc Ha;
    [assumption|].
  cbn [to_digits_fuel]. destruct (N.eqb n 0); [assumption|].
  apply IH. constructor; [|assumption].
  pose proof (N.mod_upper_bound n 10). lia.
Qed.

Lemma to_digits_ok (n : N) : digits_ok (to_digits n).
Proof. apply to_digits_fuel_ok. constructor. Qed.

Lemma of_digits_zeros (k : nat) (ds : list nat) :
  of_digits (zeros k ++ ds) = of_digits ds.
Proof.
  unfold of_digits, zeros. induction k as [|k IH]; simpl; auto.
Qed.

Lemma zeros_ok (k : nat) : digits_ok (zeros k).
Proof.
  unfold digits_ok, zeros. apply Forall_forall. intros d Hd.
  apply repeat_spec in Hd. lia.
Qed.

End DigitFacts.

(** ** Leading and trailing zeros *)

Module TrimFacts.
Import Digits SpecNumbers SpecLex DigitFacts.

Lemma append_assoc (a b c : string) :
  ((a ++ b) ++ c)%string = (a ++ (b ++ c))%string.
Proof. induction a as [|x a IH]; cbn [append]; congruence. Qed.

Lemma append_nil_r (a : string) : (a ++ "")%string = a.
Proof. induction a as [|x a IH]; cbn [append]; congruence. Qed.

Lemma digits_ok_app (a b : list nat) :
  digits_ok a -> digits_ok b -> digits_ok (a ++ b).
Proof. intros Ha Hb. apply Forall_app. now split. Qed.

Lemma digits_ok_firstn (k : nat) (ds : list nat) :
  digits_ok ds -> digits_ok (firstn k ds).
Proof.
  intros H. rewrite <- (firstn_skipn k ds) in H.
  now apply Forall_app in H.
Qed.

Lemma digits_ok_skipn (k : nat) (ds : list nat) :
  digits_ok ds -> digits_ok (skipn k ds).
Proof.
  intros H. rewrite <- (firstn_skipn k ds) in H.
  now apply Forall_app in H.
Qed.

Lemma drop_zeros_zeros (k : nat) (ds : list nat) :
  drop_zeros (zeros k ++ ds) = drop_zeros ds.
Proof. unfold zeros. induction k; simpl; auto. Qed.

Lemma drop_zeros_head (ds : list nat) : hd 1 ds <> 0 -> drop_zeros ds = ds.
Proof. destruct ds as [|[|d] ds]; simpl; congruence. Qed.

Lemma count_zeros_head (ds : list nat) : hd 1 ds <> 0 -> count_zeros ds = 0.
Proof. destruct ds as [|[|d] ds]; simpl; congruence. Qed.

Lemma count_zeros_zeros (k : nat) (ds : list nat) :
  hd 1 ds <> 0 -> count_zeros (zeros k ++ ds) = k.
Proof.
  intros H. unfold zeros.
  induction k; simpl; [now apply count_zeros_head | congruence].
Qed.

Lemma strip_trailing_last (ds : list nat) :
  last ds 1 <> 0 -> strip_trailing ds = ds.
Proof.
  unfold strip_trailing.
  destruct ds as [|d ds] using rev_ind; [reflexivity|].
  rewrite last_last, rev_app_distr. simpl. intros H.
  destruct d as [|d]; [congruence|]. simpl. now rewrite rev_involutive.
Qed.

Lemma strip_trailing_zeros (k : nat) (ds : list nat) :
  strip_trailing (ds ++ zeros k) = strip_trailing ds.
Proof.
  unfold strip_trailing, zeros.
  now rewrite rev_app_distr, rev_repeat, (drop_zeros_zeros k).
Qed.

Lemma hd_app_nonempty (a b : list nat) : a <> [] -> hd 1 (a ++ b) = hd 1 a.
Proof. destruct a; [congruence | reflexivity]. Qed.

(** The numerals that [format_g] prints are read back as the float. *)
Lemma of_parts_small (neg : bool) (ds : list nat) (k : nat) :
  ds <> [] -> hd 1 ds <> 0 -> last ds 1 <> 0 ->
  of_parts neg [0] (zeros k ++ ds) 0 = FFin neg ds (- Z.of_nat (S k)).
Proof.
  intros Hne Hhd Hlast. unfold of_parts.
  change ([0] ++ zeros k ++ ds) with (zeros (S k) ++ ds).
  rewrite drop_zeros_zeros, (drop_zeros_head ds Hhd),
    (strip_trailing_last ds Hlast), (count_zeros_zeros (S k) ds Hhd).
  destruct ds; [congruence|]. f_equal; simpl List.length; lia.
Qed.

Lemma of_parts_split (neg : bool) (ds : list nat) (k : nat) (e : Z) :
  ds <> [] -> hd 1 ds <> 0 -> last ds 1 <> 0 -> (1 <= k)%nat ->
  of_parts neg (firstn k ds ++ zeros (k - List.length ds)) (skipn k ds) e =
  FFin neg ds (Z.of_nat k - 1 + e).
Proof.
  intros Hne Hhd Hlast Hk. unfold of_parts.
  assert (Hlen : List.length (firstn k ds ++ zeros (k - List.length ds)) = k).
  { rewrite length_app, length_firstn. unfold zeros. rewrite repeat_length.
    lia. }
  rewrite Hlen.
  destruct (Nat.le_gt_cases (List.length ds) k) as [Hle|Hgt].
  - rewrite (firstn_all2 ds Hle), (skipn_all2 ds Hle), app_nil_r.
    assert (H1 : hd 1 (ds ++ zeros (k - List.length ds)) <> 0)
      by now rewrite hd_app_nonempty.
    rewrite (drop_zeros_head _ H1), (count_zeros_head _ H1),
      strip_trailing_zeros, (strip_trailing_last ds Hlast).
    destruct ds; [congruence|]. f_equal; lia.
  - replace (k - List.length ds)%nat with 0%nat by lia.
    cbn [zeros repeat]. rewrite app_nil_r, firstn_skipn.
    rewrite (drop_zeros_head _ Hhd), (count_zeros_head _ Hhd),
      (strip_trailing_last ds Hlast).
    destruct ds; [congruence|]. f_equal; lia.
Qed.

End TrimFacts.


(** ** Reading a printed numeral *)

Module LexFacts.
Import Digits SpecNumbers SpecLex DigitFacts TrimFacts.

Lemma lex_sign_digit (d : nat) (r : string) :
  (d < 10)%nat ->
  lex_sign (String (digit_char d) r) = (false, String (digit_char d) r).
Proof.
  intros H. do 10 (destruct d as [|d]; [reflexivity|]). lia.
Qed.

Lemma skip_spaces_digit (d : nat) (r : string) :
  (d < 10)%nat ->
  Str.skip_spaces (String (digit_char d) r) = String (digit_char d) r.
Proof.
  intros H. cbn [Str.skip_spaces]. now rewrite digit_char_not_space.
Qed.

Lemma exponent_part_stops es : exponent_part es -> stops es.
Proof. intros [->|[r ->]]; simpl; auto. Qed.

Lemma exponent_part_fraction es :
  exponent_part es -> lex_fraction es = ([], es).
Proof. intros [->|[r ->]]; reflexivity. Qed.

Lemma lex_unsigned (neg : bool) (d : nat) (i f : list nat) (es : string)
  (e : Z) :
  digits_ok (d :: i) -> digits_ok f -> exponent_part es ->
  lex_exponent es = Some (e, "") ->
  (let (i', r1) :=
     span (to_string (d :: i) ++
           match f with
           | [] => es
           | _ :: _ => String "." (to_string f ++ es)
           end) in
   let (f', r2) := lex_fraction r1 in
   match i' ++ f' with
   | [] => None
   | _ :: _ =>
       match lex_exponent r2 with
       | Some (e, r3) =>
           match Str.skip_spaces r3 with
           | EmptyString => Some (of_parts neg i' f' e)
           | String _ _ => None
           end
       | None => None
       end
   end) = Some (of_parts neg (d :: i) f e).
Proof.
  intros Hi Hf Hes He.
  destruct f as [|d' f].
  - rewrite (span_to_string _ _ Hi (exponent_part_stops _ Hes)).
    rewrite (exponent_part_fraction _ Hes).
    cbn [app]. rewrite He. reflexivity.
  - rewrite (span_to_string (d :: i) (String "." _) Hi) by reflexivity.
    cbn [lex_fraction].
    rewrite (span_to_string _ _ Hf (exponent_part_stops _ Hes)).
    cbn [app]. rewrite He. reflexivity.
Qed.

Lemma lex_decimal_printed (neg : bool) (i f : list nat) (es : string)
  (e : Z) :
  i <> [] -> digits_ok i -> digits_ok f -> exponent_part es ->
  lex_exponent es = Some (e, "") ->
  lex_decimal
    ((if neg then "-" else "") ++ to_string i ++
     match f with
     | [] => es
     | _ :: _ => String "." (to_string f ++ es)
     end) = Some (of_parts neg i f e).
Proof.
  intros Hne Hi Hf Hes He. destruct i as [|d i]; [congruence|].
  pose proof (lex_unsigned neg d i f es e Hi Hf Hes He) as H.
  assert (Hd : (d < 10)%nat) by now inversion Hi.
  unfold lex_decimal. destruct neg.
  - change (("-" ++ to_string (d :: i) ++ ?x)%string)
      with (String "-" (to_string (d :: i) ++ x)).
    cbn [Str.skip_spaces]. change (Str.is_space "-") with false.
    cbn [lex_sign]. exact H.
  - cbn [append]. cbn [to_string append].
    rewrite (skip_spaces_digit d _ Hd), (lex_sign_digit d _ Hd).
    exact H.
Qed.

Lemma span_to_string_end (ds : list nat) :
  digits_ok ds -> span (to_string ds) = (ds, "").
Proof.
  intros H. rewrite <- (append_nil_r (to_string ds)).
  now apply span_to_string.
Qed.

Lemma lex_exponent_printed (x : Z) :
  lex_exponent (print_exponent x) = Some (x, "").
Proof.
  unfold print_exponent.
  set (ds := to_digits (Z.to_N (Z.abs x))).
  assert (Hok : digits_ok (zeros (2 - List.length ds) ++ ds))
    by (apply digits_ok_app; [apply zeros_ok | apply to_digits_ok]).
  assert (Hne : zeros (2 - List.length ds) ++ ds <> []).
  { destruct ds as [|a [|b ds]]; discriminate. }
  assert (Hv : Z.of_N (of_digits (zeros (2 - List.length ds) ++ ds))
               = Z.abs x).
  { rewrite of_digits_zeros. unfold ds. rewrite of_to_digits. lia. }
  destruct (Z.ltb_spec x 0) as [Hneg|Hpos].
  - change (("e" ++ "-" ++ ?s)%string) with (String "e" (String "-" s)).
    cbn [lex_exponent]. change (Ascii.eqb "e" "e") with true.
    cbn [orb lex_sign]. rewrite (span_to_string_end _ Hok).
    destruct (zeros _ ++ ds) eqn:E; [congruence|].
    rewrite Hv. f_equal. f_equal. lia.
  - change (("e" ++ "+" ++ ?s)%string) with (String "e" (String "+" s)).
    cbn [lex_exponent]. change (Ascii.eqb "e" "e") with true.
    cbn [orb lex_sign]. rewrite (span_to_string_end _ Hok).
    destruct (zeros _ ++ ds) eqn:E; [congruence|].
    rewrite Hv. f_equal. f_equal. lia.
Qed.

Lemma print_exponent_part (x : Z) : exponent_part (print_exponent x).
Proof. right. unfold print_exponent. eexists. reflexivity. Qed.

End LexFacts.
(** ** Writing a number and reading it back *)

Module RoundTripFacts.
Import Digits SpecNumbers SpecLex DigitFacts TrimFacts LexFacts.

Lemma print_mantissa_shape (i f : list nat) (es : string) :
  (print_mantissa i f ++ es)%string =
  (to_string i ++
   match f with
   | [] => es
   | _ :: _ => String "." (to_string f ++ es)
   end)%string.
Proof.
  unfold print_mantissa. rewrite append_assoc. destruct f; reflexivity.
Qed.

Lemma round_sig_fits (p : nat) (ds : list nat) (x : Z) :
  (List.length ds <=? p)%nat = true -> round_sig p ds x = (ds, x).
Proof. intros H. unfold round_sig. now rewrite H. Qed.

Lemma fixed_parts_ok (ds : list nat) (x : Z) :
  digits_ok ds -> ds <> [] ->
  fst (fixed_parts ds x) <> [] /\
  digits_ok (fst (fixed_parts ds x)) /\ digits_ok (snd (fixed_parts ds x)).
Proof.
  intros Hd Hne. unfold fixed_parts. destruct (x <? 0)%Z; cbn [fst snd].
  - split; [discriminate|]. split.
    + repeat constructor.
    + apply digits_ok_app; [apply zeros_ok | assumption].
  - split; [|split].
    + destruct ds; [congruence|]. discriminate.
    + apply digits_ok_app; [now apply digits_ok_firstn | apply zeros_ok].
    + now apply digits_ok_skipn.
Qed.

Lemma fixed_parts_value (neg : bool) (ds : list nat) (x : Z) :
  ds <> [] -> hd 1 ds <> 0 -> last ds 1 <> 0 ->
  of_parts neg (fst (fixed_parts ds x)) (snd (fixed_parts ds x)) 0 =
  FFin neg ds x.
Proof.
  intros Hne Hhd Hlast. unfold fixed_parts.
  destruct (Z.ltb_spec x 0) as [Hneg|Hpos]; cbn [fst snd].
  - rewrite (of_parts_small neg ds _ Hne Hhd Hlast). f_equal. lia.
  - rewrite (of_parts_split neg ds _ 0 Hne Hhd Hlast) by lia. f_equal. lia.
Qed.

(** A finite float with digits is printed as a numeral that the parser
    reads back. *)
Lemma lex_decimal_format_g (neg : bool) (ds : list nat) (x : Z) :
  digits_ok ds -> ds <> [] -> hd 1 ds <> 0 -> last ds 1 <> 0 ->
  (List.length ds <=? 6)%nat = true ->
  lex_decimal (format_g (FFin neg ds x)) = Some (FFin neg ds x).
Proof.
  intros Hd Hne Hhd Hlast Hfit.
  unfold format_g. destruct ds as [|d0 ds0] eqn:Eds; [congruence|].
  rewrite <- Eds in *. rewrite (round_sig_fits 6 ds x Hfit).
  destruct ((-4 <=? x) && (x <? 6))%Z.
  - destruct (fixed_parts_ok ds x Hd Hne) as (Hi & Hdi & Hdf).
    pose proof (fixed_parts_value neg ds x Hne Hhd Hlast) as Hv.
    destruct (fixed_parts ds x) as [i f]. cbn [fst snd] in *.
    rewrite <- (append_nil_r (print_mantissa i f)), print_mantissa_shape.
    rewrite (lex_decimal_printed neg i f "" 0 Hi Hdi Hdf);
      [now rewrite Hv | now left | reflexivity].
  - rewrite print_mantissa_shape.
    assert (Hi : firstn 1 ds <> []) by (rewrite Eds; discriminate).
    rewrite (lex_decimal_printed neg (firstn 1 ds) (skipn 1 ds)
               (print_exponent x) x Hi).
    + f_equal.
      pose proof (of_parts_split neg ds 1 x Hne Hhd Hlast (le_n 1)) as H.
      replace (1 - List.length ds)%nat with 0%nat in H
        by (rewrite Eds; simpl; lia).
      cbn [zeros repeat] in H. rewrite app_nil_r in H. rewrite H.
      f_equal; lia.
    + now apply digits_ok_firstn.
    + now apply digits_ok_skipn.
    + apply print_exponent_part.
    + apply lex_exponent_printed.
Qed.

Lemma parse_format_g (v : float64) :
  canonical v -> fits 6 v = true -> is_nan v = false ->
  parse (format_g v) = Some v.
Proof.
  destruct v as [neg ds x|neg|]; simpl fits; simpl is_nan;
    [| intros _ _ _; destruct neg; reflexivity | discriminate].
  intros (Hd & Hhd & Hlast & Hz) Hfit _. unfold parse.
  destruct ds as [|d ds].
  - rewrite (Hz eq_refl). destruct neg; reflexivity.
  - rewrite lex_decimal_format_g; auto. discriminate.
Qed.

End RoundTripFacts.
(** ** Saving a table and loading it *)

Module SaveLoadFacts.
Import Digits SpecNumbers SpecLex SpecRoundTrip SpecWrite.
Import DigitFacts TrimFacts LexFacts RoundTripFacts SortFacts OrderFacts.

Lemma digits_ok_drop_zeros (ds : list nat) :
  digits_ok ds -> digits_ok (drop_zeros ds).
Proof.
  induction 1 as [|d ds Hd Hds IH]; [constructor|].
  destruct d; simpl; [exact IH | now constructor].
Qed.

Lemma digits_ok_strip_trailing (ds : list nat) :
  digits_ok ds -> digits_ok (strip_trailing ds).
Proof.
  intros H. unfold strip_trailing, digits_ok.
  apply Forall_rev, digits_ok_drop_zeros, Forall_rev, H.
Qed.

Lemma round_sig_ok (p : nat) (ds : list nat) (x : Z) :
  digits_ok ds -> digits_ok (fst (round_sig p ds x)).
Proof.
  intros H. unfold round_sig.
  destruct (List.length ds <=? p)%nat; [exact H|].
  match goal with |- context [if ?c then _ else _] => destruct c end;
    cbn [fst]; apply digits_ok_strip_trailing;
    [apply to_digits_ok | now apply digits_ok_firstn].
Qed.

Lemma comma_free_print_mantissa (i f : list nat) :
  digits_ok i -> digits_ok f -> comma_free (print_mantissa i f) = true.
Proof.
  intros Hi Hf. unfold print_mantissa.
  rewrite comma_free_app, (comma_free_to_string i Hi).
  destruct f; [reflexivity|].
  rewrite comma_free_app, (comma_free_to_string _ Hf). reflexivity.
Qed.

Lemma comma_free_print_exponent (x : Z) :
  comma_free (print_exponent x) = true.
Proof.
  unfold print_exponent. rewrite !comma_free_app, comma_free_to_string.
  - destruct (x <? 0)%Z; reflexivity.
  - apply digits_ok_app; [apply zeros_ok | apply to_digits_ok].
Qed.

(** The [g] presentation has no comma of its own. *)
Lemma comma_free_format_g (v : float64) :
  canonical v -> comma_free (format_g v) = true.
Proof.
  destruct v as [neg ds x|neg|]; [|destruct neg; reflexivity | reflexivity].
  intros (Hd & _). unfold format_g. rewrite comma_free_app.
  replace (comma_free (if neg then "-" else "")) with true
    by (destruct neg; reflexivity).
  destruct ds as [|d ds]; [reflexivity|].
  pose proof (round_sig_ok 6 (d :: ds) x Hd) as Hr.
  destruct (round_sig 6 (d :: ds) x) as [ds' x']. cbn [fst] in Hr.
  destruct ((-4 <=? x') && (x' <? 6))%Z.
  - unfold fixed_parts. destruct (x' <? 0)%Z.
    + apply comma_free_print_mantissa; [repeat constructor|].
      apply digits_ok_app; [apply zeros_ok | assumption].
    + apply comma_free_print_mantissa.
      * apply digits_ok_app; [now apply digits_ok_firstn | apply zeros_ok].
      * now apply digits_ok_skipn.
  - rewrite comma_free_app, comma_free_print_exponent, andb_true_r.
    apply comma_free_print_mantissa;
      [now apply digits_ok_firstn | now apply digits_ok_skipn].
Qed.

Lemma coerce_decimal_comma_text (v : float64) :
  canonical v -> fits 6 v = true -> is_nan v = false ->
  App.coerce_decimal (CStr (comma_text (CFloat v))) = Ok (CFloat v).
Proof.
  intros Hc Hf Hn.
  assert (E : comma_text (CFloat v) = Str.replace "." "," (format_g v))
    by (destruct v; [reflexivity | reflexivity | discriminate]).
  rewrite E. unfold App.coerce_decimal, str_replace.
  cbn [astype_str]. rewrite (replace_comma_free _ (comma_free_format_g v Hc)).
  cbn [to_numeric]. rewrite (parse_format_g v Hc Hf Hn). cbn [bind].
  unfold fillna_float. now rewrite Hn.
Qed.

End SaveLoadFacts.

Module RereadFacts.
Import SpecNumbers SpecRoundTrip SpecWrite SpecRows.
Import SortFacts OrderFacts DecodeFacts SaveLoadFacts.

Lemma row_of_six (a b c d e g : string) :
  row_of (map label expected_cols) [a; b; c; d; e; g] =
  mkRow (CStr a) (CStr b) (CStr c) (CStr d) (CStr e) (CStr g).
Proof. reflexivity. Qed.

Lemma categorical_nan : categorical (CStr (astype_str NaN)) = NaN.
Proof. reflexivity. Qed.

(** The line written for a plain row is decoded as [reread] of it. *)
Lemma decode_row_text (r : Row) :
  plain_row r ->
  set Category (categorical (get Category (row_of (map label expected_cols)
                                             (row_text r))))
    (row_of (map label expected_cols) (row_text r)) = reread r.
Proof.
  intros (Hc & (n & Hn) & _ & (u & Hu) & _ & (b & Hb)).
  unfold row_text. rewrite row_of_six. unfold reread.
  cbn [get set category name quantity unit price is_checked].
  rewrite Hn, Hu, Hb. cbn [fillna isna display]. f_equal.
  destruct Hc as [->|(s & -> & Hs)]; [exact categorical_nan|].
  cbn [astype_str]. unfold categorical.
  apply mem_In in Hs. now rewrite Hs.
Qed.

Lemma row_le_reread (x y : Row) : row_le (reread x) (reread y) = row_le x y.
Proof. reflexivity. Qed.

Lemma all_na_reread (r : Row) : plain_row r -> all_na (reread r) = false.
Proof.
  intros (_ & (n & Hn) & _). unfold all_na, reread.
  cbn [category name]. rewrite Hn. cbn [isna].
  now rewrite andb_false_r.
Qed.

Lemma checked_reread (ck : Cell -> Cell) (r : Row) :
  (ck = App.replace_checked \/ ck = AppCopy.replace_checked) ->
  plain_row r ->
  (b <- astype_bool (ck (is_checked (reread r))) ;;
   Ok (set IsChecked (CBool b) (reread r))) =
  Ok (set IsChecked (is_checked r) (reread r)).
Proof.
  intros Hck (_ & _ & _ & _ & _ & (b & Hb)).
  change (is_checked (reread r)) with (CStr (display (is_checked r))).
  rewrite Hb. destruct Hck as [->| ->], b; reflexivity.
Qed.

Lemma numbers_reread (r : Row) :
  plain_row r ->
  App.coerce_numbers (set IsChecked (is_checked r) (reread r)) = Ok r.
Proof.
  intros (_ & _ & (q & Hq & Hqc & Hqf & Hqn) & _ &
          (p & Hp & Hpc & Hpf & Hpn) & _).
  unfold App.coerce_numbers, reread.
  cbn [set price quantity category name unit is_checked].
  rewrite Hp, Hq.
  rewrite (coerce_decimal_comma_text p Hpc Hpf Hpn),
    (coerce_decimal_comma_text q Hqc Hqf Hqn).
  cbn [bind set price quantity category name unit is_checked].
  destruct r; cbn in *. now subst.
Qed.

Lemma mapM_map_on {A B C : Type} (f : B -> result C) (g : A -> B)
  (h : A -> C) (l : list A) :
  (forall x, In x l -> f (g x) = Ok (h x)) ->
  mapM f (map g l) = Ok (map h l).
Proof.
  induction l as [|x l IH]; intros H; simpl; [reflexivity|].
  rewrite (H x (or_introl eq_refl)); simpl.
  rewrite IH; [reflexivity|]. intros y Hy. apply H. now right.
Qed.

Lemma records_as_wide (df : DataFrame) :
  forallb (fun r => (List.length r =? List.length (map label expected_cols))%nat)
    (map row_text df) = true.
Proof. induction df as [|r df IH]; simpl; auto. Qed.

(** Decoding the grid written for a table of plain rows. *)
Lemma read_grid_of (df : DataFrame) :
  Forall plain_row df ->
  read_worksheet_as_df (grid_of df) = Ok (map reread (sort row_le df)).
Proof.
  intros Hp. unfold grid_of, read_worksheet_as_df.
  rewrite records_as_wide. cbn [negb].
  change (existsb _ expected_cols) with false. cbv iota.
  f_equal. unfold map_col. rewrite !map_map.
  rewrite <- (sort_map row_le row_le reread df row_le_reread).
  f_equal. apply map_ext_in. intros r Hr.
  rewrite Forall_forall in Hp. apply decode_row_text. auto.
Qed.

Lemma load_reread (ck : Cell -> Cell) (df : DataFrame) :
  (ck = App.replace_checked \/ ck = AppCopy.replace_checked) ->
  Forall plain_row df ->
  (items_df <- mapM (fun r => b <- astype_bool (ck (is_checked r)) ;;
                              Ok (set IsChecked (CBool b) r))
                 (dropna_all (map reread df)) ;;
   mapM App.coerce_numbers items_df) = Ok df.
Proof.
  intros Hck Hp. rewrite Forall_forall in Hp.
  assert (E : dropna_all (map reread df) = map reread df).
  { unfold dropna_all. apply forallb_filter_id. apply forallb_forall.
    intros r Hr. apply in_map_iff in Hr as (r0 & <- & Hr0).
    now rewrite all_na_reread by auto. }
  rewrite E.
  rewrite (mapM_map_on _ reread
             (fun r => set IsChecked (is_checked r) (reread r)));
    [|intros r Hr; apply checked_reread; auto].
  cbn [bind].
  rewrite (mapM_map_on _ _ (fun r => r));
    [now rewrite map_id | intros r Hr; apply numbers_reread; auto].
Qed.

(** Loading a sheet that holds the grid written for a table of plain rows
    returns the rows, sorted. *)
Lemma load_grid_of sp list_name (df : DataFrame) :
  Str.mem list_name (titles sp) = true ->
  get_all_values sp list_name = grid_of df ->
  Forall plain_row df ->
  App.get_list_data sp list_name = Ok (sort row_le df) /\
  AppCopy.get_list_data sp list_name = Ok (sort row_le df).
Proof.
  intros Hm Hg Hp.
  assert (Hs : Forall plain_row (sort row_le df)) by now apply sort_Forall.
  unfold App.get_list_data, AppCopy.get_list_data, worksheet.
  rewrite Hm. cbn [bind]. rewrite Hg, (read_grid_of df Hp). cbn [bind].
  split.
  - apply (load_reread App.replace_checked); auto.
  - apply (load_reread AppCopy.replace_checked); auto.
Qed.

Lemma plain_row_writable (r : Row) : plain_row r -> writable r = true.
Proof.
  intros (_ & _ & (q & Hq & _) & _ & (p & Hp & _) & _).
  unfold writable. now rewrite Hq, Hp.
Qed.

Lemma plain_rows_writable (df : DataFrame) :
  Forall plain_row df -> forallb writable df = true.
Proof.
  intros H. apply forallb_forall. rewrite Forall_forall in H.
  intros r Hr. apply plain_row_writable; auto.
Qed.

(** A loaded table is in the order of the sort. *)
Lemma loaded_sorted sp list_name df :
  App.get_list_data sp list_name = Ok df \/
  AppCopy.get_list_data sp list_name = Ok df ->
  Sorted (fun a b => row_le a b = true) df.
Proof.
  intros H. apply load_rows in H as (ck & _ & _ & HF).
  pose proof (sorted_rows_in_order (get_all_values sp list_name)) as HS.
  apply StronglySorted_Sorted.
  eapply (StronglySorted_Forall2 SpecStore.in_order); [|exact HF|exact HS].
  intros a b a' b' (t & _ & ->) (t' & _ & ->) Hab.
  apply in_order_iff in Hab. exact Hab.
Qed.

End RereadFacts.

(* ================================================================== *)
(** * Part IV. Further properties of the code                          *)
(* ================================================================== *)

Import SpecNumbers SpecRoundTrip ExamplesRoundTrip.

Ltac solve_plain_number :=
  eexists; split; [reflexivity|]; split;
  [cbn; repeat split; try discriminate; repeat constructor
  | split; reflexivity].

Ltac solve_plain_row :=
  unfold SpecRoundTrip.plain_row; cbn;
  repeat match goal with
         | |- _ /\ _ => split
         | |- plain_number _ => solve_plain_number
         | |- exists s, CStr _ = CStr s => eexists; reflexivity
         | |- exists b, CBool _ = CBool b => eexists; reflexivity
         | |- _ \/ (exists s, CStr _ = CStr s /\ _) =>
             right; eexists; split; [reflexivity | simpl; auto 10]
         | |- NaN = NaN \/ _ => left; reflexivity
         end.

(** ** Numbers written and read back *)

(** X1.  A number that is not NaN and has at most six significant digits
    is written by [format_to_comma_string] as a text that the decimal
    coercion of [get_list_data] reads back as the same number. *)
Theorem X1_number_round_trip (v : float64) :
  canonical v -> fits 6 v = true -> is_nan v = false ->
  exists s, format_to_comma_string (CFloat v) = Ok s /\
            App.coerce_decimal (CStr s) = Ok (CFloat v).
Proof.
  intros Hc Hf Hn. exists (comma_text (CFloat v)). split.
  - now apply WriteFacts.format_to_comma_string_text.
  - now apply SaveLoadFacts.coerce_decimal_comma_text.
Qed.

Lemma half_canonical : canonical half.
Proof. cbn. repeat split; try discriminate. repeat constructor. Defined.

Lemma X1_number_round_trip_witness :
  canonical half /\ fits 6 half = true /\ is_nan half = false /\
  exists s, format_to_comma_string (CFloat half) = Ok s /\
            App.coerce_decimal (CStr s) = Ok (CFloat half).
Proof.
  split; [exact half_canonical|]. split; [reflexivity|].
  split; [reflexivity|].
  exact (X1_number_round_trip half half_canonical eq_refl eq_refl).
Defined.

(** ** Saving a table and loading it *)

(** X2.  When the two remote calls of [write_df_to_worksheet] go through,
    a table of plain rows written to a list and loaded again by
    [get_list_data] (of [app.py] and of [app copy.py]) is the same table,
    its rows sorted by category and name. *)
Theorem X2_save_then_load f sp list_name (df : DataFrame) :
  clear_fails f = false -> update_fails f = false ->
  Str.mem list_name (titles sp) = true ->
  Forall plain_row df ->
  exists sp',
    write_df_to_worksheet f sp list_name df = Ok (true, sp', []) /\
    App.get_list_data sp' list_name = Ok (sort row_le df) /\
    AppCopy.get_list_data sp' list_name = Ok (sort row_le df).
Proof.
  intros Hc Hu Hm Hp. exists (put sp list_name (grid_of df)). split.
  - apply WriteFacts.write_df_to_worksheet_ok; auto.
    now apply RereadFacts.plain_rows_writable.
  - apply RereadFacts.load_grid_of; auto.
    + now rewrite WriteFacts.titles_put.
    + now apply WriteFacts.get_all_values_put.
Qed.

Lemma two_rows_plain : Forall plain_row two_rows.
Proof.
  constructor; [solve_plain_row|]. constructor; [solve_plain_row|].
  constructor.
Defined.

Lemma X2_save_then_load_witness :
  clear_fails no_faults = false /\ update_fails no_faults = false /\
  Str.mem "L" (titles blank) = true /\ Forall plain_row two_rows /\
  exists sp',
    write_df_to_worksheet no_faults blank "L" two_rows = Ok (true, sp', []) /\
    App.get_list_data sp' "L" = Ok (sort row_le two_rows) /\
    AppCopy.get_list_data sp' "L" = Ok (sort row_le two_rows).
Proof.
  split; [reflexivity|]. split; [reflexivity|]. split; [reflexivity|].
  split; [exact two_rows_plain|].
  exact (X2_save_then_load no_faults blank "L" two_rows eq_refl eq_refl
           eq_refl two_rows_plain).
Defined.

(** ** Editing a list and loading it *)

Module EditFacts.
Import SpecWrite SortFacts OrderFacts.

Lemma delete_item_eq f sp list_name item_name df :
  clear_fails f = false -> update_fails f = false ->
  App.get_list_data sp list_name = Ok df ->
  App.delete_item f sp list_name item_name =
  (put sp list_name
     (grid_of (filter (fun r => ne_str (name r) item_name) df)),
   [st_toast "eliminado"]).
Proof.
  intros Hc Hu Hload.
  pose proof (WriteFacts.load_loaded_rows sp list_name df (or_introl Hload))
    as Hrows.
  destruct (WriteFacts.worksheet_of_load _ _ _ Hload) as [Hws _].
  unfold App.delete_item. rewrite Hload, Hws. simpl.
  rewrite WriteFacts.write_df_to_worksheet_ok; auto.
  apply forallb_forall. intros r Hr. apply filter_In in Hr as [Hr _].
  rewrite Forall_forall in Hrows.
  now apply WriteFacts.loaded_row_writable, Hrows.
Qed.

(** An assignment to a column other than [category] goes through. *)
Lemma loc_assign_plain (df : DataFrame) item_name col new_val :
  col <> Category ->
  App.loc_assign df item_name col new_val =
  Ok (map (fun r => if eq_str (name r) item_name
                    then set col new_val r else r) df).
Proof.
  intros H. destruct df; [reflexivity|].
  unfold App.loc_assign, App.setitem_value.
  destruct col; try congruence; reflexivity.
Qed.




Lemma load_after_put sp list_name (df : DataFrame) :
  Str.mem list_name (titles sp) = true ->
  Forall SpecRoundTrip.plain_row df ->
  App.get_list_data (put sp list_name (grid_of df)) list_name =
  Ok (sort row_le df).
Proof.
  intros Hm Hp. apply RereadFacts.load_grid_of; auto.
  - now rewrite WriteFacts.titles_put.
  - now apply WriteFacts.get_all_values_put.
Qed.

End EditFacts.

(** X3.  After [delete_item] (the remote calls going through) on a list
    whose loaded table has plain rows, loading the list returns that table
    without the rows of the given name: no row of that name is left, and
    the other rows are as they were, in the same order. *)
Theorem X3_delete_then_load f sp list_name item_name (df : DataFrame) :
  clear_fails f = false -> update_fails f = false ->
  App.get_list_data sp list_name = Ok df ->
  Forall plain_row df ->
  App.get_list_data (fst (App.delete_item f sp list_name item_name)) list_name
  = Ok (filter (fun r => ne_str (name r) item_name) df).
Proof.
  intros Hc Hu Hload Hp.
  rewrite (EditFacts.delete_item_eq f sp list_name item_name df Hc Hu Hload).
  cbn [fst].
  destruct (WriteFacts.worksheet_of_load _ _ _ Hload) as [_ Hm].
  rewrite EditFacts.load_after_put; auto.
  - f_equal. apply SortFacts.sort_of_sorted.
    apply SortFacts.Sorted_filter; [exact OrderFacts.row_le_trans|].
    eapply RereadFacts.loaded_sorted. left. exact Hload.
  - apply Forall_forall. intros r Hr. apply filter_In in Hr as [Hr _].
    rewrite Forall_forall in Hp. auto.
Qed.

Lemma stocked_loaded_plain : Forall plain_row ExamplesEdit.stocked_loaded.
Proof.
  constructor; [solve_plain_row|]. constructor; [solve_plain_row|].
  constructor.
Defined.

Lemma X3_delete_then_load_witness :
  clear_fails no_faults = false /\ update_fails no_faults = false /\
  App.get_list_data ExamplesEdit.stocked "L" = Ok ExamplesEdit.stocked_loaded /\
  Forall plain_row ExamplesEdit.stocked_loaded /\
  App.get_list_data
    (fst (App.delete_item no_faults ExamplesEdit.stocked "L" "Pera")) "L"
  = Ok (filter (fun r => ne_str (name r) "Pera") ExamplesEdit.stocked_loaded).
Proof.
  assert (H : App.get_list_data ExamplesEdit.stocked "L"
              = Ok ExamplesEdit.stocked_loaded) by (vm_compute; reflexivity).
  split; [reflexivity|]. split; [reflexivity|]. split; [exact H|].
  split; [exact stocked_loaded_plain|].
  exact (X3_delete_then_load no_faults ExamplesEdit.stocked "L" "Pera"
           ExamplesEdit.stocked_loaded eq_refl eq_refl H stocked_loaded_plain).
Defined.







(** ** The enumeration of the lists *)

(** X6.  [get_all_lists] returns the titles of the tabs in ascending
    order, each as often as it occurs, without the tabs whose title is
    [hoja1] or [sheet1] in any letter case. *)
Theorem X6_lists_sorted_without_reserved (sp : Spreadsheet) :
  Sorted (fun a b => String.leb a b = true) (get_all_lists sp) /\
  Permutation (get_all_lists sp)
    (filter (fun t => negb (reserved t)) (titles sp)) /\
  forall t, In t (get_all_lists sp) <->
            In t (titles sp) /\ Str.lower t <> "hoja1" /\
            Str.lower t <> "sheet1".
Proof.
  split; [apply (SortFacts.sort_sorted String.leb String.leb_total)|].
  split; [apply RepoFacts.lists_perm|].
  intros t. rewrite RepoFacts.lists_in. unfold reserved. cbn [Str.mem].
  rewrite orb_false_r, orb_false_iff, !String.eqb_neq. tauto.
Qed.

(** ** Writes that fail, and what a write leaves alone *)

Module FrameFacts.
Import SpecWrite.

Lemma get_all_values_put_other sp ws g t :
  t <> ws -> get_all_values (put sp ws g) t = get_all_values sp t.
Proof.
  intros Hne. unfold get_all_values, put.
  induction sp as [|w sp IH]; [reflexivity|]. cbn [map find].
  destruct (String.eqb (title w) ws) eqn:E.
  - apply String.eqb_eq in E. cbn [title].
    assert (E1 : String.eqb ws t = false)
      by (apply String.eqb_neq; congruence).
    assert (E2 : String.eqb (title w) t = false)
      by (apply String.eqb_neq; congruence).
    now rewrite E1, E2.
  - destruct (String.eqb (title w) t); [reflexivity | exact IH].
Qed.

Lemma write_frame f sp ws df b sp' msgs t :
  write_df_to_worksheet f sp ws df = Ok (b, sp', msgs) ->
  t <> ws -> get_all_values sp' t = get_all_values sp t.
Proof.
  unfold write_df_to_worksheet, clear, update.
  destruct (values_of df); simpl; [|discriminate].
  destruct (clear_fails f); [now intros [= _ <- _]|].
  destruct (update_fails f); intros [= _ <- _] Hne;
    now rewrite ?get_all_values_put_other.
Qed.

Lemma worksheet_handle sp t ws : worksheet sp t = Ok ws -> ws = t.
Proof.
  unfold worksheet. destruct (Str.mem t (titles sp)); [|discriminate].
  now intros [= <-].
Qed.

Lemma delete_item_frame f sp list_name item_name t :
  t <> list_name ->
  titles (fst (App.delete_item f sp list_name item_name)) = titles sp /\
  get_all_values (fst (App.delete_item f sp list_name item_name)) t =
  get_all_values sp t.
Proof.
  intros Hne. unfold App.delete_item.
  destruct (App.get_list_data sp list_name) as [df|e]; cbn [bind];
    [|now split].
  destruct (worksheet sp list_name) as [ws|e] eqn:Ews; cbn [bind];
    [|now split].
  apply worksheet_handle in Ews. subst ws.
  destruct (write_df_to_worksheet f sp list_name _) as [[[b sp'] msgs]|e]
    eqn:Ew; cbn [bind fst]; [|now split].
  split; [eapply RepoFacts.titles_write | eapply write_frame]; eauto.
Qed.

Lemma save_instant_edit_frame f sp list_name item_name col new_val t :
  t <> list_name ->
  titles (fst (App.save_instant_edit f sp list_name item_name col new_val))
  = titles sp /\
  get_all_values
    (fst (App.save_instant_edit f sp list_name item_name col new_val)) t =
  get_all_values sp t.
Proof.
  intros Hne. unfold App.save_instant_edit.
  destruct (App.get_list_data sp list_name) as [df|e]; cbn [bind];
    [|now split].
  destruct (App.loc_assign df item_name col new_val) as [df'|e];
    cbn [bind]; [|now split].
  destruct (worksheet sp list_name) as [ws|e] eqn:Ews; cbn [bind];
    [|now split].
  apply worksheet_handle in Ews. subst ws.
  destruct (write_df_to_worksheet f sp list_name _) as [[[b sp'] msgs]|e]
    eqn:Ew; cbn [bind fst]; [|now split].
  split; [eapply RepoFacts.titles_write | eapply write_frame]; eauto.
Qed.

Lemma quick_add_frame f sp list_name q_n q_c q_q q_u sp' msgs t :
  App.quick_add f sp list_name q_n q_c q_q q_u = Ok (sp', msgs) ->
  t <> list_name ->
  titles sp' = titles sp /\ get_all_values sp' t = get_all_values sp t.
Proof.
  unfold App.quick_add.
  destruct (App.get_list_data sp list_name) as [df|e];
    [|now intros [= <- _]].
  destruct (worksheet sp list_name) as [ws|e] eqn:Ews; cbn [bind];
    [|discriminate].
  apply worksheet_handle in Ews. subst ws.
  destruct (write_df_to_worksheet f sp list_name _) as [[[b sp1] msgs1]|e]
    eqn:Ew; cbn [bind]; [|discriminate].
  intros [= <- _] Hne.
  split; [eapply RepoFacts.titles_write | eapply write_frame]; eauto.
Qed.

End FrameFacts.

(** X7.  A write whose [clear] or [update] call fails returns [False] and
    shows an error; the tabs stay the same, and the list keeps its content
    when [clear] failed but is left empty when [clear] went through and
    [update] failed. *)
Theorem X7_failed_write f sp ws (df : DataFrame) :
  Str.mem ws (titles sp) = true ->
  forallb SpecWrite.writable df = true ->
  clear_fails f || update_fails f = true ->
  exists sp',
    write_df_to_worksheet f sp ws df =
      Ok (false, sp', [st_error "Error guardando"]) /\
    titles sp' = titles sp /\
    get_all_values sp' ws =
      if clear_fails f then get_all_values sp ws else [].
Proof.
  intros Hm Hw Hf. unfold write_df_to_worksheet.
  destruct (WriteFacts.values_of_writable df Hw) as (values & -> & _).
  cbn [bind]. unfold clear, update.
  destruct (clear_fails f); [eexists; repeat split|].
  cbn [orb] in Hf. rewrite Hf.
  eexists. split; [reflexivity|].
  split; [apply WriteFacts.titles_put|].
  now apply WriteFacts.get_all_values_put.
Qed.

Lemma X7_failed_write_witness :
  Str.mem "L" (titles ExamplesEdit.stocked) = true /\
  forallb SpecWrite.writable ExamplesEdit.stocked_loaded = true /\
  clear_fails ExamplesFaults.update_breaks ||
    update_fails ExamplesFaults.update_breaks = true /\
  exists sp',
    write_df_to_worksheet ExamplesFaults.update_breaks ExamplesEdit.stocked
      "L" ExamplesEdit.stocked_loaded =
      Ok (false, sp', [st_error "Error guardando"]) /\
    titles sp' = titles ExamplesEdit.stocked /\
    get_all_values sp' "L" =
      if clear_fails ExamplesFaults.update_breaks
      then get_all_values ExamplesEdit.stocked "L" else [].
Proof.
  split; [reflexivity|]. split; [reflexivity|]. split; [reflexivity|].
  exact (X7_failed_write ExamplesFaults.update_breaks ExamplesEdit.stocked
           "L" ExamplesEdit.stocked_loaded eq_refl eq_refl eq_refl).
Defined.

(** X8.  [delete_item], [save_instant_edit] and the quick-add form, whatever
    fails in them, leave the set of tabs as it is and do not change the
    content of any list other than the one they are called on. *)
Theorem X8_edits_touch_one_list f sp list_name item_name (col : Col)
  (new_val : Cell) q_n q_c (q_q : float64) q_u (t : string) :
  t <> list_name ->
  (titles (fst (App.delete_item f sp list_name item_name)) = titles sp /\
   get_all_values (fst (App.delete_item f sp list_name item_name)) t =
   get_all_values sp t) /\
  (titles (fst (App.save_instant_edit f sp list_name item_name col new_val))
   = titles sp /\
   get_all_values
     (fst (App.save_instant_edit f sp list_name item_name col new_val)) t =
   get_all_values sp t) /\
  (forall sp' msgs,
     App.quick_add f sp list_name q_n q_c q_q q_u = Ok (sp', msgs) ->
     titles sp' = titles sp /\ get_all_values sp' t = get_all_values sp t).
Proof.
  intros Hne. split; [now apply FrameFacts.delete_item_frame|].
  split; [now apply FrameFacts.save_instant_edit_frame|].
  intros sp' msgs H. eapply FrameFacts.quick_add_frame; eauto.
Qed.

Lemma X8_edits_touch_one_list_witness :
  "M" <> "L" /\
  (titles (fst (App.delete_item no_faults ExamplesEdit.stocked "L" "Pera"))
   = titles ExamplesEdit.stocked /\
   get_all_values
     (fst (App.delete_item no_faults ExamplesEdit.stocked "L" "Pera")) "M" =
   get_all_values ExamplesEdit.stocked "M") /\
  (titles (fst (App.save_instant_edit no_faults ExamplesEdit.stocked "L"
                  "Pera" Unit (CStr "g")))
   = titles ExamplesEdit.stocked /\
   get_all_values
     (fst (App.save_instant_edit no_faults ExamplesEdit.stocked "L" "Pera"
             Unit (CStr "g"))) "M" =
   get_all_values ExamplesEdit.stocked "M") /\
  (forall sp' msgs,
     App.quick_add no_faults ExamplesEdit.stocked "L" "Pan" "📦 Otros" half
       "kg" = Ok (sp', msgs) ->
     titles sp' = titles ExamplesEdit.stocked /\
     get_all_values sp' "M" = get_all_values ExamplesEdit.stocked "M").
Proof.
  assert (Hne : "M" <> "L") by discriminate.
  split; [exact Hne|].
  exact (X8_edits_touch_one_list no_faults ExamplesEdit.stocked "L" "Pera"
           Unit (CStr "g") "Pan" "📦 Otros" half "kg" "M" Hne).
Defined.

(** ** The planning view of [app copy.py] *)

Module EditorFacts.
Import AppCopyEditor SpecEditor SpecWrite.

Lemma Forall2_in_r {A B : Type} (P : A -> B -> Prop) l l' (y : B) :
  Forall2 P l l' -> In y l' -> exists x, In x l /\ P x y.
Proof.
  induction 1 as [|a b l l' Hab HF IH]; intros Hy; [contradiction|].
  destruct Hy as [<-|Hy]; [exists a; split; [now left | assumption]|].
  destruct (IH Hy) as (x & Hx & Hxy). exists x. split; [now right|assumption].
Qed.

Lemma to_numeric_total (c : Cell) :
  exists v, to_numeric errors_coerce c = Ok v.
Proof.
  destruct c as [s|b|x|]; cbn [to_numeric]; eauto.
  destruct (parse s); eauto.
Qed.

Lemma df_to_save_rows (edited_df : list Edited) :
  exists df, df_to_save edited_df = Ok df /\
             Forall2 saved_as (filter named edited_df) df.
Proof.
  unfold df_to_save.
  induction edited_df as [|e l (df & IH & HF)].
  - exists []. split; [reflexivity | constructor].
  - cbn [map filter dropna_name]. unfold named at 1.
    cbn [name]. destruct (isna (e_name e)); cbn [negb].
    + exists df. split; assumption.
    + destruct (to_numeric_total (e_quantity e)) as (v & Hv).
      exists (mkRow (e_category e) (e_name e) (CFloat (fillna_float zero v))
                (e_unit e) (CFloat zero) (CBool false) :: df).
      split.
      * revert IH. unfold dropna_name, AppCopy.fill_checked,
          App.to_numeric_col.
        cbn [mapM is_checked fillna isna astype_bool bind].
        destruct (mapM _ (filter _ _)) as [d1|]; cbn [bind]; [|discriminate].
        cbn [mapM get set price to_numeric bind category name quantity unit
               is_checked].
        destruct (mapM _ d1) as [d2|]; cbn [bind]; [|discriminate].
        cbn [mapM get set price to_numeric bind category name quantity unit
               is_checked].
        rewrite Hv. cbn [bind].
        destruct (mapM _ d2) as [d3|]; cbn [bind]; [|discriminate].
        now intros [= ->].
      * constructor; [|exact HF].
        unfold saved_as; cbn. repeat split. eauto.
Qed.

Lemma saved_as_writable e r : saved_as e r -> writable r = true.
Proof.
  intros (_ & _ & _ & (v & _ & Hq) & Hp & _). unfold writable.
  now rewrite Hq, Hp.
Qed.

End EditorFacts.

(** X9.  The "Guardar Cambios" button of the planning view of
    [app copy.py], the remote calls going through, writes one line for each
    edited row that has a name, with the category, name and unit of the
    editor, the quantity made a number, and always price 0.0 and
    [is_checked] false: the prices and the check marks that the list held
    are not kept. *)
Theorem X9_planning_save_resets_prices f sp list_name
  (edited_df : list AppCopyEditor.Edited) :
  clear_fails f = false -> update_fails f = false ->
  Str.mem list_name (titles sp) = true ->
  exists df,
    AppCopyEditor.save_planning f sp list_name edited_df =
      (put sp list_name (SpecWrite.grid_of df),
       [st_success "¡Lista guardada con éxito!"]) /\
    Forall2 SpecEditor.saved_as (filter SpecEditor.named edited_df) df /\
    Forall (fun line => nth 4 line "" = "0" /\ nth 5 line "" = "FALSE")
      (map SpecWrite.row_text df).
Proof.
  intros Hc Hu Hm.
  destruct (EditorFacts.df_to_save_rows edited_df) as (df & Hdf & HF).
  exists df. split; [|split; [exact HF|]].
  - unfold AppCopyEditor.save_planning, worksheet.
    rewrite Hdf, Hm. cbn [bind].
    rewrite WriteFacts.write_df_to_worksheet_ok; auto.
    apply forallb_forall. intros r Hr.
    destruct (EditorFacts.Forall2_in_r _ _ _ _ HF Hr) as (e & _ & He).
    eapply EditorFacts.saved_as_writable; eauto.
  - apply Forall_forall. intros line Hl.
    apply in_map_iff in Hl as (r & <- & Hr).
    destruct (EditorFacts.Forall2_in_r _ _ _ _ HF Hr)
      as (e & _ & (_ & _ & _ & _ & Hp & Hk)).
    unfold SpecWrite.row_text. cbn [nth]. rewrite Hp, Hk. split; reflexivity.
Qed.

Lemma X9_planning_save_resets_prices_witness :
  clear_fails no_faults = false /\ update_fails no_faults = false /\
  Str.mem "L" (titles ExamplesEdit.stocked) = true /\
  exists df,
    AppCopyEditor.save_planning no_faults ExamplesEdit.stocked "L"
      SpecEditor.stocked_edited =
      (put ExamplesEdit.stocked "L" (SpecWrite.grid_of df),
       [st_success "¡Lista guardada con éxito!"]) /\
    Forall2 SpecEditor.saved_as
      (filter SpecEditor.named SpecEditor.stocked_edited) df /\
    Forall (fun line => nth 4 line "" = "0" /\ nth 5 line "" = "FALSE")
      (map SpecWrite.row_text df).
Proof.
  split; [reflexivity|]. split; [reflexivity|]. split; [reflexivity|].
  exact (X9_planning_save_resets_prices no_faults ExamplesEdit.stocked "L"
           SpecEditor.stocked_edited eq_refl eq_refl eq_refl).
Defined.

(** ** The shopping form *)

Module ShopFormFacts.
Import ShopForm SpecShopForm SpecWrite.

Lemma indexed_from_map (g : nat * Row -> Row) (k : nat) (df : DataFrame) :
  indexed_from k (map g (indexed_from k df)) =
  map (fun jr => (fst jr, g jr)) (indexed_from k df).
Proof.
  revert k. induction df as [|r df IH]; intros k; [reflexivity|].
  cbn [indexed_from map fst]. now rewrite IH.
Qed.

Lemma map_snd_indexed (k : nat) (df : DataFrame) :
  map snd (indexed_from k df) = df.
Proof.
  revert k. induction df as [|r df IH]; intros k; [reflexivity|].
  cbn [indexed_from map snd]. now rewrite IH.
Qed.

Lemma indexed_from_ge (k j : nat) (r : Row) (df : DataFrame) :
  In (j, r) (indexed_from k df) -> (k <= j)%nat.
Proof.
  revert k. induction df as [|r0 df IH]; intros k; [contradiction|].
  intros [[= -> _]|H]; [lia|]. apply IH in H. lia.
Qed.

Lemma fold_updates (ups : list (nat * (bool * float64))) (df : DataFrame) :
  fold_left
    (fun df u =>
       loc_set (fst u) Price (CFloat (snd (snd u)))
         (loc_set (fst u) IsChecked (CBool (fst (snd u))) df))
    ups df =
  map (fun jr => after ups (fst jr) (snd jr)) (iterrows df).
Proof.
  revert df. induction ups as [|u ups IH]; intros df.
  - cbn [fold_left after]. unfold iterrows. now rewrite map_snd_indexed.
  - cbn [fold_left]. rewrite IH. unfold loc_set, iterrows.
    rewrite !indexed_from_map, !map_map. apply map_ext. intros [j r].
    cbn [fst snd after fold_left].
    destruct (j =? fst u)%nat; reflexivity.
Qed.

Lemma after_same (widgets : Widgets) (ups : list (nat * (bool * float64)))
  (j : nat) (r : Row) :
  (forall u, In u ups -> snd u = widgets (fst u)) ->
  after ups j r =
  if existsb (fun u => (j =? fst u)%nat) ups
  then set Price (CFloat (snd (widgets j)))
         (set IsChecked (CBool (fst (widgets j))) r)
  else r.
Proof.
  intros Hw. revert r. induction ups as [|u ups IH]; intros r;
    [reflexivity|].
  cbn [after fold_left existsb].
  assert (Hu : snd u = widgets (fst u)) by (apply Hw; now left).
  assert (Hups : forall u, In u ups -> snd u = widgets (fst u))
    by (intros v Hv; apply Hw; now right).
  specialize (IH Hups). unfold after in IH.
  destruct (Nat.eqb_spec j (fst u)) as [->|Hne]; cbn [orb].
  - rewrite IH, Hu. destruct (existsb _ ups); reflexivity.
  - apply IH.
Qed.

Lemma existsb_flat_map {A B : Type} (p : B -> bool) (g : A -> list B)
  (l : list A) :
  existsb p (flat_map g l) = existsb (fun a => existsb p (g a)) l.
Proof.
  induction l as [|a l IH]; [reflexivity|].
  cbn [flat_map existsb]. now rewrite existsb_app, IH.
Qed.

Lemma existsb_same {A : Type} (p q : A -> bool) (l : list A) :
  (forall a, p a = q a) -> existsb p l = existsb q l.
Proof.
  intros H. induction l as [|a l IH]; [reflexivity|].
  cbn [existsb]. now rewrite H, IH.
Qed.

Lemma label_found (w : Widgets) (q : Row -> bool) (k j : nat) (r : Row)
  (df : DataFrame) :
  In (j, r) (indexed_from k df) ->
  existsb (fun u : nat * (bool * float64) => (j =? fst u)%nat)
    (map (fun ir => (fst ir, w (fst ir)))
       (filter (fun ir => q (snd ir)) (indexed_from k df))) = q r.
Proof.
  revert k. induction df as [|r0 df IH]; intros k; [contradiction|].
  cbn [indexed_from filter snd]. intros [[= -> ->]|H].
  - destruct (q r) eqn:Hq.
    + cbn [map existsb fst]. now rewrite Nat.eqb_refl.
    + destruct (existsb _ _) eqn:E; [|reflexivity].
      apply existsb_exists in E as (u & Hu & Eu).
      apply in_map_iff in Hu as ([i r1] & <- & Hi).
      apply filter_In in Hi as [Hi _]. apply indexed_from_ge in Hi.
      cbn [fst] in Eu. apply Nat.eqb_eq in Eu. lia.
  - pose proof (indexed_from_ge _ _ _ _ H) as Hge.
    destruct (q r0); [cbn [map existsb fst]|]; rewrite ?(IH _ H);
      [|reflexivity].
    destruct (Nat.eqb_spec j k); [lia | reflexivity].
Qed.

Lemma updated_labels (widgets : Widgets) (items_df : DataFrame) (j : nat)
  (r : Row) :
  In (j, r) (iterrows items_df) ->
  existsb (fun u => (j =? fst u)%nat) (temp_updates items_df widgets)
  = shown r.
Proof.
  intros H. unfold temp_updates, shown. rewrite existsb_flat_map.
  apply existsb_same. intros cat.
  exact (label_found widgets (fun r => eq_str (category r) cat) 0 j r
           items_df H).
Qed.

(** The table that "Guardar Todo" saves. *)
Lemma df_save_rows (items_df : DataFrame) (widgets : Widgets) :
  df_save items_df widgets =
  map (fun ir => submitted widgets (fst ir) (snd ir)) (iterrows items_df).
Proof.
  unfold df_save. rewrite fold_updates. apply map_ext_in. intros [j r] H.
  cbn [fst snd].
  rewrite (after_same widgets).
  - rewrite (updated_labels widgets items_df j r H). reflexivity.
  - intros u Hu. unfold temp_updates in Hu.
    apply in_flat_map in Hu as (cat & _ & Hu).
    apply in_map_iff in Hu as (ir & <- & _). reflexivity.
Qed.

Lemma submitted_kept (widgets : Widgets) (i : nat) (r : Row) :
  category (submitted widgets i r) = category r /\
  name (submitted widgets i r) = name r /\
  quantity (submitted widgets i r) = quantity r /\
  unit (submitted widgets i r) = unit r /\
  (shown r = false -> submitted widgets i r = r) /\
  (shown r = true ->
   price (submitted widgets i r) = CFloat (snd (widgets i)) /\
   is_checked (submitted widgets i r) = CBool (fst (widgets i))).
Proof.
  unfold submitted. destruct (shown r); repeat split; congruence.
Qed.

Lemma submitted_writable (widgets : Widgets) (i : nat) (r : Row) :
  writable r = true -> writable (submitted widgets i r) = true.
Proof.
  unfold submitted. destruct (shown r); [|auto].
  unfold writable. cbn [set quantity price is_text negb].
  rewrite !andb_true_iff. tauto.
Qed.

End ShopFormFacts.

Lemma Forall2_indexed (P : Row -> Row -> Prop) (g : nat * Row -> Row)
  (k : nat) (df : DataFrame) :
  (forall i r, P r (g (i, r))) ->
  Forall2 P df (map g (ShopForm.indexed_from k df)).
Proof.
  intros H. revert k. induction df as [|r df IH]; intros k; constructor; auto.
Qed.

(** X10.  The "Guardar Todo" button of the shopping form, the remote calls
    going through, writes the loaded table with as many rows in the same
    order: each row shown in the form (its category is one of the
    enumeration) gets the values of its check box and price input, its
    category, name, quantity and unit being kept, and each row that the form
    does not show is written as it was loaded. *)
Theorem X10_save_all_keeps_rows f sp list_name (items_df : DataFrame)
  (widgets : ShopForm.Widgets) :
  clear_fails f = false -> update_fails f = false ->
  App.get_list_data sp list_name = Ok items_df ->
  let saved :=
    map (fun ir => SpecShopForm.submitted widgets (fst ir) (snd ir))
      (ShopForm.iterrows items_df) in
  ShopForm.save_all f sp list_name items_df widgets =
    Ok (put sp list_name (SpecWrite.grid_of saved), []) /\
  Forall2
    (fun old new =>
       category new = category old /\ name new = name old /\
       quantity new = quantity old /\ unit new = unit old /\
       (SpecShopForm.shown old = false -> new = old))
    items_df saved.
Proof.
  intros Hc Hu Hload saved. split.
  - pose proof (WriteFacts.load_loaded_rows sp list_name items_df
                  (or_introl Hload)) as Hrows.
    destruct (WriteFacts.worksheet_of_load _ _ _ Hload) as [Hws _].
    unfold ShopForm.save_all. rewrite Hws. cbn [bind].
    rewrite ShopFormFacts.df_save_rows. fold saved.
    rewrite WriteFacts.write_df_to_worksheet_ok; auto.
    apply forallb_forall. intros r Hr. unfold saved in Hr.
    apply in_map_iff in Hr as ([i r0] & <- & Hr0).
    apply ShopFormFacts.submitted_writable.
    rewrite Forall_forall in Hrows. apply WriteFacts.loaded_row_writable.
    apply Hrows. rewrite <- (ShopFormFacts.map_snd_indexed 0 items_df).
    apply in_map_iff. exists (i, r0). split; [reflexivity | exact Hr0].
  - apply Forall2_indexed. intros i r. cbn [fst snd].
    pose proof (ShopFormFacts.submitted_kept widgets i r). tauto.
Qed.

Lemma X10_save_all_keeps_rows_witness :
  clear_fails no_faults = false /\ update_fails no_faults = false /\
  App.get_list_data ExamplesEdit.stocked "L" = Ok ExamplesEdit.stocked_loaded /\
  let saved :=
    map (fun ir => SpecShopForm.submitted SpecShopForm.all_checked
                     (fst ir) (snd ir))
      (ShopForm.iterrows ExamplesEdit.stocked_loaded) in
  ShopForm.save_all no_faults ExamplesEdit.stocked "L"
    ExamplesEdit.stocked_loaded SpecShopForm.all_checked =
    Ok (put ExamplesEdit.stocked "L" (SpecWrite.grid_of saved), []) /\
  Forall2
    (fun old new =>
       category new = category old /\ name new = name old /\
       quantity new = quantity old /\ unit new = unit old /\
       (SpecShopForm.shown old = false -> new = old))
    ExamplesEdit.stocked_loaded saved.
Proof.
  assert (H : App.get_list_data ExamplesEdit.stocked "L"
              = Ok ExamplesEdit.stocked_loaded) by (vm_compute; reflexivity).
  split; [reflexivity|]. split; [reflexivity|]. split; [exact H|].
  exact (X10_save_all_keeps_rows no_faults ExamplesEdit.stocked "L"
           ExamplesEdit.stocked_loaded SpecShopForm.all_checked
           eq_refl eq_refl H).
Defined.

(** ** A new list *)

Module NewListFacts.
Import SpecWrite.

Lemma titles_filter (p : string -> bool) (sp : Spreadsheet) :
  titles (filter (fun w => p (title w)) sp) = filter p (titles sp).
Proof.
  unfold titles. induction sp as [|w sp IH]; [reflexivity|].
  cbn [filter map]. destruct (p (title w)); cbn [map]; now rewrite IH.
Qed.

Lemma evict_mem f sp (l : list string) name :
  Str.mem name (titles sp) = false ->
  Str.mem name (titles (App.evict f sp l)) = false.
Proof.
  intros H. unfold App.evict.
  destruct (10 <=? List.length l)%nat; [|exact H].
  unfold worksheet. destruct (Str.mem (hd "" l) (titles sp)); cbn [bind];
    [|exact H].
  unfold del_worksheet. destruct (del_fails f); [exact H|].
  rewrite (titles_filter (fun t => negb (String.eqb t (hd "" l)))).
  now apply CreateFacts.mem_filter_false.
Qed.

Lemma not_listed sp name :
  Str.mem name (titles sp) = false -> Str.mem name (get_all_lists sp) = false.
Proof.
  intros H. destruct (Str.mem name (get_all_lists sp)) eqn:E; [|reflexivity].
  apply DecodeFacts.mem_In, RepoFacts.lists_in in E as [E _].
  apply DecodeFacts.mem_In in E. congruence.
Qed.

Lemma mem_last (name : string) (l : list string) :
  Str.mem name (l ++ [name]) = true.
Proof. apply DecodeFacts.mem_In, in_or_app. right. now left. Qed.

Lemma titles_snoc sp (w : Worksheet) : titles (sp ++ [w]) = titles sp ++ [title w].
Proof. unfold titles. now rewrite map_app. Qed.

(** The creation of a list in [app.py], once the seed is known. *)
Lemma app_create_eq f sp name tid (df0 df1 df2 : DataFrame) :
  Str.mem name (titles sp) = false ->
  add_fails f = false -> clear_fails f = false -> update_fails f = false ->
  App.seed (App.evict f sp (get_all_lists sp)) tid = Ok df0 ->
  App.to_numeric_col Price df0 = Ok df1 ->
  App.to_numeric_col Quantity df1 = Ok df2 ->
  forallb writable df2 = true ->
  App.create_list f sp name tid =
  Ok (App.Done
        (put (App.evict f sp (get_all_lists sp) ++ [mkWorksheet name []])
           name (grid_of df2)) []).
Proof.
  intros Hname Ha Hc Hu H0 H1 H2 Hw. unfold App.create_list.
  rewrite (not_listed sp name Hname), H0. cbn [bind].
  rewrite H1. cbn [bind]. rewrite H2. cbn [bind].
  unfold add_worksheet.
  rewrite Ha, (evict_mem f sp (get_all_lists sp) name Hname). cbn [orb bind].
  rewrite WriteFacts.write_df_to_worksheet_ok by auto. reflexivity.
Qed.

Lemma load_new_list sp name (df : DataFrame) :
  Forall SpecRoundTrip.plain_row df ->
  let sp' := put (sp ++ [mkWorksheet name []]) name (grid_of df) in
  App.get_list_data sp' name = Ok (sort row_le df) /\
  AppCopy.get_list_data sp' name = Ok (sort row_le df).
Proof.
  intros Hp sp'.
  assert (Hm : Str.mem name (titles (sp ++ [mkWorksheet name []])) = true)
    by (rewrite titles_snoc; apply mem_last).
  apply RereadFacts.load_grid_of; auto.
  - unfold sp'. now rewrite WriteFacts.titles_put.
  - now apply WriteFacts.get_all_values_put.
Qed.

Lemma to_numeric_col_plain (c : Col) (df : DataFrame) :
  c = Price \/ c = Quantity ->
  Forall SpecRoundTrip.plain_row df -> App.to_numeric_col c df = Ok df.
Proof.
  intros Hc Hp. unfold App.to_numeric_col.
  rewrite (mapM_map _ (fun r => r)); [now rewrite map_id|].
  intros r Hr. rewrite Forall_forall in Hp.
  destruct (Hp r Hr) as (_ & _ & (q & Hq & _ & _ & Hqn) & _ &
                         (p & Hpr & _ & _ & Hpn) & _).
  destruct r as [rc rn rq ru rp rk]. cbn in Hq, Hpr. subst rq rp.
  destruct Hc as [-> | ->]; cbn [get set price quantity to_numeric bind];
    unfold fillna_float; rewrite ?Hqn, ?Hpn; reflexivity.
Qed.

Lemma template_plain : Forall SpecRoundTrip.plain_row Template.get_default_template.
Proof.
  unfold Template.get_default_template.
  repeat (constructor; [solve_plain_row|]). constructor.
Qed.

End NewListFacts.

(** X11.  In [app.py], creating a list under a title that no tab has, the
    remote calls for adding and writing it going through, empty or from the
    default template, and loading it returns the empty table, respectively
    the 48 items of the template with their quantities and prices, sorted
    by category and name. *)
Theorem X11_new_list_loads f sp name (tid : option string) :
  Str.mem name (titles sp) = false ->
  add_fails f = false -> clear_fails f = false -> update_fails f = false ->
  tid = None \/ tid = Some "default" ->
  exists sp',
    App.create_list f sp name tid = Ok (App.Done sp' []) /\
    App.get_list_data sp' name =
    Ok (sort row_le
          (match tid with
           | None => []
           | Some _ => Template.get_default_template
           end)).
Proof.
  intros Hname Ha Hc Hu Htid.
  set (df := match tid with
             | None => []
             | Some _ => Template.get_default_template
             end).
  assert (Hp : Forall plain_row df).
  { unfold df. destruct tid; [apply NewListFacts.template_plain|constructor]. }
  assert (Hs : App.seed (App.evict f sp (get_all_lists sp)) tid = Ok df).
  { unfold df. destruct Htid as [-> | ->]; reflexivity. }
  eexists. split.
  - apply (NewListFacts.app_create_eq f sp name tid df df df); auto.
    + apply NewListFacts.to_numeric_col_plain; auto.
    + apply NewListFacts.to_numeric_col_plain; auto.
    + now apply RereadFacts.plain_rows_writable.
  - now apply NewListFacts.load_new_list.
Qed.

Lemma X11_new_list_loads_witness :
  Str.mem "Lista 2024-08-17" (titles ExamplesLists.ten) = false /\
  add_fails no_faults = false /\ clear_fails no_faults = false /\
  update_fails no_faults = false /\
  (Some "default" = None \/ Some "default" = Some "default") /\
  exists sp',
    App.create_list no_faults ExamplesLists.ten "Lista 2024-08-17"
      (Some "default") = Ok (App.Done sp' []) /\
    App.get_list_data sp' "Lista 2024-08-17" =
    Ok (sort row_le Template.get_default_template).
Proof.
  assert (Ht : Some "default" = None \/ Some "default" = Some "default")
    by (right; reflexivity).
  split; [reflexivity|]. split; [reflexivity|]. split; [reflexivity|].
  split; [reflexivity|]. split; [exact Ht|].
  exact (X11_new_list_loads no_faults ExamplesLists.ten "Lista 2024-08-17"
           (Some "default") eq_refl eq_refl eq_refl eq_refl Ht).
Defined.

Module EvictionFacts.

Lemma mem_filter_true (x : string) (p : string -> bool) (l : list string) :
  Str.mem x l = true -> p x = true -> Str.mem x (filter p l) = true.
Proof.
  intros Hx Hp. apply DecodeFacts.mem_In, filter_In.
  split; [now apply DecodeFacts.mem_In | exact Hp].
Qed.

Lemma mem_filter_out (x : string) (l : list string) :
  Str.mem x (filter (fun t => negb (String.eqb t x)) l) = false.
Proof.
  destruct (Str.mem x (filter _ l)) eqn:E; [|reflexivity].
  apply DecodeFacts.mem_In, filter_In in E as [_ E].
  now rewrite String.eqb_refl in E.
Qed.

End EvictionFacts.

(** X12.  In [app copy.py], when ten or more lists exist and the oldest one
    has been deleted, a creation that then fails (the service refuses to
    add the tab, or a tab that is not listed already has the title) shows
    an error and stops: the oldest list stays deleted and no list is
    added. *)
Theorem X12_failed_creation_after_eviction f sp name
  (template_id : option string) :
  (10 <= List.length (get_all_lists sp))%nat ->
  name <> "" -> Str.mem name (get_all_lists sp) = false ->
  del_fails f = false ->
  add_fails f || Str.mem name (titles sp) = true ->
  template_id = None \/ template_id = Some "default_template" ->
  exists sp1,
    AppCopy.create_list f sp name template_id =
      Ok (App.Stopped sp1 [st_toast "Borrando la más antigua";
                           st_error "Error al crear la nueva hoja"]) /\
    titles sp1 =
      filter (fun t => negb (String.eqb t (hd "" (get_all_lists sp))))
        (titles sp) /\
    Str.mem (hd "" (get_all_lists sp)) (titles sp) = true /\
    Str.mem (hd "" (get_all_lists sp)) (titles sp1) = false.
Proof.
  intros H10 Hne Hl Hd Hadd Htid.
  assert (Hnil : get_all_lists sp <> []).
  { destruct (get_all_lists sp); simpl in *; [lia | discriminate]. }
  pose proof (CreateFacts.oldest_is_tab sp Hnil) as Hold.
  set (o := hd "" (get_all_lists sp)) in *.
  set (sp1 := filter (fun w => negb (String.eqb (title w) o)) sp).
  assert (Ht : titles sp1 =
               filter (fun t => negb (String.eqb t o)) (titles sp))
    by apply (NewListFacts.titles_filter (fun t => negb (String.eqb t o))).
  exists sp1. split; [|split; [exact Ht|split; [exact Hold|]]].
  - unfold AppCopy.create_list.
    apply String.eqb_neq in Hne. rewrite Hne, Hl.
    apply Nat.leb_le in H10. rewrite H10.
    unfold worksheet. fold o. rewrite Hold. cbn [bind].
    unfold del_worksheet. rewrite Hd. fold sp1.
    assert (Hs : exists df, AppCopy.seed sp1 template_id = Ok df /\
                            Forall plain_row df).
    { destruct Htid as [-> | ->].
      - exists []. split; [reflexivity | constructor].
      - exists Template.get_default_template.
        split; [reflexivity | apply NewListFacts.template_plain]. }
    destruct Hs as (df & -> & Hp). cbn [bind].
    rewrite (NewListFacts.to_numeric_col_plain Price df) by auto.
    cbn [bind].
    rewrite (NewListFacts.to_numeric_col_plain Quantity df) by auto.
    cbn [bind].
    assert (Hk : AppCopy.fill_checked df = Ok df).
    { unfold AppCopy.fill_checked.
      rewrite (mapM_map _ (fun r => r)); [now rewrite map_id|].
      intros r Hr. rewrite Forall_forall in Hp.
      destruct (Hp r Hr) as (_ & _ & _ & _ & _ & (b & Hb)).
      destruct r; cbn in Hb; subst. reflexivity. }
    rewrite Hk. cbn [bind].
    assert (Hraise : add_worksheet f sp1 name = Raise APIError).
    { unfold add_worksheet.
      destruct (add_fails f); [reflexivity|]. cbn [orb] in Hadd |- *.
      rewrite Ht, EvictionFacts.mem_filter_true; auto.
      destruct (String.eqb name o) eqn:E; [|reflexivity].
      apply String.eqb_eq in E. subst name.
      assert (Ho : Str.mem o (get_all_lists sp) = true).
      { apply DecodeFacts.mem_In. unfold o.
        destruct (get_all_lists sp); [congruence | now left]. }
      congruence. }
    rewrite Hraise. reflexivity.
  - rewrite Ht. apply EvictionFacts.mem_filter_out.
Qed.

Lemma X12_failed_creation_after_eviction_witness :
  (10 <= List.length (get_all_lists ExamplesLists.ten))%nat /\
  "Hoja1" <> "" /\ Str.mem "Hoja1" (get_all_lists ExamplesLists.ten) = false /\
  del_fails no_faults = false /\
  add_fails no_faults || Str.mem "Hoja1" (titles ExamplesLists.ten) = true /\
  (@None string = None \/ None = Some "default_template") /\
  exists sp1,
    AppCopy.create_list no_faults ExamplesLists.ten "Hoja1" None =
      Ok (App.Stopped sp1 [st_toast "Borrando la más antigua";
                           st_error "Error al crear la nueva hoja"]) /\
    titles sp1 =
      filter (fun t => negb (String.eqb t
                               (hd "" (get_all_lists ExamplesLists.ten))))
        (titles ExamplesLists.ten) /\
    Str.mem (hd "" (get_all_lists ExamplesLists.ten))
      (titles ExamplesLists.ten) = true /\
    Str.mem (hd "" (get_all_lists ExamplesLists.ten)) (titles sp1) = false.
Proof.
  assert (H10 : (10 <= List.length (get_all_lists ExamplesLists.ten))%nat)
    by (vm_compute; repeat constructor).
  assert (Hne : "Hoja1" <> "") by discriminate.
  assert (Ht : @None string = None \/ None = Some "default_template")
    by (left; reflexivity).
  split; [exact H10|]. split; [exact Hne|]. split; [reflexivity|].
  split; [reflexivity|]. split; [reflexivity|]. split; [exact Ht|].
  exact (X12_failed_creation_after_eviction no_faults ExamplesLists.ten
           "Hoja1" None H10 Hne eq_refl eq_refl eq_refl Ht).
Defined.

(** ** Texts that are not numerals *)

Module CommaFacts.
Import Digits SpecNumbers.

Lemma comma_not_space (c : ascii) :
  Str.is_space c = true -> Ascii.eqb c "," = false.
Proof.
  destruct (Ascii.eqb_spec c ","); [subst; discriminate | reflexivity].
Qed.

Lemma comma_not_digit (c : ascii) :
  is_digit c = true -> Ascii.eqb c "," = false.
Proof.
  destruct (Ascii.eqb_spec c ","); [subst; discriminate | reflexivity].
Qed.

Lemma comma_skip_spaces (s : string) :
  comma_free s = false -> comma_free (Str.skip_spaces s) = false.
Proof.
  induction s as [|c s IH]; [discriminate|].
  cbn [Str.skip_spaces]. destruct (Str.is_space c) eqn:E; [|auto].
  cbn [comma_free]. rewrite (comma_not_space c E). exact IH.
Qed.

Lemma comma_tail (c : ascii) (r : string) :
  Ascii.eqb c "," = false ->
  comma_free (String c r) = false -> comma_free r = false.
Proof. intros E. cbn [comma_free]. now rewrite E. Qed.

Lemma lex_sign_cases (s : string) :
  snd (lex_sign s) = s \/
  exists c, s = String c (snd (lex_sign s)) /\ Ascii.eqb c "," = false.
Proof.
  destruct s as [|c r]; [now left|].
  destruct (Ascii.eqb_spec c "-") as [->|H1];
    [right; exists "-"%char; split; reflexivity|].
  destruct (Ascii.eqb_spec c "+") as [->|H2];
    [right; exists "+"%char; split; reflexivity|].
  left. destruct c as [[] [] [] [] [] [] [] []]; try reflexivity; congruence.
Qed.

Lemma comma_lex_sign (s : string) :
  comma_free s = false -> comma_free (snd (lex_sign s)) = false.
Proof.
  intros H. destruct (lex_sign_cases s) as [->|(c & E & Hc)]; [exact H|].
  rewrite E in H. exact (comma_tail c _ Hc H).
Qed.

Lemma comma_span (s : string) :
  comma_free s = false -> comma_free (snd (span s)) = false.
Proof.
  induction s as [|c s IH]; [discriminate|].
  cbn [span]. destruct (is_digit c) eqn:E; [|auto].
  intros H. apply (comma_tail c s (comma_not_digit c E)) in H.
  specialize (IH H). destruct (span s). exact IH.
Qed.

Lemma lex_fraction_cases (s : string) :
  lex_fraction s = ([], s) \/ exists r, s = String "." r /\ lex_fraction s = span r.
Proof.
  destruct s as [|c r]; [now left|].
  destruct (Ascii.eqb_spec c ".") as [->|H1]; [right; eauto|].
  left. destruct c as [[] [] [] [] [] [] [] []]; try reflexivity; congruence.
Qed.

Lemma comma_lex_fraction (s : string) :
  comma_free s = false -> comma_free (snd (lex_fraction s)) = false.
Proof.
  intros H. destruct (lex_fraction_cases s) as [->|(r & -> & ->)];
    [exact H|].
  apply comma_span. exact (comma_tail "." r eq_refl H).
Qed.

Lemma comma_lex_exponent (s : string) (e : Z) (r : string) :
  comma_free s = false -> lex_exponent s = Some (e, r) ->
  comma_free r = false.
Proof.
  destruct s as [|c s]; [discriminate|]. cbn [lex_exponent].
  destruct (Ascii.eqb c "e" || Ascii.eqb c "E") eqn:E.
  - intros H.
    assert (Hc : Ascii.eqb c "," = false).
    { apply orb_true_iff in E as [E|E]; apply Ascii.eqb_eq in E; now subst. }
    apply (comma_tail c s Hc) in H.
    apply comma_lex_sign in H. destruct (lex_sign s) as [neg r1].
    cbn [snd] in H. apply comma_span in H. destruct (span r1) as [ds r2].
    cbn [snd] in H. destruct ds; [discriminate|]. now intros [= _ <-].
  - now intros H [= _ <-].
Qed.

Lemma lex_decimal_comma (s : string) :
  comma_free s = false -> lex_decimal s = None.
Proof.
  intros H. unfold lex_decimal.
  apply comma_skip_spaces, comma_lex_sign in H.
  destruct (lex_sign (Str.skip_spaces s)) as [neg r0]. cbn [snd] in H.
  apply comma_span in H. destruct (span r0) as [i r1]. cbn [snd] in H.
  apply comma_lex_fraction in H. destruct (lex_fraction r1) as [f r2].
  cbn [snd] in H. destruct (i ++ f); [reflexivity|].
  destruct (lex_exponent r2) as [[e r3]|] eqn:E; [|reflexivity].
  apply (comma_lex_exponent r2 e r3 H), comma_skip_spaces in E.
  destruct (Str.skip_spaces r3); [discriminate | reflexivity].
Qed.

Lemma lower_char_comma (c : ascii) :
  Ascii.eqb (Str.lower_char c) "," = Ascii.eqb c ",".
Proof. destruct c as [[] [] [] [] [] [] [] []]; reflexivity. Qed.

Lemma comma_free_lower (s : string) :
  comma_free (Str.lower s) = comma_free s.
Proof.
  induction s as [|c s IH]; [reflexivity|].
  cbn [Str.lower comma_free]. now rewrite lower_char_comma, IH.
Qed.

Lemma lex_special_comma (s : string) :
  comma_free s = false -> lex_special s = None.
Proof.
  intros H. rewrite <- comma_free_lower in H. unfold lex_special.
  destruct (Str.mem (Str.lower s) ["inf"; "+inf"; "infinity"; "+infinity"])
    eqn:E1.
  { apply DecodeFacts.mem_In in E1. cbn [In] in E1.
    repeat destruct E1 as [E1|E1]; try contradiction;
      rewrite <- E1 in H; discriminate. }
  destruct (Str.mem (Str.lower s) ["-inf"; "-infinity"]) eqn:E2;
    [|reflexivity].
  apply DecodeFacts.mem_In in E2. cbn [In] in E2.
  repeat destruct E2 as [E2|E2]; try contradiction;
    rewrite <- E2 in H; discriminate.
Qed.

(** A text with a comma is not a numeral. *)
Lemma parse_comma (s : string) : comma_free s = false -> parse s = None.
Proof.
  intros H. unfold parse. now rewrite lex_decimal_comma, lex_special_comma.
Qed.

End CommaFacts.

(** ** A list made as a copy *)

Module CopyFacts.
Import SpecCopy SpecWrite.

Lemma get_all_values_filter sp (o t : string) :
  t <> o ->
  get_all_values (filter (fun w => negb (String.eqb (title w) o)) sp) t =
  get_all_values sp t.
Proof.
  intros Hne. unfold get_all_values.
  induction sp as [|w sp IH]; [reflexivity|]. cbn [filter find].
  destruct (String.eqb (title w) o) eqn:Eo; cbn [negb].
  - apply String.eqb_eq in Eo.
    assert (E : String.eqb (title w) t = false)
      by (apply String.eqb_neq; congruence).
    now rewrite E.
  - cbn [find]. destruct (String.eqb (title w) t); [reflexivity | exact IH].
Qed.

(** The eviction step leaves the list that is copied alone, unless it is
    the oldest of ten. *)
Lemma evict_keeps f sp (t : string) :
  (List.length (get_all_lists sp) < 10)%nat \/ t <> hd "" (get_all_lists sp) ->
  Str.mem t (titles sp) = true ->
  Str.mem t (titles (App.evict f sp (get_all_lists sp))) = true /\
  get_all_values (App.evict f sp (get_all_lists sp)) t = get_all_values sp t.
Proof.
  intros H Hm. unfold App.evict.
  destruct (Nat.leb_spec 10 (List.length (get_all_lists sp))) as [H10|H10];
    [|now split].
  destruct H as [H|Hne]; [lia|].
  unfold worksheet.
  destruct (Str.mem (hd "" (get_all_lists sp)) (titles sp)); cbn [bind];
    [|now split].
  unfold del_worksheet. destruct (del_fails f); [now split|]. split.
  - rewrite (NewListFacts.titles_filter
               (fun x => negb (String.eqb x (hd "" (get_all_lists sp))))).
    apply EvictionFacts.mem_filter_true; [exact Hm|].
    apply negb_true_iff, String.eqb_neq. exact Hne.
  - now apply get_all_values_filter.
Qed.

Lemma number_or_zero_ok (c : Cell) :
  (v <- to_numeric errors_coerce c ;; Ok (CFloat (fillna_float zero v))) =
  Ok (CFloat (number_or_zero c)).
Proof.
  unfold number_or_zero.
  destruct (EditorFacts.to_numeric_total c) as (v & ->). reflexivity.
Qed.

(** The table that is written for a copy of the decoded rows. *)
Lemma copy_table (decoded : DataFrame) :
  (df <- App.to_numeric_col Price
           (assign IsChecked (CBool false)
              (assign Price (CFloat zero) decoded)) ;;
   App.to_numeric_col Quantity df) = Ok (map copied decoded).
Proof.
  unfold App.to_numeric_col, assign. rewrite map_map.
  rewrite (RereadFacts.mapM_map_on _ _
             (fun r => set IsChecked (CBool false)
                         (set Price (CFloat zero) r)));
    [|intros r _; destruct r; reflexivity].
  cbn [bind].
  apply RereadFacts.mapM_map_on. intros r _.
  destruct r as [rc rn rq ru rp rk].
  cbn [get set category name quantity unit price is_checked].
  pose proof (number_or_zero_ok rq) as E.
  destruct (to_numeric errors_coerce rq) as [v|e]; cbn [bind] in *;
    [|discriminate].
  injection E as E. unfold copied. cbn [quantity]. now rewrite E.
Qed.

Lemma copied_writable (df : DataFrame) : forallb writable (map copied df) = true.
Proof.
  apply forallb_forall. intros r Hr. apply in_map_iff in Hr as (r0 & <- & _).
  reflexivity.
Qed.

End CopyFacts.

(** X13.  In [app.py], creating a list as a copy of a list that the
    eviction step does not delete, the remote calls for adding and writing
    it going through, writes one line for each row decoded from the list
    copied, in the order of the load and with its category, name and unit,
    with price 0.0 and [is_checked] false, and with the quantity that
    [pd.to_numeric] reads in the stored text, or 0.0 when it reads none. *)
Theorem X13_copy_of_a_list f sp name (t : string) (decoded : DataFrame) :
  Str.mem name (titles sp) = false ->
  add_fails f = false -> clear_fails f = false -> update_fails f = false ->
  t <> "default" -> t <> "" -> Str.mem t (titles sp) = true ->
  (List.length (get_all_lists sp) < 10)%nat \/ t <> hd "" (get_all_lists sp) ->
  read_worksheet_as_df (get_all_values sp t) = Ok decoded ->
  exists sp',
    App.create_list f sp name (Some t) = Ok (App.Done sp' []) /\
    get_all_values sp' name = SpecWrite.grid_of (map SpecCopy.copied decoded).
Proof.
  intros Hname Ha Hc Hu Hd He Hm Hk Hr.
  destruct (CopyFacts.evict_keeps f sp t Hk Hm) as [Hm1 Hg1].
  pose proof (CopyFacts.copy_table decoded) as Ht.
  destruct (App.to_numeric_col Price _) as [df1|] eqn:E1; cbn [bind] in Ht;
    [|discriminate].
  eexists. split.
  - apply (NewListFacts.app_create_eq f sp name (Some t)
             (assign IsChecked (CBool false)
                (assign Price (CFloat zero) decoded))
             df1 (map SpecCopy.copied decoded)); auto.
    + unfold App.seed, worksheet.
      apply String.eqb_neq in Hd, He. rewrite Hd, He, Hm1. cbn [negb bind].
      rewrite Hg1, Hr. reflexivity.
    + apply CopyFacts.copied_writable.
  - apply WriteFacts.get_all_values_put.
    rewrite NewListFacts.titles_snoc. apply NewListFacts.mem_last.
Qed.

Lemma X13_copy_of_a_list_witness :
  Str.mem "M" (titles ExamplesEdit.stocked) = false /\
  add_fails no_faults = false /\ clear_fails no_faults = false /\
  update_fails no_faults = false /\
  "L" <> "default" /\ "L" <> "" /\
  Str.mem "L" (titles ExamplesEdit.stocked) = true /\
  ((List.length (get_all_lists ExamplesEdit.stocked) < 10)%nat \/
   "L" <> hd "" (get_all_lists ExamplesEdit.stocked)) /\
  read_worksheet_as_df (get_all_values ExamplesEdit.stocked "L")
  = Ok SpecCopy.stocked_decoded /\
  exists sp',
    App.create_list no_faults ExamplesEdit.stocked "M" (Some "L")
    = Ok (App.Done sp' []) /\
    get_all_values sp' "M" =
    SpecWrite.grid_of (map SpecCopy.copied SpecCopy.stocked_decoded).
Proof.
  assert (H1 : "L" <> "default") by discriminate.
  assert (H2 : "L" <> "") by discriminate.
  assert (H3 : (List.length (get_all_lists ExamplesEdit.stocked) < 10)%nat \/
               "L" <> hd "" (get_all_lists ExamplesEdit.stocked))
    by (left; vm_compute; repeat constructor).
  assert (H4 : read_worksheet_as_df (get_all_values ExamplesEdit.stocked "L")
               = Ok SpecCopy.stocked_decoded) by (vm_compute; reflexivity).
  split; [reflexivity|]. split; [reflexivity|]. split; [reflexivity|].
  split; [reflexivity|]. split; [exact H1|]. split; [exact H2|].
  split; [reflexivity|]. split; [exact H3|]. split; [exact H4|].
  exact (X13_copy_of_a_list no_faults ExamplesEdit.stocked "M" "L"
           SpecCopy.stocked_decoded eq_refl eq_refl eq_refl eq_refl H1 H2
           eq_refl H3 H4).
Defined.

(** X14.  The numeric cleaning of the quantity before a new list is
    written, [pd.to_numeric(..., errors='coerce').fillna(0.0)], makes 0.0 of
    every text that has a comma: a decimal comma is not read, so that the
    quantities that [write_df_to_worksheet] stored with one are 0.0 in a
    copy. *)
Theorem X14_comma_quantity_becomes_zero (df : DataFrame) :
  Forall (fun r => exists s, quantity r = CStr s /\
                             SpecNumbers.comma_free s = false) df ->
  App.to_numeric_col Quantity df = Ok (map (set Quantity (CFloat zero)) df).
Proof.
  intros H. unfold App.to_numeric_col. apply mapM_map. intros r Hr.
  rewrite Forall_forall in H. destruct (H r Hr) as (s & Hs & Hc).
  cbn [get]. rewrite Hs. cbn [to_numeric].
  now rewrite (CommaFacts.parse_comma s Hc).
Qed.

Lemma comma_rows :
  Forall (fun r => exists s, quantity r = CStr s /\
                             SpecNumbers.comma_free s = false)
    (tl SpecCopy.stocked_decoded).
Proof.
  constructor; [|constructor]. exists "1,5". split; reflexivity.
Defined.

Lemma X14_comma_quantity_becomes_zero_witness :
  Forall (fun r => exists s, quantity r = CStr s /\
                             SpecNumbers.comma_free s = false)
    (tl SpecCopy.stocked_decoded) /\
  App.to_numeric_col Quantity (tl SpecCopy.stocked_decoded) =
  Ok (map (set Quantity (CFloat zero)) (tl SpecCopy.stocked_decoded)).
Proof.
  split; [exact comma_rows|].
  exact (X14_comma_quantity_becomes_zero (tl SpecCopy.stocked_decoded)
           comma_rows).
Defined.

(** X15.  When ten or more lists exist and the deletion of the oldest one
    goes through, creating a list as a copy of that oldest list raises
    [WorksheetNotFound] in [app.py] and in [app copy.py]: the list to copy
    is deleted before it is read, and nothing catches the exception. *)
Theorem X15_copy_of_the_oldest_list f sp name (t : string) :
  (10 <= List.length (get_all_lists sp))%nat ->
  del_fails f = false ->
  Str.mem name (titles sp) = false -> name <> "" ->
  t = hd "" (get_all_lists sp) ->
  t <> "default" -> t <> "default_template" -> t <> "" ->
  App.create_list f sp name (Some t) = Raise WorksheetNotFound /\
  AppCopy.create_list f sp name (Some t) = Raise WorksheetNotFound.
Proof.
  intros H10 Hd Hname Hne Ht H1 H2 H3.
  assert (Hnil : get_all_lists sp <> []).
  { destruct (get_all_lists sp); simpl in *; [lia | discriminate]. }
  pose proof (CreateFacts.oldest_is_tab sp Hnil) as Hold.
  pose proof (NewListFacts.not_listed sp name Hname) as Hl.
  apply Nat.leb_le in H10.
  apply String.eqb_neq in Hne, H1, H2, H3.
  assert (Hgone : Str.mem t
            (titles (filter (fun w => negb (String.eqb (title w) t)) sp))
          = false).
  { rewrite (NewListFacts.titles_filter (fun x => negb (String.eqb x t))).
    apply EvictionFacts.mem_filter_out. }
  assert (Hw : worksheet sp (hd "" (get_all_lists sp)) = Ok t).
  { unfold worksheet. now rewrite Hold, Ht. }
  assert (Hw' : worksheet
                  (filter (fun w => negb (String.eqb (title w) t)) sp) t
                = Raise WorksheetNotFound).
  { unfold worksheet. now rewrite Hgone. }
  split.
  - unfold App.create_list, App.evict. rewrite Hl, H10, Hw. cbn [bind].
    unfold del_worksheet. rewrite Hd.
    unfold App.seed. rewrite H1, H3, Hw'. reflexivity.
  - unfold AppCopy.create_list. rewrite Hne, Hl, H10, Hw. cbn [bind].
    unfold del_worksheet. rewrite Hd.
    unfold AppCopy.seed. rewrite H2, Hw'. reflexivity.
Qed.

Lemma X15_copy_of_the_oldest_list_witness :
  (10 <= List.length (get_all_lists ExamplesLists.ten))%nat /\
  del_fails no_faults = false /\
  Str.mem "Lista 2024-08-17" (titles ExamplesLists.ten) = false /\
  "Lista 2024-08-17" <> "" /\
  "Lista 2024-06-01" = hd "" (get_all_lists ExamplesLists.ten) /\
  "Lista 2024-06-01" <> "default" /\
  "Lista 2024-06-01" <> "default_template" /\ "Lista 2024-06-01" <> "" /\
  App.create_list no_faults ExamplesLists.ten "Lista 2024-08-17"
    (Some "Lista 2024-06-01") = Raise WorksheetNotFound /\
  AppCopy.create_list no_faults ExamplesLists.ten "Lista 2024-08-17"
    (Some "Lista 2024-06-01") = Raise WorksheetNotFound.
Proof.
  assert (H10 : (10 <= List.length (get_all_lists ExamplesLists.ten))%nat)
    by (vm_compute; repeat constructor).
  assert (Hne : "Lista 2024-08-17" <> "") by discriminate.
  assert (Ht : "Lista 2024-06-01" = hd "" (get_all_lists ExamplesLists.ten))
    by (vm_compute; reflexivity).
  assert (H1 : "Lista 2024-06-01" <> "default") by discriminate.
  assert (H2 : "Lista 2024-06-01" <> "default_template") by discriminate.
  assert (H3 : "Lista 2024-06-01" <> "") by discriminate.
  split; [exact H10|]. split; [reflexivity|]. split; [reflexivity|].
  split; [exact Hne|]. split; [exact Ht|]. split; [exact H1|].
  split; [exact H2|]. split; [exact H3|].
  exact (X15_copy_of_the_oldest_list no_faults ExamplesLists.ten
           "Lista 2024-08-17" "Lista 2024-06-01" H10 eq_refl eq_refl Hne Ht
           H1 H2 H3).
Defined.

(** ** Columns that the application does not know *)

Module ColumnFacts.

Lemma index_of_snoc (x y : string) (l : list string) :
  x <> y -> Str.index_of x (l ++ [y]) = Str.index_of x l.
Proof.
  intros Hne. induction l as [|z l IH]; cbn [app Str.index_of].
  - apply String.eqb_neq in Hne. now rewrite Hne.
  - destruct (String.eqb x z); [reflexivity | now rewrite IH].
Qed.

Lemma count_snoc (x y : string) (l : list string) :
  x <> y -> Str.count x (l ++ [y]) = Str.count x l.
Proof.
  intros Hne. induction l as [|z l IH]; cbn [app Str.count].
  - apply String.eqb_neq in Hne. now rewrite Hne.
  - now rewrite IH.
Qed.

Lemma index_of_lt (x : string) (l : list string) (i : nat) :
  Str.index_of x l = Some i -> (i < List.length l)%nat.
Proof.
  revert i. induction l as [|z l IH]; intros i; cbn [Str.index_of];
    [discriminate|].
  destruct (String.eqb x z); [intros [= <-]; simpl; lia|].
  destruct (Str.index_of x l) as [j|]; [|discriminate].
  intros [= <-]. specialize (IH j eq_refl). simpl. lia.
Qed.

Lemma column_snoc (header : list string) (c : Col) (record : list string)
  (x y : string) :
  label c <> x -> List.length record = List.length header ->
  column (header ++ [x]) c (record ++ [y]) = column header c record.
Proof.
  intros Hne Hlen. unfold column. rewrite (index_of_snoc _ _ _ Hne).
  destruct (Str.index_of (label c) header) as [i|] eqn:E; [|reflexivity].
  apply index_of_lt in E. rewrite nth_error_app1 by lia. reflexivity.
Qed.

End ColumnFacts.

(** X16.  A column whose header is none of the six labels is ignored by
    [read_worksheet_as_df]: a sheet with such a column after the others is
    decoded as the sheet without it. *)
Theorem X16_unknown_column_is_ignored (header : list string)
  (records : list (list string)) (x : string) (cell : list string -> string) :
  (forall c, label c <> x) ->
  read_worksheet_as_df
    ((header ++ [x]) :: map (fun r => r ++ [cell r]) records) =
  read_worksheet_as_df (header :: records).
Proof.
  intros Hx. unfold read_worksheet_as_df.
  assert (E1 : forallb (fun r => (List.length r =? List.length (header ++ [x]))%nat)
                 (map (fun r => r ++ [cell r]) records) =
               forallb (fun r => (List.length r =? List.length header)%nat)
                 records).
  { induction records as [|r l IH]; [reflexivity|]. cbn [map forallb].
    rewrite IH, !length_app. cbn [List.length].
    f_equal. destruct (Nat.eqb_spec (List.length r) (List.length header));
      [apply Nat.eqb_eq | apply Nat.eqb_neq]; lia. }
  rewrite E1.
  destruct (forallb _ records) eqn:Hw; [|reflexivity]. cbn [negb].
  assert (E2 : existsb (fun c => (1 <? Str.count (label c) (header ++ [x]))%nat)
                 expected_cols =
               existsb (fun c => (1 <? Str.count (label c) header)%nat)
                 expected_cols).
  { apply ShopFormFacts.existsb_same. intros c.
    now rewrite (ColumnFacts.count_snoc _ _ _ (Hx c)). }
  rewrite E2.
  destruct (existsb (fun c => (1 <? Str.count (label c) header)%nat)
              expected_cols); [reflexivity|].
  f_equal. f_equal. f_equal. rewrite map_map. apply map_ext_in.
  intros r Hr. rewrite forallb_forall in Hw. specialize (Hw r Hr).
  apply Nat.eqb_eq in Hw. unfold row_of.
  now rewrite !(ColumnFacts.column_snoc header _ r x (cell r)) by auto.
Qed.

Lemma X16_unknown_column_is_ignored_witness :
  (forall c, label c <> "notes") /\
  read_worksheet_as_df
    ((Examples.header6 ++ ["notes"]) ::
     map (fun r => r ++ [(fun _ => "fresh") r]) (tl Examples.demo_grid)) =
  read_worksheet_as_df (Examples.header6 :: tl Examples.demo_grid).
Proof.
  assert (H : forall c, label c <> "notes")
    by (intros c; destruct c; discriminate).
  split; [exact H|].
  exact (X16_unknown_column_is_ignored Examples.header6
           (tl Examples.demo_grid) "notes" (fun _ => "fresh") H).
Defined.

(** ** Failures during an edit *)

Module FailureFacts.
Import SpecWrite.

Lemma write_update_failed f sp ws (df : DataFrame) :
  forallb writable df = true ->
  clear_fails f = false -> update_fails f = true ->
  write_df_to_worksheet f sp ws df =
  Ok (false, put sp ws [], [st_error "Error guardando"]).
Proof.
  intros Hw Hc Hu. unfold write_df_to_worksheet.
  destruct (WriteFacts.values_of_writable df Hw) as (values & -> & _).
  cbn [bind]. unfold clear, update. now rewrite Hc, Hu.
Qed.

Lemma load_emptied sp list_name :
  Str.mem list_name (titles sp) = true ->
  App.get_list_data (put sp list_name []) list_name = Ok [].
Proof.
  intros Hm. unfold App.get_list_data, worksheet.
  rewrite WriteFacts.titles_put, Hm. cbn [bind].
  now rewrite WriteFacts.get_all_values_put.
Qed.

End FailureFacts.

(** X17.  When [clear] goes through and [update] fails during
    [delete_item], the list is left without any item: loading it returns
    the empty table; the error of the write is shown and, after it, the
    message that the item was deleted, since the result of the write is not
    looked at.  [save_instant_edit] of the quantity or of the unit, the two
    fields that its call sites pass, leaves the list empty in the same
    way. *)
Theorem X17_edit_with_failed_update f sp list_name item_name (col : Col)
  (new_val : Cell) (df : DataFrame) :
  App.get_list_data sp list_name = Ok df ->
  clear_fails f = false -> update_fails f = true ->
  col = Quantity \/ col = Unit ->
  SpecWrite.storable col new_val = true ->
  App.delete_item f sp list_name item_name =
    (put sp list_name [],
     [st_error "Error guardando"; st_toast "eliminado"]) /\
  App.save_instant_edit f sp list_name item_name col new_val =
    (put sp list_name [], [st_error "Error guardando"]) /\
  App.get_list_data (put sp list_name []) list_name = Ok [].
Proof.
  intros Hload Hc Hu Hcol Hst.
  assert (Hcat : col <> Category)
    by (destruct Hcol as [-> | ->]; discriminate).
  pose proof (WriteFacts.load_loaded_rows sp list_name df (or_introl Hload))
    as Hrows.
  destruct (WriteFacts.worksheet_of_load _ _ _ Hload) as [Hws Hm].
  rewrite Forall_forall in Hrows.
  split; [|split; [|now apply FailureFacts.load_emptied]].
  - unfold App.delete_item. rewrite Hload, Hws. cbn [bind].
    rewrite FailureFacts.write_update_failed; auto.
    apply forallb_forall. intros r Hr. apply filter_In in Hr as [Hr _].
    now apply WriteFacts.loaded_row_writable, Hrows.
  - unfold App.save_instant_edit. rewrite Hload. cbn [bind].
    rewrite (EditFacts.loc_assign_plain df item_name col new_val Hcat).
    cbn [bind]. rewrite Hws. cbn [bind].
    rewrite FailureFacts.write_update_failed; auto.
    apply forallb_forall. intros r Hr.
    apply in_map_iff in Hr as (r0 & <- & Hr0).
    pose proof (WriteFacts.loaded_row_writable r0 (Hrows r0 Hr0)) as Hw.
    destruct (eq_str (name r0) item_name); auto.
    now apply set_writable.
Qed.

Lemma X17_edit_with_failed_update_witness :
  App.get_list_data ExamplesEdit.stocked "L" = Ok ExamplesEdit.stocked_loaded /\
  clear_fails ExamplesFaults.update_breaks = false /\
  update_fails ExamplesFaults.update_breaks = true /\
  (Unit = Quantity \/ Unit = Unit) /\
  SpecWrite.storable Unit (CStr "g") = true /\
  App.delete_item ExamplesFaults.update_breaks ExamplesEdit.stocked "L" "Pera"
  = (put ExamplesEdit.stocked "L" [],
     [st_error "Error guardando"; st_toast "eliminado"]) /\
  App.save_instant_edit ExamplesFaults.update_breaks ExamplesEdit.stocked "L"
    "Pera" Unit (CStr "g")
  = (put ExamplesEdit.stocked "L" [], [st_error "Error guardando"]) /\
  App.get_list_data (put ExamplesEdit.stocked "L" []) "L" = Ok [].
Proof.
  assert (H : App.get_list_data ExamplesEdit.stocked "L"
              = Ok ExamplesEdit.stocked_loaded) by (vm_compute; reflexivity).
  assert (Hk : Unit = Quantity \/ Unit = Unit) by (right; reflexivity).
  split; [exact H|]. split; [reflexivity|]. split; [reflexivity|].
  split; [exact Hk|]. split; [reflexivity|].
  exact (X17_edit_with_failed_update ExamplesFaults.update_breaks
           ExamplesEdit.stocked "L" "Pera" Unit (CStr "g")
           ExamplesEdit.stocked_loaded H eq_refl eq_refl Hk eq_refl).
Defined.

(** X19.  On a title that no tab has, [get_list_data] raises
    [WorksheetNotFound]; [delete_item], [save_instant_edit] and the
    quick-add form then change nothing and show their error message. *)
Theorem X19_missing_list f sp list_name item_name (col : Col)
  (new_val : Cell) q_n q_c (q_q : float64) q_u :
  Str.mem list_name (titles sp) = false ->
  App.get_list_data sp list_name = Raise WorksheetNotFound /\
  AppCopy.get_list_data sp list_name = Raise WorksheetNotFound /\
  App.delete_item f sp list_name item_name = (sp, [st_error "Error borrando"]) /\
  App.save_instant_edit f sp list_name item_name col new_val =
    (sp, [st_error "Error guardando"]) /\
  App.quick_add f sp list_name q_n q_c q_q q_u =
    Ok (sp, [st_error "Error cargando lista."]).
Proof.
  intros Hm.
  assert (H1 : App.get_list_data sp list_name = Raise WorksheetNotFound)
    by (unfold App.get_list_data, worksheet; now rewrite Hm).
  assert (H2 : AppCopy.get_list_data sp list_name = Raise WorksheetNotFound)
    by (unfold AppCopy.get_list_data, worksheet; now rewrite Hm).
  split; [exact H1|]. split; [exact H2|].
  unfold App.delete_item, App.save_instant_edit, App.quick_add.
  rewrite H1. repeat split.
Qed.

Lemma X19_missing_list_witness :
  Str.mem "M" (titles ExamplesEdit.stocked) = false /\
  App.get_list_data ExamplesEdit.stocked "M" = Raise WorksheetNotFound /\
  AppCopy.get_list_data ExamplesEdit.stocked "M" = Raise WorksheetNotFound /\
  App.delete_item no_faults ExamplesEdit.stocked "M" "Pera"
  = (ExamplesEdit.stocked, [st_error "Error borrando"]) /\
  App.save_instant_edit no_faults ExamplesEdit.stocked "M" "Pera" Unit
    (CStr "g") = (ExamplesEdit.stocked, [st_error "Error guardando"]) /\
  App.quick_add no_faults ExamplesEdit.stocked "M" "Pan" "📦 Otros" half "kg"
  = Ok (ExamplesEdit.stocked, [st_error "Error cargando lista."]).
Proof.
  split; [reflexivity|].
  exact (X19_missing_list no_faults ExamplesEdit.stocked "M" "Pera" Unit
           (CStr "g") "Pan" "📦 Otros" half "kg" eq_refl).
Defined.

(** ** Rounding to six significant digits *)

Module RoundingFacts.
Import Digits SpecNumbers SpecRounding DigitFacts TrimFacts SaveLoadFacts.

Lemma of_digits_snoc (l : list nat) (d : nat) :
  of_digits (l ++ [d]) = (of_digits l * 10 + N.of_nat d)%N.
Proof. unfold of_digits. now rewrite fold_left_app. Qed.

Lemma of_digits_upper (l : list nat) :
  digits_ok l -> (of_digits l < 10 ^ N.of_nat (List.length l))%N.
Proof.
  induction l as [|d l IH] using rev_ind; intros H; [reflexivity|].
  apply Forall_app in H as [Hl Hd]. inversion Hd as [|? ? Hlt _]; subst.
  rewrite of_digits_snoc, length_app. cbn [List.length].
  replace (N.of_nat (List.length l + 1)) with (N.succ (N.of_nat (List.length l)))
    by lia.
  rewrite N.pow_succ_r'. specialize (IH Hl). lia.
Qed.

Lemma of_digits_lower (l : list nat) :
  l <> [] -> hd 1 l <> 0 ->
  (10 ^ N.of_nat (List.length l - 1) <= of_digits l)%N.
Proof.
  induction l as [|d l IH] using rev_ind; intros Hne Hhd; [congruence|].
  rewrite of_digits_snoc, length_app. cbn [List.length].
  destruct l as [|a l].
  - cbn in *. lia.
  - assert (Hl : a :: l <> []) by discriminate.
    specialize (IH Hl Hhd). cbn [List.length] in *.
    replace (S (List.length l) + 1 - 1)%nat with (S (List.length l)) by lia.
    replace (S (List.length l) - 1)%nat with (List.length l) in IH by lia.
    rewrite Nat2N.inj_succ, N.pow_succ_r'. lia.
Qed.

Lemma to_digits_fuel_zero (fuel : nat) (acc : list nat) :
  to_digits_fuel fuel 0 acc = acc.
Proof. destruct fuel; reflexivity. Qed.

Lemma to_digits_fuel_head (fuel : nat) (n : N) (acc : list nat) :
  (n < 2 ^ N.of_nat fuel)%N -> n <> 0%N ->
  to_digits_fuel fuel n acc <> [] /\ hd 1 (to_digits_fuel fuel n acc) <> 0.
Proof.
  revert n acc. induction fuel as [|fuel IH]; intros n acc Hn Hnz.
  - simpl in Hn. lia.
  - cbn [to_digits_fuel]. destruct (N.eqb_spec n 0) as [|_]; [contradiction|].
    assert (Hdiv : (n / 10 < 2 ^ N.of_nat fuel)%N).
    { rewrite Nat2N.inj_succ, N.pow_succ_r' in Hn.
      apply N.Div0.div_lt_upper_bound. lia. }
    destruct (N.eqb_spec (n / 10) 0) as [Hz|Hz].
    + rewrite Hz, to_digits_fuel_zero. split; [discriminate|].
      cbn [hd]. pose proof (N.div_mod n 10). lia.
    + now apply IH.
Qed.

Lemma to_digits_head (n : N) :
  n <> 0%N -> to_digits n <> [] /\ hd 1 (to_digits n) <> 0.
Proof.
  intros Hn. apply to_digits_fuel_head; [|exact Hn].
  rewrite Nat2N.inj_succ, N2Nat.id.
  destruct n as [|p]; [congruence|]. apply N.log2_spec. lia.
Qed.

Lemma to_digits_length (n : N) (p : nat) :
  n <> 0%N -> (n < 10 ^ N.of_nat p)%N -> (List.length (to_digits n) <= p)%nat.
Proof.
  intros Hn Hlt. destruct (to_digits_head n Hn) as [Hne Hhd].
  pose proof (of_digits_lower _ Hne Hhd) as Hlo.
  rewrite of_to_digits in Hlo.
  assert (H : (10 ^ N.of_nat (List.length (to_digits n) - 1)
               < 10 ^ N.of_nat p)%N) by lia.
  apply N.pow_lt_mono_r_iff in H; lia.
Qed.

(** Trailing zeros dropped. *)
Lemma strip_trailing_snoc0 (l : list nat) :
  strip_trailing (l ++ [0]) = strip_trailing l.
Proof. exact (strip_trailing_zeros 1 l). Qed.

Lemma strip_trailing_snoc (l : list nat) (d : nat) :
  d <> 0 -> strip_trailing (l ++ [d]) = l ++ [d].
Proof. intros H. apply strip_trailing_last. now rewrite last_last. Qed.

Lemma strip_trailing_head (l : list nat) :
  l <> [] -> hd 1 l <> 0 ->
  strip_trailing l <> [] /\ hd 1 (strip_trailing l) = hd 1 l.
Proof.
  induction l as [|d l IH] using rev_ind; intros Hne Hhd; [congruence|].
  destruct d as [|d].
  - rewrite strip_trailing_snoc0.
    destruct l as [|a l]; [cbn in Hhd; congruence|].
    destruct (IH ltac:(discriminate) Hhd) as [H1 H2]. now split.
  - rewrite strip_trailing_snoc by discriminate. now split.
Qed.

Lemma strip_trailing_end (l : list nat) : last (strip_trailing l) 1 <> 0.
Proof.
  induction l as [|d l IH] using rev_ind; [cbn; discriminate|].
  destruct d as [|d].
  - now rewrite strip_trailing_snoc0.
  - rewrite strip_trailing_snoc by discriminate. rewrite last_last.
    discriminate.
Qed.

Lemma strip_trailing_length (l : list nat) :
  (List.length (strip_trailing l) <= List.length l)%nat.
Proof.
  induction l as [|d l IH] using rev_ind; [cbn; lia|].
  rewrite length_app. cbn [List.length]. destruct d as [|d].
  - rewrite strip_trailing_snoc0. lia.
  - rewrite strip_trailing_snoc by discriminate. rewrite length_app.
    cbn [List.length]. lia.
Qed.

Lemma last_digit (l : list nat) :
  digits_ok l -> l <> [] -> N.of_nat (last l 0) = (of_digits l mod 10)%N.
Proof.
  destruct l as [|d l] using rev_ind; intros H Hne; [congruence|].
  apply Forall_app in H as [_ Hd]. inversion Hd as [|? ? Hlt _]; subst.
  rewrite last_last, of_digits_snoc.
  rewrite N.add_comm, N.Div0.mod_add. symmetry. apply N.mod_small. lia.
Qed.

(** The digits that are left after rounding up are at most [p]. *)
Lemma rounded_up_length (p : nat) (hd0 : list nat) :
  (1 <= p)%nat -> digits_ok hd0 -> List.length hd0 = p ->
  (List.length (strip_trailing (to_digits (of_digits hd0 + 1))) <= p)%nat.
Proof.
  intros Hp Hd Hlen.
  pose proof (of_digits_upper hd0 Hd) as Hup. rewrite Hlen in Hup.
  set (n := (of_digits hd0 + 1)%N) in *.
  assert (Hn : n <> 0%N) by (unfold n; lia).
  destruct (N.eq_dec n (10 ^ N.of_nat p)) as [E|E].
  - destruct (to_digits_head n Hn) as [Hne _].
    pose proof (last_digit (to_digits n) (to_digits_ok n) Hne) as Hl.
    rewrite of_to_digits in Hl.
    assert (Hm : (n mod 10 = 0)%N).
    { rewrite E.
      replace (N.of_nat p) with (N.succ (N.of_nat (p - 1))) by lia.
      now rewrite N.pow_succ_r', N.mul_comm, N.Div0.mod_mul. }
    rewrite Hm in Hl.
    assert (Hz : last (to_digits n) 0 = 0) by lia.
    assert (Hlen' : (List.length (to_digits n) <= S p)%nat).
    { apply to_digits_length; [exact Hn|].
      rewrite E, Nat2N.inj_succ, N.pow_succ_r'.
      assert (0 < 10 ^ N.of_nat p)%N by (apply N.neq_0_lt_0, N.pow_nonzero; lia).
      lia. }
    destruct (to_digits n) as [|a l] using rev_ind; [congruence|].
    rewrite last_last in Hz. subst a. rewrite strip_trailing_snoc0.
    rewrite length_app in Hlen'. cbn [List.length] in Hlen'.
    pose proof (strip_trailing_length l). lia.
  - pose proof (strip_trailing_length (to_digits n)).
    assert ((List.length (to_digits n) <= p)%nat)
      by (apply to_digits_length; [exact Hn | unfold n in *; lia]).
    lia.
Qed.

Lemma round_sig_canonical (ds : list nat) (x : Z) :
  digits_ok ds -> ds <> [] -> hd 1 ds <> 0 -> last ds 1 <> 0 ->
  let r := round_sig 6 ds x in
  digits_ok (fst r) /\ fst r <> [] /\ hd 1 (fst r) <> 0 /\
  last (fst r) 1 <> 0 /\ (List.length (fst r) <=? 6)%nat = true.
Proof.
  intros Hd Hne Hhd Hlast r. unfold r, round_sig.
  destruct (Nat.leb_spec (List.length ds) 6) as [Hle|Hgt].
  - cbn [fst]. repeat split; auto. now apply Nat.leb_le.
  - assert (Hf : firstn 6 ds <> [] /\ hd 1 (firstn 6 ds) = hd 1 ds /\
                 List.length (firstn 6 ds) = 6).
    { rewrite length_firstn. destruct ds; [congruence|].
      repeat split; [discriminate | lia]. }
    destruct Hf as (Hfne & Hfhd & Hflen).
    pose proof (digits_ok_firstn 6 ds Hd) as Hfd.
    match goal with |- context [if ?c then _ else _] => destruct c end;
      cbn [fst].
    + set (n := (of_digits (firstn 6 ds) + 1)%N).
      assert (Hn : n <> 0%N) by (unfold n; lia).
      destruct (to_digits_head n Hn) as [Hne' Hhd'].
      destruct (strip_trailing_head _ Hne' Hhd') as [H1 H2].
      split; [apply digits_ok_strip_trailing, to_digits_ok|].
      split; [exact H1|]. split; [now rewrite H2|].
      split; [apply strip_trailing_end|].
      apply Nat.leb_le. apply rounded_up_length; auto. lia.
    + assert (Hhd' : hd 1 (firstn 6 ds) <> 0) by now rewrite Hfhd.
      destruct (strip_trailing_head _ Hfne Hhd') as [H1 H2].
      split; [now apply digits_ok_strip_trailing|].
      split; [exact H1|]. split; [now rewrite H2|].
      split; [apply strip_trailing_end|].
      apply Nat.leb_le. pose proof (strip_trailing_length (firstn 6 ds)). lia.
Qed.

Lemma rounded_canonical (v : float64) :
  canonical v -> canonical (rounded v) /\ fits 6 (rounded v) = true.
Proof.
  destruct v as [neg ds x|neg|]; [|now split | now split].
  destruct ds as [|d ds]; [now split|].
  intros (Hd & Hhd & Hlast & _). unfold rounded.
  pose proof (round_sig_canonical (d :: ds) x Hd ltac:(discriminate) Hhd Hlast)
    as H. cbv zeta in H.
  destruct (round_sig 6 (d :: ds) x) as [ds' x']. cbn [fst] in H.
  destruct H as (H1 & H2 & H3 & H4 & H5).
  split; [|exact H5]. repeat split; auto. congruence.
Qed.

(** A float is printed as its rounded value is. *)
Lemma format_g_rounded (v : float64) :
  canonical v -> format_g (rounded v) = format_g v.
Proof.
  destruct v as [neg ds x|neg|]; [|reflexivity | reflexivity].
  destruct ds as [|d ds]; [reflexivity|].
  intros (Hd & Hhd & Hlast & _). unfold rounded.
  pose proof (round_sig_canonical (d :: ds) x Hd ltac:(discriminate) Hhd Hlast)
    as H. cbv zeta in H.
  unfold format_g at 2.
  destruct (round_sig 6 (d :: ds) x) as [ds' x']. cbn [fst] in H.
  destruct H as (_ & H2 & _ & _ & H5).
  unfold format_g. destruct ds' as [|d' ds']; [congruence|].
  now rewrite (RoundTripFacts.round_sig_fits 6 (d' :: ds') x' H5).
Qed.

Lemma rounded_not_nan (v : float64) : is_nan v = false -> is_nan (rounded v) = false.
Proof.
  destruct v as [neg [|d ds] x|neg|]; auto. intros _. unfold rounded.
  now destruct (round_sig 6 (d :: ds) x).
Qed.

End RoundingFacts.

(** X20.  A number that is not NaN is written by [format_to_comma_string]
    as a text that the decimal coercion of [get_list_data] reads back as
    the number rounded to six significant digits: what a save followed by a
    load keeps of a number is its first six significant digits, rounded.
    The rounding is that of the [g] format, to the numeral of six digits
    nearest to the binary float of the number. *)
Theorem X20_number_rounded_to_six_digits (v : float64) :
  canonical v -> is_nan v = false ->
  exists s, format_to_comma_string (CFloat v) = Ok s /\
            App.coerce_decimal (CStr s) =
            Ok (CFloat (SpecRounding.rounded v)).
Proof.
  intros Hc Hn. exists (SpecWrite.comma_text (CFloat v)). split.
  - now apply WriteFacts.format_to_comma_string_text.
  - destruct (RoundingFacts.rounded_canonical v Hc) as [Hrc Hrf].
    pose proof (RoundingFacts.rounded_not_nan v Hn) as Hrn.
    rewrite <- (SaveLoadFacts.coerce_decimal_comma_text _ Hrc Hrf Hrn).
    f_equal. f_equal.
    assert (E : forall w, is_nan w = false ->
                SpecWrite.comma_text (CFloat w) =
                Str.replace "." "," (format_g w))
      by (intros [ | |]; [reflexivity | reflexivity | discriminate]).
    rewrite (E v Hn), (E _ Hrn).
    now rewrite RoundingFacts.format_g_rounded.
Qed.

Lemma seven_digits_rounded :
  SpecRounding.rounded SpecRounding.seven_digits = SpecRounding.six_digits.
Proof. vm_compute. reflexivity. Qed.

(** 36745.95 lies halfway between 36745.9 and 36746; its float is below it,
    and it is written as [36745,9]. *)
Lemma halfway_canonical : canonical ExamplesPrecision.halfway.
Proof. cbn. repeat split; try discriminate. repeat constructor. Defined.

Lemma halfway_is_rounded_down :
  SpecRounding.rounded ExamplesPrecision.halfway
  = ExamplesPrecision.halfway_rounded /\
  format_to_comma_string (CFloat ExamplesPrecision.halfway) = Ok "36745,9".
Proof. split; vm_compute; reflexivity. Qed.

Lemma X20_number_rounded_to_six_digits_witness :
  canonical ExamplesPrecision.halfway /\
  is_nan ExamplesPrecision.halfway = false /\
  exists s, format_to_comma_string (CFloat ExamplesPrecision.halfway) = Ok s /\
            App.coerce_decimal (CStr s) =
            Ok (CFloat (SpecRounding.rounded ExamplesPrecision.halfway)).
Proof.
  split; [exact halfway_canonical|]. split; [reflexivity|].
  exact (X20_number_rounded_to_six_digits ExamplesPrecision.halfway
           halfway_canonical eq_refl).
Defined.

(** ** The shopping form of [app copy.py] *)

Module CopyShopFacts.
Import SpecWrite SpecShopForm SpecCopyShop.

Lemma submitted_loaded (widgets : ShopForm.Widgets) (i : nat) (r : Row) :
  loaded_row r ->
  (exists q, quantity (submitted widgets i r) = CFloat q /\ is_nan q = false) /\
  (exists p, price (submitted widgets i r) = CFloat p) /\
  (exists b, is_checked (submitted widgets i r) = CBool b).
Proof.
  intros (Hq & (p & Hp & _) & Hb & _). unfold submitted.
  destruct (shown r); cbn [set quantity price is_checked]; eauto.
Qed.

Lemma clean_rows (df : DataFrame) :
  Forall (fun r => (exists q, quantity r = CFloat q /\ is_nan q = false) /\
                   (exists p, price r = CFloat p) /\
                   (exists b, is_checked r = CBool b)) df ->
  (df1 <- AppCopy.fill_checked df ;;
   df2 <- App.to_numeric_col Price df1 ;;
   App.to_numeric_col Quantity df2) = Ok (map cleaned df).
Proof.
  intros H. rewrite Forall_forall in H.
  unfold AppCopy.fill_checked.
  rewrite (mapM_map _ (fun r => r)).
  2:{ intros r Hr. destruct (H r Hr) as (_ & _ & (b & Hb)).
      destruct r; cbn in Hb; subst. reflexivity. }
  rewrite map_id. cbn [bind]. unfold App.to_numeric_col.
  rewrite (mapM_map _ cleaned).
  2:{ intros r _. cbn [get]. unfold cleaned.
      pose proof (CopyFacts.number_or_zero_ok (price r)) as E.
      destruct (to_numeric errors_coerce (price r)); cbn [bind] in *;
        [|discriminate].
      injection E as E. now rewrite E. }
  cbn [bind]. rewrite (RereadFacts.mapM_map_on _ cleaned cleaned);
    [reflexivity|].
  intros r Hr. destruct (H r Hr) as ((q & Hq & Hn) & _).
  unfold cleaned at 1 2. destruct r as [rc rn rq ru rp rk].
  cbn in Hq. subst rq.
  cbn [get set quantity price category name unit is_checked to_numeric bind].
  unfold fillna_float. rewrite Hn. reflexivity.
Qed.

End CopyShopFacts.

(** X21.  In [app copy.py] the save button of the shopping form, the remote
    calls going through, writes the rows of the loaded table with the
    values of the form, as in [app.py], but without the rows whose name is
    missing, and with [0.0] for a price that is not a number. *)
Theorem X21_copy_shopping_save f sp list_name (items_df : DataFrame)
  (widgets : ShopForm.Widgets) :
  clear_fails f = false -> update_fails f = false ->
  AppCopy.get_list_data sp list_name = Ok items_df ->
  let saved :=
    map SpecCopyShop.cleaned
      (dropna_name
         (map (fun ir => SpecShopForm.submitted widgets (fst ir) (snd ir))
            (ShopForm.iterrows items_df))) in
  AppCopyShop.save_shopping f sp list_name items_df widgets =
    (put sp list_name (SpecWrite.grid_of saved),
     [st_success "¡Lista guardada con éxito!"]) /\
  Forall (fun r => isna (name r) = false) saved.
Proof.
  intros Hc Hu Hload saved.
  pose proof (WriteFacts.load_loaded_rows sp list_name items_df
                (or_intror Hload)) as Hrows.
  rewrite Forall_forall in Hrows.
  assert (Hm : Str.mem list_name (titles sp) = true).
  { unfold AppCopy.get_list_data, worksheet in Hload.
    destruct (Str.mem list_name (titles sp)); [reflexivity | discriminate]. }
  assert (Hshape :
    Forall (fun r => (exists q, quantity r = CFloat q /\ is_nan q = false) /\
                     (exists p, price r = CFloat p) /\
                     (exists b, is_checked r = CBool b))
      (dropna_name
         (map (fun ir => SpecShopForm.submitted widgets (fst ir) (snd ir))
            (ShopForm.iterrows items_df)))).
  { apply Forall_forall. intros r Hr. apply filter_In in Hr as [Hr _].
    apply in_map_iff in Hr as ([i r0] & <- & Hr0). cbn [fst snd].
    apply CopyShopFacts.submitted_loaded. apply Hrows.
    rewrite <- (ShopFormFacts.map_snd_indexed 0 items_df).
    apply in_map_iff. exists (i, r0). split; [reflexivity | exact Hr0]. }
  split.
  - unfold AppCopyShop.save_shopping, AppCopyShop.df_to_save.
    rewrite ShopFormFacts.df_save_rows.
    rewrite (CopyShopFacts.clean_rows _ Hshape). fold saved.
    unfold worksheet. rewrite Hm. cbn [bind].
    rewrite WriteFacts.write_df_to_worksheet_ok; auto.
    apply forallb_forall. intros r Hr. unfold saved in Hr.
    apply in_map_iff in Hr as (r0 & <- & Hr0).
    rewrite Forall_forall in Hshape.
    destruct (Hshape r0 Hr0) as ((q & Hq & _) & _).
    unfold SpecWrite.writable, SpecCopyShop.cleaned.
    cbn [set quantity price]. now rewrite Hq.
  - apply Forall_forall. intros r Hr. unfold saved in Hr.
    apply in_map_iff in Hr as (r0 & <- & Hr0).
    apply filter_In in Hr0 as [_ Hn]. unfold SpecCopyShop.cleaned.
    cbn [set name]. now apply negb_true_iff in Hn.
Qed.

Lemma X21_copy_shopping_save_witness :
  clear_fails no_faults = false /\ update_fails no_faults = false /\
  AppCopy.get_list_data Examples.nameless "L" = Ok Examples.nameless_loaded /\
  let saved :=
    map SpecCopyShop.cleaned
      (dropna_name
         (map (fun ir => SpecShopForm.submitted SpecShopForm.all_checked
                           (fst ir) (snd ir))
            (ShopForm.iterrows Examples.nameless_loaded))) in
  AppCopyShop.save_shopping no_faults Examples.nameless "L"
    Examples.nameless_loaded SpecShopForm.all_checked =
    (put Examples.nameless "L" (SpecWrite.grid_of saved),
     [st_success "¡Lista guardada con éxito!"]) /\
  Forall (fun r => isna (name r) = false) saved.
Proof.
  assert (H : AppCopy.get_list_data Examples.nameless "L"
              = Ok Examples.nameless_loaded) by (vm_compute; reflexivity).
  split; [reflexivity|]. split; [reflexivity|]. split; [exact H|].
  exact (X21_copy_shopping_save no_faults Examples.nameless "L"
           Examples.nameless_loaded SpecShopForm.all_checked
           eq_refl eq_refl H).
Defined.

(** ** Update by name, persisted *)




(** ** Decoding a grid and encoding it again *)

Module CycleFacts.
Import SpecCycle.















(** Rounding leaves a number of at most six digits as it is. *)
Lemma rounded_row_of_plain (r : Row) : plain_row r -> rounded_row r = r.
Proof.
  intros (_ & _ & (q & Hq & _ & Hfq & _) & _ & (p & Hp & _ & Hfp & _) & _).
  assert (E : forall v, fits 6 v = true -> SpecRounding.rounded v = v).
  { intros [neg [|d ds] x| |] Hf; try reflexivity.
    unfold SpecRounding.rounded.
    now rewrite (RoundTripFacts.round_sig_fits 6 (d :: ds) x Hf). }
  destruct r as [c n q0 u p0 k]. cbn [quantity price] in Hq, Hp. subst.
  unfold rounded_row. cbn [category name quantity unit price is_checked
    round_cell]. now rewrite (E q Hfq), (E p Hfp).
Qed.

End CycleFacts.




(** ** The copy of a list *)

(** C6.  A copy does not keep a quantity that is stored with decimals.
    [get_list_data] reads the decimal comma that [write_df_to_worksheet]
    writes, replacing it before [pd.to_numeric]; the copy of a list reads
    the sheet with [read_worksheet_as_df] alone and hands the text to
    [pd.to_numeric], which reads no number in it.  The list [L] holds 1,5 kg
    of [Pera], loaded as 1.5; in its copy [M], made by [app.py] or by
    [app copy.py], the quantity of [Pera] is 0, the other fields being as
    the property has them. *)
Theorem C6_copy_loses_decimal_quantity :
  App.get_list_data ExamplesEdit.stocked "L" = Ok ExamplesEdit.stocked_loaded /\
  (exists sp',
     App.create_list no_faults ExamplesEdit.stocked "M" (Some "L")
     = Ok (App.Done sp' []) /\
     get_all_values sp' "M" = ExamplesCopy.copy_grid /\
     App.get_list_data sp' "M" = Ok ExamplesCopy.copy_loaded) /\
  (exists sp',
     AppCopy.create_list no_faults ExamplesEdit.stocked "M" (Some "L")
     = Ok (App.Done sp' [st_success "creada"]) /\
     get_all_values sp' "M" = ExamplesCopy.copy_grid /\
     AppCopy.get_list_data sp' "M" = Ok ExamplesCopy.copy_loaded) /\
  map quantity ExamplesEdit.stocked_loaded
  = [CFloat (FFin false [2] 0); CFloat (FFin false [1; 5] 0)] /\
  map quantity ExamplesCopy.copy_loaded
  = [CFloat (FFin false [2] 0); CFloat zero].
Proof.
  split; [vm_compute; reflexivity|].
  split; [eexists; repeat split; vm_compute; reflexivity|].
  split; [eexists; repeat split; vm_compute; reflexivity|].
  split; reflexivity.
Qed.
